(** * WGSAnalysis: the Snippy and SPAdes batch drivers

    A shallow embedding of [snippy_snakemake/snippy_analysis.py] and
    [spades_analysis/spades_analysis.py].

    Both scripts are orchestration code: they walk a directory tree, build
    path strings, call an external binary once per sample and count the
    outcomes.  The embedding therefore consists of

    - the handful of [str] and [os.path] operations the scripts use, over
      8-bit strings (text is taken to be ASCII: no other code point counts
      as white space or as a digit);
    - a file system: a tree of directories and files, a working directory,
      path resolution component by component (no symbolic links, no
      permissions);
    - a state-and-exception monad carrying the file system, the event
      trace (log records, console output, system calls that matter), the
      lines still to be typed by the user and a counter of spawned
      processes; the log file and the console are the trace, they are
      not files of the modelled tree;
    - the two drivers, function by function.

    The external tool and the gzip decoder are opaque: they are parameters
    of the drivers.  Only exceptions deriving from Python's [Exception] are
    modelled; an interactive interrupt is not. *)

From Stdlib Require Import String Ascii List ZArith Lia Bool DecimalString OrderedTypeEx.
From Stdlib.Strings Require Import Byte.
Import ListNotations.
Set Warnings "-register-all".
Open Scope string_scope.
Open Scope list_scope.

(* ================================================================= *)
(** ** Python strings *)

Module Py.

(** [str.startswith] *)
Definition startswith (s pre : string) : bool := String.prefix pre s.

(** [str.endswith]: a string ends with [suf] when it is [suf] or when
    what follows its first character ends with [suf]. *)
Fixpoint endswith (s suf : string) : bool :=
  String.eqb s suf
  || match s with
     | EmptyString => false
     | String _ s' => endswith s' suf
     end.

(** [str.replace old new], [old] not empty: the occurrences of [old]
    are found left to right and do not overlap.  [skip] counts the
    characters of an occurrence that are still to be dropped. *)
Fixpoint replace_from (old new : string) (skip : nat) (s : string) : string :=
  match s with
  | EmptyString => EmptyString
  | String c s' =>
      match skip with
      | S k => replace_from old new k s'
      | O =>
          if String.prefix old s
          then new ++ replace_from old new (String.length old - 1) s'
          else String c (replace_from old new 0 s')
      end
  end.

Definition replace (s old new : string) : string := replace_from old new 0 s.

(** [str.isspace] on one ASCII character: TAB, LF, VT, FF, CR, FS, GS,
    RS, US and the space. *)
Definition isspace (c : ascii) : bool :=
  let n := nat_of_ascii c in
  ((9 <=? n) && (n <=? 13) || (28 <=? n) && (n <=? 32))%nat.

Fixpoint lstrip_chars (l : list ascii) : list ascii :=
  match l with
  | c :: l' => if isspace c then lstrip_chars l' else l
  | [] => []
  end.

(** [str.strip()] *)
Definition strip (s : string) : string :=
  string_of_list_ascii
    (rev (lstrip_chars (rev (lstrip_chars (list_ascii_of_string s))))).

Definition is_digit (c : ascii) : bool :=
  let n := nat_of_ascii c in ((48 <=? n) && (n <=? 57))%nat.

(** [str.isdigit()]: false on the empty string. *)
Definition isdigit (s : string) : bool :=
  match s with
  | EmptyString => false
  | _ => forallb is_digit (list_ascii_of_string s)
  end.

(** [int(s)] on a string of digits. *)
Definition int_of_digits (s : string) : Z :=
  fold_left (fun acc c => 10 * acc + Z.of_nat (nat_of_ascii c - 48))%Z
            (list_ascii_of_string s) 0%Z.

(** [str(n)] on an [int]. *)
Definition str_of_int (z : Z) : string := NilZero.string_of_int (Z.to_int z).

(** [str(n)] on a length or a counter. *)
Definition str_of_nat (n : nat) : string := str_of_int (Z.of_nat n).

(** [sep.join(l)] *)
Definition join_with (sep : string) (l : list string) : string :=
  String.concat sep l.

(** [ch * n] *)
Fixpoint repeat_char (c : ascii) (n : nat) : string :=
  match n with
  | O => EmptyString
  | S k => String c (repeat_char c k)
  end.

(** [sorted(l)] on strings, which Python orders by code point.  The
    order is total and equal strings are indistinguishable, so the
    result does not depend on the algorithm. *)
Fixpoint insert_sorted (x : string) (l : list string) : list string :=
  match l with
  | [] => [x]
  | y :: l' => if String.leb x y then x :: l else y :: insert_sorted x l'
  end.

Definition sorted (l : list string) : list string :=
  fold_right insert_sorted [] l.

(** Truthiness of a [str] and of a [list]. *)
Definition truthy (s : string) : bool := negb (String.eqb s "").

Definition nonempty {A} (l : list A) : bool :=
  match l with [] => false | _ => true end.

End Py.

(* ================================================================= *)
(** ** [os.path] on POSIX *)

Module posixpath.

(** [os.path.join(a, b)]: an absolute [b] discards [a]; a separator is
    added unless [a] is empty or ends with one. *)
Definition join (a b : string) : string :=
  if Py.startswith b "/" then b
  else if (String.eqb a "" || Py.endswith a "/") then a ++ b
  else a ++ "/" ++ b.

(** [os.path.join(a, b, c)] *)
Definition join3 (a b c : string) : string := join (join a b) c.

(** [os.path.basename]: what follows the last separator. *)
Fixpoint basename_from (acc : string) (s : string) : string :=
  match s with
  | EmptyString => acc
  | String c s' =>
      if Ascii.eqb c "/" then basename_from s' s' else basename_from acc s'
  end.

Definition basename (p : string) : string := basename_from p p.

(** The components of a path: the pieces between separators (some may
    be empty). *)
Fixpoint components_from (cur : string) (s : string) : list string :=
  match s with
  | EmptyString => [cur]
  | String c s' =>
      if Ascii.eqb c "/" then cur :: components_from "" s'
      else components_from (cur ++ String c "") s'
  end.

Definition components (p : string) : list string := components_from "" p.

Definition no_slash (s : string) : bool :=
  forallb (fun ch => negb (Ascii.eqb ch "/")) (list_ascii_of_string s).

(** A file name: not empty, not [.] or [..], without separator. *)
Definition is_name (c : string) : bool :=
  negb (String.eqb c "") && negb (String.eqb c ".") && negb (String.eqb c "..")
  && no_slash c.

End posixpath.

(* ================================================================= *)
(** ** Exceptions *)

(** The [OSError] subclasses the scripts can meet, by [errno]. *)
Inductive os_error :=
| ENOENT    (* FileNotFoundError *)
| ENOTDIR   (* NotADirectoryError *)
| EEXIST    (* FileExistsError *)
| EISDIR    (* IsADirectoryError *)
| EACCES    (* PermissionError *)
| EIO.      (* a plain OSError *)

(** Exceptions, all of them subclasses of [Exception]. *)
Inductive exn :=
| OSError (k : os_error) (msg : string)
| CalledProcessError (returncode : Z) (cmd : list string) (stdout stderr : string)
| EOFError (msg : string)
| OtherError (cls msg : string).   (* gzip.BadGzipFile, zlib.error, ... *)

Definition os_error_eqb (a b : os_error) : bool :=
  match a, b with
  | ENOENT, ENOENT | ENOTDIR, ENOTDIR | EEXIST, EEXIST
  | EISDIR, EISDIR | EACCES, EACCES | EIO, EIO => true
  | _, _ => false
  end.

(** [isinstance(e, FileNotFoundError)] *)
Definition is_FileNotFoundError (e : exn) : bool :=
  match e with OSError ENOENT _ => true | _ => false end.

(** [isinstance(e, subprocess.CalledProcessError)] *)
Definition is_CalledProcessError (e : exn) : bool :=
  match e with CalledProcessError _ _ _ _ => true | _ => false end.

(** The text CPython gives an [OSError] raised by a system call on
    [path] (the path is shown between quotes, without escapes). *)
Definition strerror (k : os_error) (path : string) : string :=
  (match k with
   | ENOENT => "[Errno 2] No such file or directory: '"
   | ENOTDIR => "[Errno 20] Not a directory: '"
   | EEXIST => "[Errno 17] File exists: '"
   | EISDIR => "[Errno 21] Is a directory: '"
   | EACCES => "[Errno 13] Permission denied: '"
   | EIO => "[Errno 5] Input/output error: '"
   end) ++ path ++ "'".

(** [str(e)] *)
Definition str_of_exn (e : exn) : string :=
  match e with
  | OSError _ msg => msg
  | CalledProcessError rc cmd _ _ =>
      "Command '['" ++ Py.join_with "', '" cmd
        ++ "']' returned non-zero exit status " ++ Py.str_of_int rc ++ "."
  | EOFError msg => msg
  | OtherError _ msg => msg
  end.

(* ================================================================= *)
(** ** The file system *)

Module Fs.

(** A file holds bytes, a directory holds named entries, in the order
    [os.listdir] reports them. *)
Inductive node :=
| File (data : list byte)
| Dir (entries : list (string * node)).

Fixpoint assoc {A} (k : string) (l : list (string * A)) : option A :=
  match l with
  | [] => None
  | (k', v) :: l' => if String.eqb k' k then Some v else assoc k l'
  end.

(** The node at a canonical path: a list of names from the root. *)
Fixpoint get (n : node) (p : list string) : option node :=
  match p with
  | [] => Some n
  | c :: p' =>
      match n with
      | Dir es =>
          match assoc c es with
          | Some ch => get ch p'
          | None => None
          end
      | File _ => None
      end
  end.

(** Change the entry named [c] of a directory with [upd]; when there is
    none, the entries [fresh] go last. *)
Fixpoint alter_entry (c : string) (upd : node -> node)
         (fresh : list (string * node)) (l : list (string * node))
  : list (string * node) :=
  match l with
  | [] => fresh
  | (k, ch) :: l' =>
      if String.eqb k c then (k, upd ch) :: l'
      else (k, ch) :: alter_entry c upd fresh l'
  end.

(** Store [x] at a canonical path whose parent is a directory: an
    existing entry is replaced, a new one goes last. *)
Fixpoint put (n : node) (p : list string) (x : node) {struct p} : node :=
  match p with
  | [] => x
  | c :: p' =>
      match n with
      | Dir es =>
          Dir (alter_entry c (fun ch => put ch p' x)
                           (match p' with [] => [(c, x)] | _ => [] end) es)
      | File _ => n
      end
  end.

(** The entries of every directory bear file names. *)
Fixpoint wf (n : node) : bool :=
  match n with
  | File _ => true
  | Dir es => forallb (fun e => posixpath.is_name (fst e) && wf (snd e)) es
  end.

Record t := mk { root : node; cwd : list string }.

Definition with_root (fs : t) (r : node) : t := mk r (cwd fs).

Definition is_dir_node (o : option node) : bool :=
  match o with Some (Dir _) => true | _ => false end.

(** Path resolution, one component at a time from the canonical path
    [cur]: every component is looked up in a directory that exists;
    the last one need not exist itself. *)
Fixpoint walk (r : node) (cur : list string) (cs : list string)
  : os_error + list string :=
  match cs with
  | [] => inr cur
  | c :: cs' =>
      match get r cur with
      | Some (Dir _) =>
          if String.eqb c "" || String.eqb c "." then walk r cur cs'
          else if String.eqb c ".." then walk r (removelast cur) cs'
          else walk r (cur ++ [c]) cs'
      | Some (File _) => inl ENOTDIR
      | None => inl ENOENT
      end
  end.

(** The canonical path of the entry [c] of the directory at [q]. *)
Definition child_of (r : node) (q : list string) (c : string)
  : os_error + list string :=
  match get r q with
  | Some (Dir _) => inr (q ++ [c])
  | Some (File _) => inl ENOTDIR
  | None => inl ENOENT
  end.

Definition resolve (fs : t) (p : string) : os_error + list string :=
  if String.eqb p "" then inl ENOENT
  else walk (root fs) (if Py.startswith p "/" then [] else cwd fs)
            (posixpath.components p).

(** [os.stat] *)
Definition stat (fs : t) (p : string) : os_error + node :=
  match resolve fs p with
  | inl e => inl e
  | inr q =>
      match get (root fs) q with
      | Some n => inr n
      | None => inl ENOENT
      end
  end.

(** [os.path.exists] *)
Definition exists_ (fs : t) (p : string) : bool :=
  match stat fs p with inr _ => true | inl _ => false end.

(** [os.path.isdir] *)
Definition isdir (fs : t) (p : string) : bool :=
  match stat fs p with inr (Dir _) => true | _ => false end.

(** [os.listdir] *)
Definition listdir (fs : t) (p : string) : os_error + list string :=
  match stat fs p with
  | inr (Dir es) => inr (map fst es)
  | inr (File _) => inl ENOTDIR
  | inl e => inl e
  end.

(** Reading a whole file. *)
Definition read (fs : t) (p : string) : os_error + list byte :=
  match stat fs p with
  | inr (File d) => inr d
  | inr (Dir _) => inl EISDIR
  | inl e => inl e
  end.

(** [open(p, 'wb')] followed by writing [data]: the file is created or
    truncated. *)
Definition write (fs : t) (p : string) (data : list byte) : os_error + t :=
  match resolve fs p with
  | inl e => inl e
  | inr q =>
      match get (root fs) q with
      | Some (Dir _) => inl EISDIR
      | _ => inr (with_root fs (put (root fs) q (File data)))
      end
  end.

Definition all_blank (cs : list string) : bool :=
  forallb (fun c => String.eqb c "" || String.eqb c ".") cs.

(** [os.makedirs(p, exist_ok=True)], component by component: missing
    directories are created on the way, and stay when a later
    component fails. *)
Fixpoint makedirs_walk (r : node) (cur : list string) (cs : list string)
  : node * option os_error :=
  match cs with
  | [] => (r, None)
  | c :: cs' =>
      match get r cur with
      | Some (Dir es) =>
          if String.eqb c "" || String.eqb c "." then makedirs_walk r cur cs'
          else if String.eqb c ".." then makedirs_walk r (removelast cur) cs'
          else
            match assoc c es with
            | Some (Dir _) => makedirs_walk r (cur ++ [c]) cs'
            | Some (File _) => (r, Some (if all_blank cs' then EEXIST else ENOTDIR))
            | None => makedirs_walk (put r (cur ++ [c]) (Dir [])) (cur ++ [c]) cs'
            end
      | Some (File _) => (r, Some ENOTDIR)
      | None => (r, Some ENOENT)
      end
  end.

Definition makedirs (fs : t) (p : string) : t * option os_error :=
  if String.eqb p "" then (fs, Some ENOENT)
  else
    let '(r, e) := makedirs_walk (root fs)
                     (if Py.startswith p "/" then [] else cwd fs)
                     (posixpath.components p) in
    (with_root fs r, e).

End Fs.

(* ================================================================= *)
(** ** The run-time: state, events, exceptions *)

Module Rt.

Inductive level := INFO | WARNING | ERROR.

(** What a run leaves behind for an observer, in order. *)
Inductive event :=
| Log (lv : level) (msg : string)   (* logger.info / warning / error *)
| Stdout (line : string)             (* print(line) *)
| Prompt (text : string)            (* input(text) *)
| Listdir (path : string)           (* os.listdir(path) *)
| Makedirs (path : string)          (* os.makedirs(path, exist_ok=True) *)
| Spawn (cmd : list string)         (* subprocess.run(cmd, ...) *)
| GzipOpen (path : string)          (* gzip.open(path, 'rb') *)
| OpenWrite (path : string).        (* open(path, 'wb') *)

(** What becomes of a spawned process: it ran and exited with a status
    and its captured output, or it could not be executed at all. *)
Inductive outcome :=
| Exited (returncode : Z) (stdout stderr : string)
| ExecFailed (k : os_error).

(** The opaque collaborators.  [tool n cmd fs] is the [n]-th process
    spawned by the run, started with [cmd] on the file system [fs]: its
    outcome and the tree it leaves.  [gunzip] decodes a gzip stream:
    the bytes it produced and, when the stream is bad, the exception
    raised at that point. *)
Record env := mk_env {
  tool : nat -> list string -> Fs.t -> outcome * Fs.node;
  gunzip : list byte -> list byte * option exn
}.

Record state := mk_state {
  fs : Fs.t;
  trace : list event;
  stdin : list string;     (* the lines the user has yet to type *)
  spawned : nat
}.

(** A computation ends with a value or with an exception; either way
    it leaves a state. *)
Definition M (A : Type) : Type := state -> (exn + A) * state.

Definition ret {A} (a : A) : M A := fun st => (inr a, st).

Definition bind {A B} (m : M A) (k : A -> M B) : M B :=
  fun st =>
    match m st with
    | (inr a, st') => k a st'
    | (inl e, st') => (inl e, st')
    end.

Definition raise {A} (e : exn) : M A := fun st => (inl e, st).

(** [try: m  except ...: h]: [h e] is [None] when no clause matches
    [e], which then propagates. *)
Definition try_except {A} (m : M A) (h : exn -> option (M A)) : M A :=
  fun st =>
    match m st with
    | (inr a, st') => (inr a, st')
    | (inl e, st') =>
        match h e with
        | Some k => k st'
        | None => (inl e, st')
        end
    end.

Definition emit (e : event) : M unit :=
  fun st => (inr tt, mk_state (fs st) (trace st ++ [e]) (stdin st) (spawned st)).

Definition set_fs (f : Fs.t) : M unit :=
  fun st => (inr tt, mk_state f (trace st) (stdin st) (spawned st)).

Definition lift_os {A} (path : string) (r : os_error + A) : M A :=
  match r with
  | inr a => ret a
  | inl k => raise (OSError k (strerror k path))
  end.

End Rt.

Import Rt.

Declare Scope py_scope.
Delimit Scope py_scope with py.
Notation "x <- m ;; k" := (bind m (fun x => k))
  (at level 100, m at next level, right associativity) : py_scope.
Notation "' p <- m ;; k" := (bind m (fun p => k))
  (at level 100, p strict pattern, m at next level, right associativity) : py_scope.
Notation "m ;; k" := (bind m (fun _ => k))
  (at level 100, right associativity) : py_scope.
Open Scope py_scope.

Module Os.

Definition log (lv : level) (msg : string) : M unit := emit (Log lv msg).

Definition print (line : string) : M unit := emit (Stdout line).

(** [input(text)]: the next line typed; [EOFError] when there is none. *)
Definition input (text : string) : M string :=
  fun st =>
    let tr := trace st ++ [Prompt text] in
    match stdin st with
    | line :: rest => (inr line, mk_state (fs st) tr rest (spawned st))
    | [] => (inl (EOFError "EOF when reading a line"),
             mk_state (fs st) tr [] (spawned st))
    end.

Definition path_exists (p : string) : M bool :=
  fun st => (inr (Fs.exists_ (fs st) p), st).

Definition path_isdir (p : string) : M bool :=
  fun st => (inr (Fs.isdir (fs st) p), st).

Definition listdir (p : string) : M (list string) :=
  emit (Listdir p) ;;
  fun st => lift_os p (Fs.listdir (fs st) p) st.

Definition makedirs (p : string) : M unit :=
  emit (Makedirs p) ;;
  fun st =>
    let '(f, e) := Fs.makedirs (fs st) p in
    (set_fs f ;;
     match e with
     | None => ret tt
     | Some k => raise (OSError k (strerror k p))
     end) st.

(** [subprocess.run(cmd, capture_output=True, check=True)]: the captured
    output of a process that exited with status zero;
    [CalledProcessError] for any other status; the [OSError] of the
    failed [exec] when the program could not be started. *)
Definition subprocess_run (E : env) (cmd : list string) : M (string * string) :=
  emit (Spawn cmd) ;;
  fun st =>
    let '(o, r) := tool E (spawned st) cmd (fs st) in
    match o with
    | Exited rc out err =>
        let st' := mk_state (Fs.with_root (fs st) r) (trace st) (stdin st)
                            (S (spawned st)) in
        if (rc =? 0)%Z then (inr (out, err), st')
        else (inl (CalledProcessError rc cmd out err), st')
    | ExecFailed k =>
        (inl (OSError k (strerror k (hd "" cmd))), st)
    end.

(** [with gzip.open(src, 'rb') as f_in:
       with open(dst, 'wb') as f_out:
         shutil.copyfileobj(f_in, f_out)] *)
Definition gunzip_to (E : env) (src dst : string) : M unit :=
  emit (GzipOpen src) ;;
  z <- (fun st => lift_os src (Fs.read (fs st) src) st) ;;
  emit (OpenWrite dst) ;;
  let '(data, err) := gunzip E z in
  f <- (fun st => lift_os dst (Fs.write (fs st) dst data) st) ;;
  set_fs f ;;
  match err with
  | None => ret tt
  | Some e => raise e
  end.

(** [for x in l: acc = body x acc] *)
Fixpoint for_each {A S} (l : list A) (body : A -> S -> M S) (acc : S) : M S :=
  match l with
  | [] => ret acc
  | x :: l' => acc' <- body x acc ;; for_each l' body acc'
  end.

(** [[x for x in l if p(x)]] *)
Fixpoint filter_m {A} (p : A -> M bool) (l : list A) : M (list A) :=
  match l with
  | [] => ret []
  | x :: l' =>
      b <- p x ;;
      r <- filter_m p l' ;;
      ret (if b then x :: r else r)
  end.

(** [while True: v = input(text).strip(); if ok(v): break; print(err)].
    Every turn reads one line, so the loop is bounded by the lines
    [pending] when it starts; with none left [input] raises. *)
Fixpoint ask_loop (text err : string) (ok : string -> M bool)
         (pending : list string) : M string :=
  match pending with
  | [] => input text
  | _ :: rest =>
      line <- input text ;;
      let v := Py.strip line in
      b <- ok v ;;
      if b then ret v
      else (print err ;; ask_loop text err ok rest)
  end.

Definition ask_until (text err : string) (ok : string -> M bool) : M string :=
  fun st => ask_loop text err ok (stdin st) st.

End Os.

(* ================================================================= *)
(** ** snippy_snakemake/snippy_analysis.py *)

Module Snippy.

Import Os.

(** The attributes of a [SnippyAnalysis] object. *)
Record t := mk {
  base_path : string;
  output_base_dir : string;
  ref_genome_path : string;
  cpu_cores : Z;
  strains : list string
}.

Definition supported_strains : list string :=
  [ "Acinetobacterbaumannii";
    "Pseudomonasaeruginosa";
    "Staphylococcusaureus";
    "Klebsiellapneumoniae" ].

(** [SnippyAnalysis.__init__] *)
Definition init (base_path output_base_dir ref_genome_path : string)
           (cpu_cores : Z) : M t :=
  let self := mk base_path output_base_dir ref_genome_path cpu_cores
                 supported_strains in
  makedirs (output_base_dir) ;;
  ret self.

Definition sample := (string * string)%type.   (* (strain, sample_name) *)

Section Methods.

Variable E : env.
Variable self : t.

(** The body of [for item in os.listdir(strain_path)]. *)
Definition scan_item (strain strain_path item : string)
           (samples : list sample) : M (list sample) :=
  let item_path := posixpath.join strain_path item in
  d <- path_isdir item_path ;;
  if d && Py.startswith item "MCR_CVU_" then
    log INFO ("Found sample: " ++ strain ++ "/" ++ item) ;;
    ret (samples ++ [(strain, item)])
  else ret samples.

(** The body of [for strain in self.strains]. *)
Definition scan_strain (strain : string) (samples : list sample)
  : M (list sample) :=
  let strain_path := posixpath.join (base_path self) strain in
  e <- path_exists strain_path ;;
  if negb e then
    log WARNING ("Strain path does not exist: " ++ strain_path) ;;
    ret samples
  else
    items <- listdir strain_path ;;
    for_each items (scan_item strain strain_path) samples.

(** [SnippyAnalysis.get_samples] *)
Definition get_samples : M (list sample) :=
  e <- path_exists (base_path self) ;;
  if negb e then
    log ERROR ("Base path does not exist: " ++ base_path self) ;;
    ret []
  else
    samples <- for_each (strains self) scan_strain [] ;;
    log INFO ("Total samples found: " ++ Py.str_of_nat (length samples)) ;;
    ret samples.

(** The body of [for file in os.listdir(sample_path)]. *)
Definition classify (sample_path file : string)
           (acc : list string * list string) : list string * list string :=
  let '(R1_files, R2_files) := acc in
  let file_path := posixpath.join sample_path file in
  if Py.endswith file "R1_trimmed.fastq" then (R1_files ++ [file_path], R2_files)
  else if Py.endswith file "R2_trimmed.fastq" then (R1_files, R2_files ++ [file_path])
  else acc.

Definition fastq_dir (strain sample : string) : string :=
  posixpath.join (posixpath.join3 (base_path self) strain sample)
                 "ILLUMINA_DATA".

(** [SnippyAnalysis.get_fastq_files] *)
Definition get_fastq_files (strain sample : string) : M (string * string) :=
  let sample_path := fastq_dir strain sample in
  e <- path_exists sample_path ;;
  if negb e then
    raise (OSError ENOENT ("Sample path does not exist: " ++ sample_path))
  else
    files <- listdir sample_path ;;
    let '(R1_files, R2_files) :=
      fold_left (fun acc file => classify sample_path file acc) files ([], []) in
    let R1_files := Py.sorted R1_files in
    let R2_files := Py.sorted R2_files in
    match R1_files, R2_files with
    | r1 :: _, r2 :: _ =>
        log INFO ("Found FASTQ files for: " ++ strain ++ "/" ++ sample) ;;
        log INFO ("  R1: " ++ posixpath.basename r1) ;;
        log INFO ("  R2: " ++ posixpath.basename r2) ;;
        ret (r1, r2)
    | _, _ =>
        raise (OSError ENOENT
                 ("No matching FASTQ files found for: " ++ strain ++ "/" ++ sample))
    end.

Definition output_dir (strain sample : string) : string :=
  posixpath.join3 (output_base_dir self) strain (sample ++ "_mysnps").

Definition snippy_cmd (strain sample R1_file R2_file : string) : list string :=
  [ "snippy";
    "--cpu"; Py.str_of_int (cpu_cores self);
    "--outdir"; output_dir strain sample;
    "--ref"; ref_genome_path self;
    "--R1"; R1_file;
    "--R2"; R2_file ].

Definition snippy_not_found_msg : string :=
  "Snippy command not found. Please ensure Snippy is properly installed".

(** [SnippyAnalysis.run_snippy] *)
Definition run_snippy (strain sample R1_file R2_file : string) : M bool :=
  let output_dir := output_dir strain sample in
  makedirs output_dir ;;
  let cmd := snippy_cmd strain sample R1_file R2_file in
  log INFO ("Starting Snippy analysis: " ++ strain ++ "/" ++ sample) ;;
  log INFO ("Command: " ++ Py.join_with " " cmd) ;;
  try_except
    (_ <- subprocess_run E cmd ;;
     log INFO ("Snippy completed successfully: " ++ strain ++ "/" ++ sample) ;;
     log INFO ("Output directory: " ++ output_dir) ;;
     ret true)
    (fun e =>
       match e with
       | CalledProcessError returncode _ _ stderr =>
           Some (log ERROR ("Snippy failed for: " ++ strain ++ "/" ++ sample) ;;
                 log ERROR ("Return code: " ++ Py.str_of_int returncode) ;;
                 log ERROR ("Error message: " ++ stderr) ;;
                 ret false)
       | OSError ENOENT _ =>
           Some (log ERROR snippy_not_found_msg ;;
                 ret false)
       | _ => None
       end).

(** [SnippyAnalysis.validate_inputs] *)
Definition validate_inputs : M bool :=
  e <- path_exists (base_path self) ;;
  if negb e then
    log ERROR ("Base path does not exist: " ++ base_path self) ;;
    ret false
  else
    r <- path_exists (ref_genome_path self) ;;
    if negb r then
      log ERROR ("Reference genome file does not exist: " ++ ref_genome_path self) ;;
      ret false
    else
      try_except
        (_ <- subprocess_run E ["snippy"; "--version"] ;;
         log INFO "Snippy tool validation successful" ;;
         ret true)
        (fun e =>
           if is_CalledProcessError e || is_FileNotFoundError e then
             Some (log ERROR "Snippy command not found or version check failed" ;;
                   ret false)
           else None).

(** The body of [for strain, sample in samples]; the accumulator is
    [(success_count, failed_count)]. *)
Definition process_sample (s : sample) (counts : nat * nat) : M (nat * nat) :=
  let '(strain, sample) := s in
  let '(success_count, failed_count) := counts in
  try_except
    ('(R1_file, R2_file) <- get_fastq_files strain sample ;;
     ok <- run_snippy strain sample R1_file R2_file ;;
     if ok then ret (success_count + 1, failed_count)
     else ret (success_count, failed_count + 1))
    (fun e =>
       Some (log ERROR ("Failed to process sample " ++ strain ++ "/" ++ sample
                          ++ ": " ++ str_of_exn e) ;;
             ret (success_count, failed_count + 1))).

Definition rule : string := Py.repeat_char "=" 60.

(** [SnippyAnalysis.run_analysis] *)
Definition run_analysis : M unit :=
  log INFO "Starting SNP analysis workflow" ;;
  valid <- validate_inputs ;;
  if negb valid then
    log ERROR "Input validation failed, exiting analysis"
  else
    samples <- get_samples ;;
    if negb (Py.nonempty samples) then
      log ERROR "No samples found, exiting analysis"
    else
      '(success_count, failed_count) <- for_each samples process_sample (0, 0) ;;
      log INFO rule ;;
      log INFO "Analysis completed!" ;;
      log INFO ("Successfully processed: " ++ Py.str_of_nat success_count ++ " samples") ;;
      log INFO ("Failed samples: " ++ Py.str_of_nat failed_count ++ " samples") ;;
      log INFO ("Total samples: " ++ Py.str_of_nat (length samples) ++ " samples") ;;
      log INFO ("Results saved in: " ++ output_base_dir self) ;;
      log INFO rule.

End Methods.

(** The configuration [get_user_inputs] returns. *)
Record config := mk_config {
  cfg_base_path : string;
  cfg_output_dir : string;
  cfg_ref_genome : string;
  cfg_cpu_cores : Z
}.

Definition nonempty_and_exists (v : string) : M bool :=
  e <- path_exists v ;;
  ret (Py.truthy v && e).

(** [get_user_inputs] *)
Definition get_user_inputs : M config :=
  print "SNP Detection Pipeline using Snippy" ;;
  print rule ;;
  print "Please provide the following configuration:" ;;
  print "" ;;
  base_path <- ask_until "Base path for FASTQ files: "
                 "Error: Path does not exist or is empty. Try again."
                 nonempty_and_exists ;;
  line <- input "Output directory: " ;;
  let output_dir := Py.strip line in
  let output_dir := if negb (Py.truthy output_dir) then "./snippy_results"
                    else output_dir in
  makedirs output_dir ;;
  ref_genome <- ask_until "Reference genome file: "
                  "Error: File does not exist or is empty. Try again."
                  nonempty_and_exists ;;
  line <- input "CPU cores [16]: " ;;
  let cpu_input := Py.strip line in
  let cpu_cores := if Py.isdigit cpu_input then Py.int_of_digits cpu_input
                   else 16%Z in
  print "" ;;
  print "Configuration:" ;;
  print ("  Base path: " ++ base_path) ;;
  print ("  Output: " ++ output_dir) ;;
  print ("  Reference: " ++ ref_genome) ;;
  print ("  CPU cores: " ++ Py.str_of_int cpu_cores) ;;
  print "" ;;
  ret (mk_config base_path output_dir ref_genome cpu_cores).

(** [main], without the handler for an interactive interrupt. *)
Definition main (E : env) : M unit :=
  try_except
    (config <- get_user_inputs ;;
     analysis <- init (cfg_base_path config) (cfg_output_dir config)
                      (cfg_ref_genome config) (cfg_cpu_cores config) ;;
     run_analysis E analysis)
    (fun e => Some (print ("Error: " ++ str_of_exn e))).

End Snippy.

(* ================================================================= *)
(** ** spades_analysis/spades_analysis.py *)

Module Spades.

Import Os.

(** The attributes of a [SpadesAnalysis] object. *)
Record t := mk {
  base_input_dir : string;
  base_output_dir : string;
  cpu_cores : Z
}.

(** [SpadesAnalysis.__init__] *)
Definition init (base_input_dir base_output_dir : string) (cpu_cores : Z) : M t :=
  let self := mk base_input_dir base_output_dir cpu_cores in
  makedirs base_output_dir ;;
  ret self.

Definition r1_suffix : string := "_R1_trimmed.fastq.gz".
Definition r2_suffix : string := "_R2_trimmed.fastq.gz".

Section Methods.

Variable E : env.
Variable self : t.

(** The body of [for r1_file in r1_files]. *)
Definition scan_r1 (directory input_dir r1_file : string)
           (samples : list string) : M (list string) :=
  let r2_file := Py.replace r1_file r1_suffix r2_suffix in
  let r2_path := posixpath.join input_dir r2_file in
  e <- path_exists r2_path ;;
  if e then
    let sample_name := Py.replace r1_file r1_suffix "" in
    let sample_path := posixpath.join3 directory "ILLUMINA_DATA" sample_name in
    log INFO ("Found sample: " ++ sample_path) ;;
    ret (samples ++ [sample_path])
  else
    log WARNING ("Missing R2 file for " ++ r1_file ++ ": " ++ r2_path) ;;
    ret samples.

(** The body of [for directory in directories]. *)
Definition scan_directory (directory : string) (samples : list string)
  : M (list string) :=
  let input_dir := posixpath.join3 (base_input_dir self) directory "ILLUMINA_DATA" in
  e <- path_exists input_dir ;;
  if negb e then
    log WARNING ("ILLUMINA_DATA directory not found: " ++ input_dir) ;;
    ret samples
  else
    names <- listdir input_dir ;;
    let r1_files := filter (fun f => Py.endswith f "R1_trimmed.fastq.gz") names in
    for_each r1_files (scan_r1 directory input_dir) samples.

(** [SpadesAnalysis.get_samples] *)
Definition get_samples : M (list string) :=
  e <- path_exists (base_input_dir self) ;;
  if negb e then
    log ERROR ("Base input directory does not exist: " ++ base_input_dir self) ;;
    ret []
  else
    names <- listdir (base_input_dir self) ;;
    directories <- filter_m
                     (fun d => path_isdir (posixpath.join (base_input_dir self) d))
                     names ;;
    samples <- for_each directories scan_directory [] ;;
    log INFO ("Total samples found: " ++ Py.str_of_nat (length samples)) ;;
    ret samples.

Definition r1_gz (sample_path : string) : string :=
  posixpath.join (base_input_dir self) (sample_path ++ "_R1_trimmed.fastq.gz").
Definition r2_gz (sample_path : string) : string :=
  posixpath.join (base_input_dir self) (sample_path ++ "_R2_trimmed.fastq.gz").
Definition r1_fastq (sample_path : string) : string :=
  posixpath.join (base_input_dir self) (sample_path ++ "_R1_trimmed.fastq").
Definition r2_fastq (sample_path : string) : string :=
  posixpath.join (base_input_dir self) (sample_path ++ "_R2_trimmed.fastq").

(** [if os.path.exists(gz): try: <gunzip> except Exception as e: log; raise
     else: raise FileNotFoundError], for one of the two reads. *)
Definition decompress_one (read gz fastq : string) : M unit :=
  e <- path_exists gz ;;
  if e then
    try_except
      (gunzip_to E gz fastq ;;
       log INFO ("Decompressed " ++ read ++ ": " ++ posixpath.basename gz))
      (fun e =>
         Some (log ERROR ("Failed to decompress " ++ gz ++ ": " ++ str_of_exn e) ;;
               raise e))
  else
    raise (OSError ENOENT (read ++ " file not found: " ++ gz)).

(** [SpadesAnalysis.decompress_fastq] *)
Definition decompress_fastq (sample_path : string) : M (string * string) :=
  let r1_gz := r1_gz sample_path in
  let r2_gz := r2_gz sample_path in
  let r1_fastq := r1_fastq sample_path in
  let r2_fastq := r2_fastq sample_path in
  log INFO ("Decompressing FASTQ files for: " ++ sample_path) ;;
  e1 <- path_exists r1_fastq ;;
  e2 <- (if e1 then path_exists r2_fastq else ret false) ;;
  if e1 && e2 then
    log INFO ("FASTQ files already decompressed: " ++ sample_path) ;;
    ret (r1_fastq, r2_fastq)
  else
    decompress_one "R1" r1_gz r1_fastq ;;
    decompress_one "R2" r2_gz r2_fastq ;;
    ret (r1_fastq, r2_fastq).

Definition assembly_dir (sample_path : string) : string :=
  posixpath.join (base_output_dir self)
                 (posixpath.basename sample_path ++ "_assembly").

Definition spades_cmd (sample_path r1_file r2_file : string) : list string :=
  [ "spades.py";
    "--threads"; Py.str_of_int (cpu_cores self);
    "-o"; assembly_dir sample_path;
    "-1"; r1_file;
    "-2"; r2_file ].

Definition spades_not_found_msg : string :=
  "SPAdes command not found. Please ensure SPAdes is properly installed".

(** [SpadesAnalysis.run_spades] *)
Definition run_spades (sample_path r1_file r2_file : string) : M bool :=
  let assembly_dir := assembly_dir sample_path in
  let cmd := spades_cmd sample_path r1_file r2_file in
  log INFO ("Starting SPAdes assembly: " ++ sample_path) ;;
  log INFO ("Command: " ++ Py.join_with " " cmd) ;;
  log INFO ("Output directory: " ++ assembly_dir) ;;
  try_except
    (_ <- subprocess_run E cmd ;;
     log INFO ("SPAdes assembly completed successfully: " ++ sample_path) ;;
     let contigs_file := posixpath.join assembly_dir "contigs.fasta" in
     c <- path_exists contigs_file ;;
     (if c then log INFO ("Contigs file generated: " ++ contigs_file)
      else log WARNING ("Contigs file not found: " ++ contigs_file)) ;;
     ret true)
    (fun e =>
       match e with
       | CalledProcessError returncode _ _ stderr =>
           Some (log ERROR ("SPAdes assembly failed for: " ++ sample_path) ;;
                 log ERROR ("Return code: " ++ Py.str_of_int returncode) ;;
                 log ERROR ("Error message: " ++ stderr) ;;
                 ret false)
       | OSError ENOENT _ =>
           Some (log ERROR spades_not_found_msg ;;
                 ret false)
       | _ => None
       end).

(** [SpadesAnalysis.validate_inputs] *)
Definition validate_inputs : M bool :=
  e <- path_exists (base_input_dir self) ;;
  if negb e then
    log ERROR ("Base input directory does not exist: " ++ base_input_dir self) ;;
    ret false
  else
    try_except
      (_ <- subprocess_run E ["spades.py"; "--version"] ;;
       log INFO "SPAdes tool validation successful" ;;
       ret true)
      (fun e =>
         if is_CalledProcessError e || is_FileNotFoundError e then
           Some (log ERROR "SPAdes command not found or version check failed" ;;
                 ret false)
         else None).

(** The body of [for sample_path in samples]; the accumulator is
    [(success_count, failed_count)]. *)
Definition process_sample (sample_path : string) (counts : nat * nat)
  : M (nat * nat) :=
  let '(success_count, failed_count) := counts in
  try_except
    (log INFO ("Processing sample: " ++ sample_path) ;;
     '(r1_file, r2_file) <- decompress_fastq sample_path ;;
     ok <- run_spades sample_path r1_file r2_file ;;
     if ok then ret (success_count + 1, failed_count)
     else ret (success_count, failed_count + 1))
    (fun e =>
       Some (log ERROR ("Failed to process sample " ++ sample_path
                          ++ ": " ++ str_of_exn e) ;;
             ret (success_count, failed_count + 1))).

Definition rule : string := Py.repeat_char "=" 60.

(** [SpadesAnalysis.run_assembly] *)
Definition run_assembly : M unit :=
  log INFO "Starting genome assembly workflow" ;;
  valid <- validate_inputs ;;
  if negb valid then
    log ERROR "Input validation failed, exiting assembly"
  else
    samples <- get_samples ;;
    if negb (Py.nonempty samples) then
      log ERROR "No samples found, exiting assembly"
    else
      '(success_count, failed_count) <- for_each samples process_sample (0, 0) ;;
      log INFO rule ;;
      log INFO "Assembly workflow completed!" ;;
      log INFO ("Successfully assembled: " ++ Py.str_of_nat success_count ++ " samples") ;;
      log INFO ("Failed assemblies: " ++ Py.str_of_nat failed_count ++ " samples") ;;
      log INFO ("Total samples: " ++ Py.str_of_nat (length samples) ++ " samples") ;;
      log INFO ("Results saved in: " ++ base_output_dir self) ;;
      log INFO rule.

End Methods.

(** The configuration [get_user_inputs] returns. *)
Record config := mk_config {
  cfg_input_dir : string;
  cfg_output_dir : string;
  cfg_cpu_cores : Z
}.

Definition nonempty_and_exists (v : string) : M bool :=
  e <- path_exists v ;;
  ret (Py.truthy v && e).

(** [get_user_inputs] *)
Definition get_user_inputs : M config :=
  print "Genome Assembly Pipeline using SPAdes" ;;
  print rule ;;
  print "Please provide the following configuration:" ;;
  print "" ;;
  input_dir <- ask_until "Base path for input directories: "
                 "Error: Directory does not exist or is empty. Try again."
                 nonempty_and_exists ;;
  line <- input "Output directory: " ;;
  let output_dir := Py.strip line in
  let output_dir := if negb (Py.truthy output_dir) then "./spades_assemblies"
                    else output_dir in
  makedirs output_dir ;;
  line <- input "CPU cores [16]: " ;;
  let cpu_input := Py.strip line in
  let cpu_cores := if Py.isdigit cpu_input then Py.int_of_digits cpu_input
                   else 16%Z in
  print "" ;;
  print "Configuration:" ;;
  print ("  Input directory: " ++ input_dir) ;;
  print ("  Output directory: " ++ output_dir) ;;
  print ("  CPU cores: " ++ Py.str_of_int cpu_cores) ;;
  print "" ;;
  ret (mk_config input_dir output_dir cpu_cores).

(** [main], without the handler for an interactive interrupt. *)
Definition main (E : env) : M unit :=
  try_except
    (config <- get_user_inputs ;;
     analysis <- init (cfg_input_dir config) (cfg_output_dir config)
                      (cfg_cpu_cores config) ;;
     run_assembly E analysis)
    (fun e => Some (print ("Error: " ++ str_of_exn e))).

End Spades.

(* ================================================================= *)
(** ** Vocabulary of the statements *)

(** The state after more events. *)
Definition logged (st : state) (evs : list event) : state :=
  mk_state (fs st) (trace st ++ evs) (stdin st) (spawned st).

(** A loop body that counts: it never raises and adds one to exactly one
    of the two counters. *)
Definition counts_one {A} (body : A -> nat * nat -> M (nat * nat)) : Prop :=
  forall x sc fc st,
    exists st',
      body x (sc, fc) st = (inr (sc + 1, fc), st')
      \/ body x (sc, fc) st = (inr (sc, fc + 1), st').

(** The summaries the two drivers log after the loop. *)
Definition snippy_summary (self : Snippy.t) (sc fc n : nat) : list event :=
  [ Log INFO Snippy.rule;
    Log INFO "Analysis completed!";
    Log INFO ("Successfully processed: " ++ Py.str_of_nat sc ++ " samples");
    Log INFO ("Failed samples: " ++ Py.str_of_nat fc ++ " samples");
    Log INFO ("Total samples: " ++ Py.str_of_nat n ++ " samples");
    Log INFO ("Results saved in: " ++ Snippy.output_base_dir self);
    Log INFO Snippy.rule ].

Definition spades_summary (self : Spades.t) (sc fc n : nat) : list event :=
  [ Log INFO Spades.rule;
    Log INFO "Assembly workflow completed!";
    Log INFO ("Successfully assembled: " ++ Py.str_of_nat sc ++ " samples");
    Log INFO ("Failed assemblies: " ++ Py.str_of_nat fc ++ " samples");
    Log INFO ("Total samples: " ++ Py.str_of_nat n ++ " samples");
    Log INFO ("Results saved in: " ++ Spades.base_output_dir self);
    Log INFO Spades.rule ].

(** The log record of the [except Exception] clause of the two loops. *)
Definition snippy_failure (strain sample : string) (e : exn) : event :=
  Log ERROR ("Failed to process sample " ++ strain ++ "/" ++ sample
               ++ ": " ++ str_of_exn e).

Definition spades_failure (sample_path : string) (e : exn) : event :=
  Log ERROR ("Failed to process sample " ++ sample_path ++ ": " ++ str_of_exn e).

(** What [run_snippy] and [run_spades] leave in the trace up to and
    including the call of the tool. *)
Definition snippy_call_events (self : Snippy.t) (strain sample R1_file R2_file : string)
  : list event :=
  let cmd := Snippy.snippy_cmd self strain sample R1_file R2_file in
  [ Makedirs (Snippy.output_dir self strain sample);
    Log INFO ("Starting Snippy analysis: " ++ strain ++ "/" ++ sample);
    Log INFO ("Command: " ++ Py.join_with " " cmd);
    Spawn cmd ].

Definition spades_call_events (self : Spades.t) (sample_path r1_file r2_file : string)
  : list event :=
  let cmd := Spades.spades_cmd self sample_path r1_file r2_file in
  [ Log INFO ("Starting SPAdes assembly: " ++ sample_path);
    Log INFO ("Command: " ++ Py.join_with " " cmd);
    Log INFO ("Output directory: " ++ Spades.assembly_dir self sample_path);
    Spawn cmd ].

(** The records of the [except subprocess.CalledProcessError] clauses. *)
Definition snippy_exit_events (strain sample : string) (returncode : Z) (stderr : string)
  : list event :=
  [ Log ERROR ("Snippy failed for: " ++ strain ++ "/" ++ sample);
    Log ERROR ("Return code: " ++ Py.str_of_int returncode);
    Log ERROR ("Error message: " ++ stderr) ].

Definition spades_exit_events (sample_path : string) (returncode : Z) (stderr : string)
  : list event :=
  [ Log ERROR ("SPAdes assembly failed for: " ++ sample_path);
    Log ERROR ("Return code: " ++ Py.str_of_int returncode);
    Log ERROR ("Error message: " ++ stderr) ].

(** The version probe failed: the binary was not found, or the process
    exited with a status other than zero. *)
Definition not_invocable (o : outcome) : Prop :=
  o = ExecFailed ENOENT
  \/ exists rc out err, o = Exited rc out err /\ rc <> 0%Z.

(** Everything a run leaves in the trace when validation fails on the
    file system [f]. *)
Definition snippy_abort_events (self : Snippy.t) (f : Fs.t) : list event :=
  [ Log INFO "Starting SNP analysis workflow" ]
  ++ (if negb (Fs.exists_ f (Snippy.base_path self)) then
        [ Log ERROR ("Base path does not exist: " ++ Snippy.base_path self) ]
      else if negb (Fs.exists_ f (Snippy.ref_genome_path self)) then
        [ Log ERROR ("Reference genome file does not exist: "
                       ++ Snippy.ref_genome_path self) ]
      else
        [ Spawn ["snippy"; "--version"];
          Log ERROR "Snippy command not found or version check failed" ])
  ++ [ Log ERROR "Input validation failed, exiting analysis" ].

Definition spades_abort_events (self : Spades.t) (f : Fs.t) : list event :=
  [ Log INFO "Starting genome assembly workflow" ]
  ++ (if negb (Fs.exists_ f (Spades.base_input_dir self)) then
        [ Log ERROR ("Base input directory does not exist: "
                       ++ Spades.base_input_dir self) ]
      else
        [ Spawn ["spades.py"; "--version"];
          Log ERROR "SPAdes command not found or version check failed" ])
  ++ [ Log ERROR "Input validation failed, exiting assembly" ].





Definition no_fastq_error (strain sample : string) : exn :=
  OSError ENOENT ("No matching FASTQ files found for: " ++ strain ++ "/" ++ sample).

(** What holds of the outcome of a computation when it returns. *)
Definition returns {A} (r : (exn + A) * state) (Q : A -> state -> Prop) : Prop :=
  match r with
  | (inr a, st') => Q a st'
  | (inl _, _) => True
  end.

(** [emits m P Q]: from any state, [m] appends to the trace events that
    all satisfy [P], and a value it returns satisfies [Q]. *)
Definition emits {A} (m : M A) (P : event -> Prop) (Q : A -> Prop) : Prop :=
  forall st,
    exists evs,
      trace (snd (m st)) = trace st ++ evs
      /\ Forall P evs
      /\ match fst (m st) with inr a => Q a | inl _ => True end.


(** A sample of the Snippy driver, seen on the file system [f]: a
    directory listed in one of the strain directories of the object,
    whose name starts with [MCR_CVU_]. *)
Definition snippy_sample_on (self : Snippy.t) (f : Fs.t) (s : Snippy.sample) : Prop :=
  let '(strain, item) := s in
  let strain_path := posixpath.join (Snippy.base_path self) strain in
  Fs.exists_ f (Snippy.base_path self) = true
  /\ In strain (Snippy.strains self)
  /\ Py.startswith item "MCR_CVU_" = true
  /\ Fs.isdir f (posixpath.join strain_path item) = true
  /\ exists items, Fs.listdir f strain_path = inr items /\ In item items.





(** The command of the SPAdes driver for a sample. *)
Definition spades_cmd_for (self : Spades.t) (sample_path : string) : list string :=
  Spades.spades_cmd self sample_path (Spades.r1_fastq self sample_path)
                    (Spades.r2_fastq self sample_path).


(** ** The dialogue of [get_user_inputs] *)

(** An answer to a path prompt is accepted on the file system [f] when,
    stripped, it is not empty and names something that exists. *)
Definition valid_answer (f : Fs.t) (line : string) : bool :=
  Py.truthy (Py.strip line) && Fs.exists_ f (Py.strip line).



(** The events of a path prompt answered first by the lines [bad], each
    rejected, then by a line that is accepted. *)
Definition asked (text err : string) (bad : list string) : list event :=
  flat_map (fun _ => [Prompt text; Stdout err]) bad ++ [Prompt text].



(** [old] starts nowhere inside [x] when [x] is followed by [old]: in
    the name [x ++ old], [old] occurs at the end only. *)
Fixpoint only_at_end (old x : string) : bool :=
  match x with
  | EmptyString => true
  | String _ x' => negb (String.prefix old (x ++ old)) && only_at_end old x'
  end.

(* ================================================================= *)
(** ** Small worlds to run the drivers in *)

Module Demo.

Import Fs.

Definition reads (names : list string) : node :=
  Dir [("ILLUMINA_DATA", Dir (map (fun n => (n, File [])) names))].

(** Three Snippy samples under one strain: a complete one, one without
    reverse reads, one with two forward files; and a directory with a
    sample name directly under the root. *)
Definition snippy_tree : node :=
  Dir [ ("data",
         Dir [ ("Staphylococcusaureus",
                Dir [ ("MCR_CVU_1", reads ["a_R1_trimmed.fastq"; "a_R2_trimmed.fastq"]);
                      ("MCR_CVU_2", reads ["a_R1_trimmed.fastq"]);
                      ("MCR_CVU_3", reads ["b_R1_trimmed.fastq"; "a_R1_trimmed.fastq";
                                           "a_R2_trimmed.fastq"]);
                      ("notes", Dir []) ]);
               ("MCR_CVU_9", reads ["a_R1_trimmed.fastq"; "a_R2_trimmed.fastq"]) ]);
        ("ref.fa", File []) ].

Definition snippy_fs : Fs.t := Fs.mk snippy_tree [].

Definition snippy_self : Snippy.t :=
  Snippy.mk "data" "out" "ref.fa" 16 Snippy.supported_strains.

(** A SPAdes sample [X] with both compressed files, a forward file [Y]
    without its counterpart, and a sample [W] that has been decompressed
    already. *)
Definition spades_tree : node :=
  Dir [ ("in",
         Dir [ ("X",
                Dir [ ("ILLUMINA_DATA",
                       Dir [ ("X_R1_trimmed.fastq.gz", File ["1"%byte]);
                             ("X_R2_trimmed.fastq.gz", File ["2"%byte]);
                             ("Y_R1_trimmed.fastq.gz", File []) ]) ]);
               ("README", File []);
               ("W",
                Dir [ ("ILLUMINA_DATA",
                       Dir [ ("W_R1_trimmed.fastq.gz", File ["3"%byte]);
                             ("W_R2_trimmed.fastq.gz", File ["4"%byte]);
                             ("W_R1_trimmed.fastq", File ["3"%byte]);
                             ("W_R2_trimmed.fastq", File ["4"%byte]) ]) ]) ]);
        ("out", Dir []) ].

Definition spades_fs : Fs.t := Fs.mk spades_tree [].

Definition spades_self : Spades.t := Spades.mk "in" "out" 4.

Definition copy (z : list byte) : list byte * option exn := (z, None).

(** A tool that always succeeds and touches nothing. *)
Definition succeeds : env :=
  mk_env (fun _ _ f => (Exited 0 "" "", root f)) copy.

(** A tool that always exits with status [rc] and writes [err]. *)
Definition exits (rc : Z) (err : string) : env :=
  mk_env (fun _ _ f => (Exited rc "" err, root f)) copy.

(** No tool on the [PATH]. *)
Definition absent : env :=
  mk_env (fun _ _ f => (ExecFailed ENOENT, root f)) copy.

(** A tool that answers its version probe and otherwise insists on
    finding its output directory, the fifth word of both command lines,
    in place. *)
Definition wants_outdir : env :=
  mk_env (fun _ cmd f =>
            match cmd with
            | [_; _] => (Exited 0 "" "", root f)
            | _ =>
                if isdir f (nth 4 cmd "")
                then (Exited 0 "" "", root f)
                else (Exited 2 "" "output directory missing", root f)
            end)
         copy.

Definition start (f : Fs.t) (lines : list string) : state := mk_state f [] lines 0.

Definition staph : string := "Staphylococcusaureus".

End Demo.

(* ================================================================= *)
(** ** Vocabulary of the further statements *)

(** Every directory of [r] is a directory of [r'], and whatever exists
    in [r] exists in [r']. *)
Definition keeps (r r' : Fs.node) : Prop :=
  forall y,
    (Fs.is_dir_node (Fs.get r y) = true -> Fs.is_dir_node (Fs.get r' y) = true)
    /\ (Fs.get r y <> None -> Fs.get r' y <> None).

(** The banners of the two dialogues. *)
Definition snippy_banner : list event :=
  [ Stdout "SNP Detection Pipeline using Snippy";
    Stdout Snippy.rule;
    Stdout "Please provide the following configuration:";
    Stdout "" ].

Definition spades_banner : list event :=
  [ Stdout "Genome Assembly Pipeline using SPAdes";
    Stdout Spades.rule;
    Stdout "Please provide the following configuration:";
    Stdout "" ].

(** [input] at the end of the input. *)
Definition eof : exn := EOFError "EOF when reading a line".

(** A suffix that lengthens the last component of a path and keeps it
    a plain name. *)
Definition plain_suffix (s : string) : Prop :=
  posixpath.no_slash s = true /\ 2 < String.length s.

(** What [decompress_fastq] leaves in the trace when it decompresses
    both files. *)
Definition decompress_events (self : Spades.t) (sample_path : string) : list event :=
  [ Log INFO ("Decompressing FASTQ files for: " ++ sample_path);
    GzipOpen (Spades.r1_gz self sample_path);
    OpenWrite (Spades.r1_fastq self sample_path);
    Log INFO ("Decompressed R1: " ++ posixpath.basename (Spades.r1_gz self sample_path));
    GzipOpen (Spades.r2_gz self sample_path);
    OpenWrite (Spades.r2_fastq self sample_path);
    Log INFO ("Decompressed R2: " ++ posixpath.basename (Spades.r2_gz self sample_path)) ].

(** What it leaves when it finds both files decompressed. *)
Definition skip_events (sample_path : string) : list event :=
  [ Log INFO ("Decompressing FASTQ files for: " ++ sample_path);
    Log INFO ("FASTQ files already decompressed: " ++ sample_path) ].

(** The records of a successful call of the tool. *)
Definition snippy_done_events (self : Snippy.t) (strain sample : string) : list event :=
  [ Log INFO ("Snippy completed successfully: " ++ strain ++ "/" ++ sample);
    Log INFO ("Output directory: " ++ Snippy.output_dir self strain sample) ].

Definition contigs_file (self : Spades.t) (sample_path : string) : string :=
  posixpath.join (Spades.assembly_dir self sample_path) "contigs.fasta".

Definition spades_done_events (self : Spades.t) (sample_path : string) (f : Fs.t)
  : list event :=
  [ Log INFO ("SPAdes assembly completed successfully: " ++ sample_path);
    if Fs.exists_ f (contigs_file self sample_path)
    then Log INFO ("Contigs file generated: " ++ contigs_file self sample_path)
    else Log WARNING ("Contigs file not found: " ++ contigs_file self sample_path) ].

(** A computation that runs no process. *)
Definition quiet {A} (m : M A) : Prop :=
  forall st, spawned (snd (m st)) = spawned st.

(** A loop body that runs at most one process, and counts a success
    only when it has run one. *)
Definition one_run_each {A} (body : A -> nat * nat -> M (nat * nat)) : Prop :=
  forall x sc fc st,
    exists st',
      (body x (sc, fc) st = (inr (sc + 1, fc), st') /\ spawned st' = S (spawned st))
      \/ (body x (sc, fc) st = (inr (sc, fc + 1), st')
          /\ (spawned st' = spawned st \/ spawned st' = S (spawned st))).

(** ** Discovery, as a function of the file system *)

(** The samples of one strain of the Snippy driver: the entries of the
    strain directory, in listing order, that are directories and bear
    the prefix. *)
Definition snippy_strain_samples (self : Snippy.t) (f : Fs.t) (strain : string)
  : list Snippy.sample :=
  let strain_path := posixpath.join (Snippy.base_path self) strain in
  match Fs.listdir f strain_path with
  | inr items =>
      map (fun item => (strain, item))
          (filter (fun item => Fs.isdir f (posixpath.join strain_path item)
                               && Py.startswith item "MCR_CVU_") items)
  | inl _ => []
  end.

Definition snippy_discovered (self : Snippy.t) (f : Fs.t) : list Snippy.sample :=
  flat_map (snippy_strain_samples self f) (Snippy.strains self).

(** The sample a forward file stands for in the SPAdes driver, when its
    counterpart is there. *)
Definition spades_file_sample (f : Fs.t) (directory input_dir r1_file : string)
  : list string :=
  if Fs.exists_ f (posixpath.join input_dir
                     (Py.replace r1_file Spades.r1_suffix Spades.r2_suffix))
  then [posixpath.join3 directory "ILLUMINA_DATA"
                        (Py.replace r1_file Spades.r1_suffix "")]
  else [].



(** An entry that exists is a directory. *)
Definition dir_if_there (f : Fs.t) (p : string) : Prop :=
  Fs.exists_ f p = true -> Fs.isdir f p = true.


(** ** What a run leaves of the tree it found *)

(** [f'] extends [f]: the working directory is the same, what exists
    still exists, a directory is still a directory, and a regular file
    holds what it held. *)
Definition extends (f f' : Fs.t) : Prop :=
  Fs.cwd f' = Fs.cwd f
  /\ keeps (Fs.root f) (Fs.root f')
  /\ forall y d, Fs.get (Fs.root f) y = Some (Fs.File d) ->
                 Fs.get (Fs.root f') y = Some (Fs.File d).

(** [f'] retains [f]: the working directory is the same, what exists
    still exists and a directory is still a directory. *)
Definition retains (f f' : Fs.t) : Prop :=
  Fs.cwd f' = Fs.cwd f /\ keeps (Fs.root f) (Fs.root f').

(** A computation that takes the tree from one state to a state related
    to it by [R]. *)
Definition framed (R : Fs.t -> Fs.t -> Prop) {A} (m : M A) : Prop :=
  forall st, R (fs st) (fs (snd (m st))).

(** A tool that does. *)
Definition tool_framed (R : Fs.t -> Fs.t -> Prop) (E : env) : Prop :=
  forall n cmd f, R f (Fs.with_root f (snd (tool E n cmd f))).

(* ================================================================= *)
(** ** Further small worlds *)

Module Cases.

Import Fs.

(** A tool that is on the [PATH] and may not be executed. *)
Definition not_executable : env :=
  mk_env (fun _ _ f => (ExecFailed EACCES, root f)) Demo.copy.

(** A decoder that doubles every byte, and one that fails on every
    stream after one byte of output. *)
Definition doubling : env :=
  mk_env (fun _ _ f => (Exited 0 "" "", root f))
         (fun z => (flat_map (fun b => [b; b]) z, None)).

Definition truncated : env :=
  mk_env (fun _ _ f => (Exited 0 "" "", root f))
         (fun z => (firstn 1 z, Some (OtherError "EOFError"
                      "Compressed file ended before the end-of-stream marker was reached"))).

End Cases.

(* ================================================================= *)
(** * Properties *)

(** ** The string and path operations on the inputs of the scripts *)

Example replace_forward_suffix :
  Py.replace "S1_R1_trimmed.fastq.gz" "_R1_trimmed.fastq.gz" "_R2_trimmed.fastq.gz"
  = "S1_R2_trimmed.fastq.gz".
Proof. reflexivity. Qed.

Example replace_every_occurrence : Py.replace "aXbXc" "X" "--" = "a--b--c".
Proof. reflexivity. Qed.

Example replace_does_not_overlap : Py.replace "aaa" "aa" "b" = "ba".
Proof. reflexivity. Qed.

Example replace_without_occurrence :
  Py.replace "SR1_trimmed.fastq.gz" "_R1_trimmed.fastq.gz" "_R2_trimmed.fastq.gz"
  = "SR1_trimmed.fastq.gz".
Proof. reflexivity. Qed.

Example endswith_cases :
  Py.endswith "a_R1_trimmed.fastq" "R1_trimmed.fastq" = true
  /\ Py.endswith "a_R1_trimmed.fastq.gz" "R1_trimmed.fastq" = false
  /\ Py.endswith "fastq" "R1_trimmed.fastq" = false
  /\ Py.endswith "abc" "" = true.
Proof. repeat split. Qed.

Example strip_cases :
  Py.strip "  /data/run 1  " = "/data/run 1"
  /\ Py.strip "   " = ""
  /\ Py.strip (String (ascii_of_nat 9) "16" ++ String (ascii_of_nat 10) "") = "16".
Proof. repeat split. Qed.

Example isdigit_cases :
  Py.isdigit "16" = true /\ Py.isdigit "" = false /\ Py.isdigit "-3" = false
  /\ Py.isdigit "1 6" = false /\ Py.int_of_digits "0032" = 32%Z.
Proof. repeat split. Qed.

Example str_of_int_cases :
  Py.str_of_int 16 = "16" /\ Py.str_of_int 0 = "0" /\ Py.str_of_int (-9) = "-9".
Proof. repeat split. Qed.

Example join_cases :
  posixpath.join "data" "x" = "data/x"
  /\ posixpath.join "data/" "x" = "data/x"
  /\ posixpath.join "" "x" = "x"
  /\ posixpath.join "data" "/abs" = "/abs"
  /\ posixpath.join3 "in" "X" "ILLUMINA_DATA" = "in/X/ILLUMINA_DATA".
Proof. repeat split. Qed.

Example basename_cases :
  posixpath.basename "X/ILLUMINA_DATA/X" = "X"
  /\ posixpath.basename "X" = "X"
  /\ posixpath.basename "a/b/" = "".
Proof. repeat split. Qed.

Example components_cases :
  posixpath.components "/a//b/" = [""; "a"; ""; "b"; ""]
  /\ posixpath.components "a/./../b" = ["a"; "."; ".."; "b"]
  /\ posixpath.components "" = [""].
Proof. repeat split. Qed.

Example sorted_by_code_point :
  Py.sorted ["b_R1"; "a_R1"; "B_R1"; "a_R10"] = ["B_R1"; "a_R1"; "a_R10"; "b_R1"].
Proof. reflexivity. Qed.

(** Path resolution on the tree of the SPAdes example. *)
Example resolution_cases :
  Fs.exists_ Demo.spades_fs "in/X/ILLUMINA_DATA/X_R1_trimmed.fastq.gz" = true
  /\ Fs.exists_ Demo.spades_fs "in/X/ILLUMINA_DATA/X_R1_trimmed.fastq" = false
  /\ Fs.isdir Demo.spades_fs "in/X/../W/./ILLUMINA_DATA/" = true
  /\ Fs.isdir Demo.spades_fs "in/README" = false
  /\ Fs.exists_ Demo.spades_fs "in/README/" = false
  /\ Fs.exists_ Demo.spades_fs "in/nothing/.." = false
  /\ Fs.exists_ Demo.spades_fs "" = false
  /\ Fs.listdir Demo.spades_fs "in" = inr ["X"; "README"; "W"]
  /\ Fs.listdir Demo.spades_fs "in/README" = inl ENOTDIR.
Proof. repeat split. Qed.

Example makedirs_cases :
  snd (Fs.makedirs Demo.spades_fs "out/a/b") = None
  /\ Fs.isdir (fst (Fs.makedirs Demo.spades_fs "out/a/b")) "out/a/b" = true
  /\ snd (Fs.makedirs Demo.spades_fs "out") = None
  /\ fst (Fs.makedirs Demo.spades_fs "out") = Demo.spades_fs
  /\ snd (Fs.makedirs Demo.spades_fs "in/README") = Some EEXIST
  /\ snd (Fs.makedirs Demo.spades_fs "in/README/sub") = Some ENOTDIR.
Proof. repeat split. Qed.

(** The SPAdes driver filters forward files with [R1_trimmed.fastq.gz]
    and derives the reverse name by replacing [_R1_trimmed.fastq.gz]: a
    forward file whose name lacks the underscore is its own counterpart,
    and is listed. *)
Example spades_forward_file_without_underscore :
  fst (Spades.get_samples
         (Spades.mk "in" "out" 4)
         (Demo.start
            (Fs.mk (Fs.Dir [("in", Fs.Dir [("S", Demo.reads ["SR1_trimmed.fastq.gz"])])]) [])
            []))
  = inr ["S/ILLUMINA_DATA/SR1_trimmed.fastq.gz"].
Proof. reflexivity. Qed.

(** ** The file system *)

Module FsFacts.

Import Fs.

Lemma get_app n p q :
  get n (p ++ q) = match get n p with Some m => get m q | None => None end.
Proof.
  revert n; induction p as [|c p IH]; intros n; simpl; [reflexivity|].
  destruct n as [d|es]; [reflexivity|].
  destruct (assoc c es); [apply IH|reflexivity].
Qed.

Lemma assoc_alter_same c upd fresh l :
  assoc c (alter_entry c upd fresh l)
  = match assoc c l with Some ch => Some (upd ch) | None => assoc c fresh end.
Proof.
  induction l as [|[k ch] l IH]; simpl; [reflexivity|].
  destruct (String.eqb k c) eqn:Hk; simpl; rewrite Hk; [reflexivity|exact IH].
Qed.

Lemma assoc_alter_other c c' upd fresh l :
  c' <> c -> assoc c' fresh = None ->
  assoc c' (alter_entry c upd fresh l) = assoc c' l.
Proof.
  intros Hne Hf. induction l as [|[k ch] l IH]; simpl; [exact Hf|].
  destruct (String.eqb k c) eqn:Hk; simpl.
  - apply String.eqb_eq in Hk. subst k.
    destruct (String.eqb c c') eqn:Hc; [|reflexivity].
    apply String.eqb_eq in Hc. congruence.
  - destruct (String.eqb k c'); [reflexivity|exact IH].
Qed.

Lemma assoc_fresh_other c c' (x : node) (p' : list string) :
  c' <> c ->
  assoc c' (match p' with [] => [(c, x)] | _ => [] end) = None.
Proof.
  intros Hne. destruct p'; simpl; [|reflexivity].
  destruct (String.eqb c c') eqn:Hc; [|reflexivity].
  apply String.eqb_eq in Hc. congruence.
Qed.

(** What is stored under a directory can be read back. *)
Lemma get_put_new q c n x es :
  get n q = Some (Dir es) -> get (put n (q ++ [c]) x) (q ++ [c]) = Some x.
Proof.
  revert n; induction q as [|d q IH]; intros n Hq; simpl in *.
  - injection Hq as ->. rewrite assoc_alter_same.
    destruct (assoc c es); [reflexivity|].
    simpl. rewrite String.eqb_refl. reflexivity.
  - destruct n as [dat|es0]; [discriminate|].
    destruct (assoc d es0) as [ch|] eqn:Hd; [|discriminate].
    rewrite assoc_alter_same, Hd. apply IH. exact Hq.
Qed.

(** A new empty directory hides no directory that was there. *)
Lemma put_new_dir_mono q c n es y :
  get n q = Some (Dir es) -> assoc c es = None ->
  is_dir_node (get n y) = true ->
  is_dir_node (get (put n (q ++ [c]) (Dir [])) y) = true.
Proof.
  revert n y; induction q as [|d q IH]; intros n y Hq Hc Hy; simpl in *.
  - injection Hq as ->. destruct y as [|c' y]; [reflexivity|]. simpl in *.
    destruct (String.eqb c' c) eqn:E.
    + apply String.eqb_eq in E. subst c'. rewrite Hc in Hy. discriminate.
    + assert (Hne : c' <> c) by (intros ->; rewrite String.eqb_refl in E; discriminate).
      rewrite assoc_alter_other; [exact Hy|exact Hne|].
      simpl. destruct (String.eqb c c') eqn:E'; [|reflexivity].
      apply String.eqb_eq in E'. congruence.
  - destruct n as [dat|es0]; [discriminate|].
    destruct (assoc d es0) as [ch|] eqn:Hd; [|discriminate].
    destruct y as [|c' y]; [reflexivity|]. simpl in *.
    destruct (String.eqb c' d) eqn:E.
    + apply String.eqb_eq in E. subst c'. rewrite assoc_alter_same, Hd.
      rewrite Hd in Hy. apply IH; assumption.
    + assert (Hne : c' <> d) by (intros ->; rewrite String.eqb_refl in E; discriminate).
      rewrite assoc_alter_other; [exact Hy|exact Hne|].
      apply assoc_fresh_other. exact Hne.
Qed.

Lemma get_parent n p :
  is_dir_node (get n p) = true -> is_dir_node (get n (removelast p)) = true.
Proof.
  destruct p as [|c p] using rev_ind; [auto|].
  rewrite removelast_last, get_app. intros H.
  destruct (get n p) as [[d|es]|]; simpl in *; try discriminate; reflexivity.
Qed.

Lemma makedirs_walk_mono cs r cur r' e y :
  makedirs_walk r cur cs = (r', e) ->
  is_dir_node (get r y) = true -> is_dir_node (get r' y) = true.
Proof.
  revert r cur; induction cs as [|c cs IH]; intros r cur H Hy; simpl in H.
  - injection H as <- _. exact Hy.
  - destruct (get r cur) as [[d|es]|] eqn:Hcur;
      try (injection H as <- _; exact Hy).
    destruct (String.eqb c "" || String.eqb c "."); [eapply IH; eassumption|].
    destruct (String.eqb c ".."); [eapply IH; eassumption|].
    destruct (assoc c es) as [[d|es']|] eqn:Hc.
    + injection H as <- _. exact Hy.
    + eapply IH; eassumption.
    + eapply IH; [exact H|]. eapply put_new_dir_mono; eassumption.
Qed.

(** When [makedirs] succeeds, the path resolves to a directory. *)
Lemma makedirs_walk_ok cs r cur r' :
  is_dir_node (get r cur) = true ->
  makedirs_walk r cur cs = (r', None) ->
  exists q, walk r' cur cs = inr q /\ is_dir_node (get r' q) = true.
Proof.
  revert r cur; induction cs as [|c cs IH]; intros r cur Hd H; simpl in H.
  - injection H as <-. exists cur. split; [reflexivity|exact Hd].
  - pose proof (makedirs_walk_mono (c :: cs) r cur r' None cur) as Hm.
    simpl in Hm. specialize (Hm H Hd).
    simpl walk. destruct (get r' cur) as [[d'|es']|]; try discriminate.
    destruct (get r cur) as [[d|es]|] eqn:Hcur; try discriminate.
    destruct (String.eqb c "" || String.eqb c ".").
    { apply (IH r cur); [rewrite Hcur; reflexivity|exact H]. }
    destruct (String.eqb c "..").
    { apply (IH r (removelast cur)); [|exact H].
      apply get_parent. rewrite Hcur. reflexivity. }
    destruct (assoc c es) as [[d|es1]|] eqn:Hc.
    + discriminate.
    + apply (IH r (cur ++ [c])); [|exact H].
      rewrite get_app, Hcur. simpl. rewrite Hc. reflexivity.
    + apply (IH (put r (cur ++ [c]) (Dir [])) (cur ++ [c])); [|exact H].
      rewrite (get_put_new cur c r (Dir []) es Hcur). reflexivity.
Qed.

Lemma components_from_nonempty cur s : posixpath.components_from cur s <> [].
Proof.
  revert cur; induction s as [|a s IH]; intros cur; simpl; [discriminate|].
  destruct (Ascii.eqb a "/"); [discriminate|apply IH].
Qed.

(** [os.makedirs(p, exist_ok=True)] returned: [p] is a directory. *)
Lemma makedirs_isdir f p f' :
  makedirs f p = (f', None) -> isdir f' p = true.
Proof.
  unfold makedirs, isdir, stat, resolve.
  destruct (String.eqb p ""); [discriminate|].
  set (cur := if Py.startswith p "/" then [] else cwd f).
  destruct (makedirs_walk (root f) cur (posixpath.components p)) as [r e] eqn:Hw.
  intros H. injection H as <- ->. cbn [root cwd with_root].
  fold cur.
  assert (Hd : is_dir_node (get (root f) cur) = true).
  { unfold posixpath.components in Hw.
    pose proof (components_from_nonempty "" p) as Hne.
    destruct (posixpath.components_from "" p) as [|c cs]; [congruence|].
    simpl in Hw. destruct (get (root f) cur) as [[d|es]|]; try discriminate.
    reflexivity. }
  destruct (makedirs_walk_ok _ _ _ _ Hd Hw) as (q & Hq & Hdir).
  rewrite Hq. destruct (get r q) as [[d|es]|]; try discriminate. reflexivity.
Qed.

End FsFacts.

(** ** Strings and paths *)

Module PathFacts.

Import Fs.
Local Open Scope string_scope.

Lemma prefix_app p s : String.prefix p s = true -> exists rest, s = p ++ rest.
Proof.
  revert s; induction p as [|a p IH]; intros s H.
  - exists s. reflexivity.
  - destruct s as [|b s]; simpl in H; [discriminate|].
    destruct (ascii_dec a b) as [->|Hne]; [|discriminate].
    destruct (IH s H) as [rest ->]. exists rest. reflexivity.
Qed.

Lemma endswith_app s suf : Py.endswith s suf = true -> exists pre, s = pre ++ suf.
Proof.
  induction s as [|a s IH]; cbn [Py.endswith]; intros H.
  - rewrite orb_false_r in H. apply String.eqb_eq in H. subst. exists "". reflexivity.
  - apply orb_true_iff in H. destruct H as [H|H].
    + apply String.eqb_eq in H. exists "". simpl. exact H.
    + destruct (IH H) as [pre ->]. exists (String a pre). reflexivity.
Qed.

Lemma append_assoc (a b c : string) : (a ++ b) ++ c = a ++ (b ++ c).
Proof. induction a as [|x a IH]; simpl; [reflexivity|rewrite IH; reflexivity]. Qed.

Lemma append_nil_r (a : string) : a ++ "" = a.
Proof. induction a as [|x a IH]; simpl; [reflexivity|rewrite IH; reflexivity]. Qed.

Lemma is_name_spec c :
  posixpath.is_name c = true ->
  c <> "" /\ String.eqb c "" || String.eqb c "." = false
  /\ String.eqb c ".." = false /\ posixpath.no_slash c = true.
Proof.
  unfold posixpath.is_name. intros H.
  apply andb_true_iff in H. destruct H as [H H4].
  apply andb_true_iff in H. destruct H as [H H3].
  apply andb_true_iff in H. destruct H as [H1 H2].
  apply negb_true_iff in H1, H2, H3.
  repeat split.
  - intros ->. discriminate.
  - rewrite H1, H2. reflexivity.
  - exact H3.
  - exact H4.
Qed.

Lemma components_from_sep cur s1 s2 :
  posixpath.components_from cur (s1 ++ String "/" s2)
  = (posixpath.components_from cur s1 ++ posixpath.components_from "" s2)%list.
Proof.
  revert cur; induction s1 as [|a s1 IH]; intros cur; simpl.
  - reflexivity.
  - destruct (Ascii.eqb a "/"); [rewrite IH; reflexivity|apply IH].
Qed.

Lemma components_from_plain cur s :
  posixpath.no_slash s = true -> posixpath.components_from cur s = [cur ++ s].
Proof.
  revert cur; induction s as [|a s IH]; intros cur H; simpl in *.
  - rewrite append_nil_r. reflexivity.
  - apply andb_true_iff in H. destruct H as [Ha Hs].
    apply negb_true_iff in Ha. rewrite Ha, (IH _ Hs), append_assoc. reflexivity.
Qed.

Lemma prefix_nil s : String.prefix "" s = true.
Proof. destruct s; reflexivity. Qed.

Lemma startswith_slash_app a b :
  a <> "" -> Py.startswith (a ++ b) "/" = Py.startswith a "/".
Proof.
  destruct a as [|x a]; [congruence|]. intros _. unfold Py.startswith.
  cbn [append String.prefix].
  destruct (ascii_dec "/" x); [rewrite !prefix_nil|]; reflexivity.
Qed.

Lemma name_not_absolute c : posixpath.is_name c = true -> Py.startswith c "/" = false.
Proof.
  intros H. destruct (is_name_spec c H) as (_ & _ & _ & Hs).
  destruct c as [|x c]; [reflexivity|]. unfold Py.startswith.
  cbn [String.prefix].
  unfold posixpath.no_slash in Hs. cbn [list_ascii_of_string forallb] in Hs.
  apply andb_true_iff in Hs. destruct Hs as [Hx _].
  destruct (ascii_dec "/" x) as [<-|]; [discriminate|reflexivity].
Qed.

Lemma append_not_empty (a b : string) : a <> "" -> String.eqb (a ++ b) "" = false.
Proof. destruct a; [congruence|reflexivity]. Qed.

Lemma prefix_refl s : String.prefix s s = true.
Proof.
  induction s as [|a s IH]; [reflexivity|]. cbn [String.prefix].
  destruct (ascii_dec a a); [exact IH|congruence].
Qed.

Lemma replace_skips_all old new s k :
  String.length s <= k -> Py.replace_from old new k s = "".
Proof.
  revert k; induction s as [|a s IH]; intros k Hk; [reflexivity|].
  destruct k as [|k]; simpl in Hk; [lia|].
  cbn [Py.replace_from]. apply IH. lia.
Qed.

(** Replacing a suffix that occurs at the end only. *)
Lemma replace_suffix old new x :
  old <> "" -> only_at_end old x = true ->
  Py.replace (x ++ old) old new = x ++ new.
Proof.
  intros Hold. unfold Py.replace. induction x as [|a x IH]; intros Hx.
  - destruct old as [|c old']; [congruence|]. cbn [append Py.replace_from].
    rewrite prefix_refl.
    rewrite replace_skips_all; [apply append_nil_r|simpl; lia].
  - cbn [only_at_end] in Hx. apply andb_true_iff in Hx. destruct Hx as [Hp Hx].
    apply negb_true_iff in Hp. cbn [append] in *. cbn [Py.replace_from].
    rewrite Hp, (IH Hx). reflexivity.
Qed.

Lemma walk_app r cur l1 l2 :
  walk r cur (l1 ++ l2)
  = match walk r cur l1 with inr q => walk r q l2 | inl e => inl e end.
Proof.
  revert cur; induction l1 as [|c l1 IH]; intros cur; simpl; [reflexivity|].
  destruct (get r cur) as [[d|es]|]; try reflexivity.
  destruct (String.eqb c "" || String.eqb c "."); [apply IH|].
  destruct (String.eqb c ".."); apply IH.
Qed.

Lemma walk_name r q c :
  posixpath.is_name c = true -> walk r q [c] = child_of r q c.
Proof.
  intros H. destruct (is_name_spec c H) as (_ & H1 & H2 & _).
  unfold Fs.child_of. simpl. rewrite H1, H2. reflexivity.
Qed.

(** A name joined to a path that resolves: the path of the entry of
    that name in the directory the path leads to. *)
Lemma resolve_join f a c q :
  resolve f a = inr q -> posixpath.is_name c = true ->
  resolve f (posixpath.join a c) = child_of (root f) q c.
Proof.
  intros Ha Hc. pose proof (is_name_spec c Hc) as (_ & _ & _ & Hs).
  unfold posixpath.join. rewrite (name_not_absolute c Hc).
  unfold resolve in Ha.
  destruct (String.eqb a "") eqn:Hae; [discriminate|]. cbn [orb].
  assert (Hne : a <> "") by (intros ->; discriminate).
  destruct (Py.endswith a "/") eqn:He.
  - destruct (endswith_app _ _ He) as [a' ->].
    unfold resolve. rewrite (append_not_empty _ c Hne), (startswith_slash_app _ c Hne).
    set (start := if Py.startswith (a' ++ "/") "/" then [] else cwd f) in *.
    unfold posixpath.components in *.
    rewrite append_assoc. change ("/" ++ c) with (String "/" c).
    rewrite components_from_sep, (components_from_plain "" c Hs), walk_app.
    change (a' ++ "/") with (a' ++ String "/" "") in Ha.
    rewrite components_from_sep, walk_app in Ha. simpl posixpath.components_from in Ha.
    destruct (walk (root f) start (posixpath.components_from "" a')) as [e|q']; [discriminate|].
    simpl in Ha. rewrite (walk_name _ _ _ Hc). unfold Fs.child_of.
    destruct (get (root f) q') as [[d|es]|] eqn:Hg; try discriminate.
    injection Ha as <-. rewrite Hg. reflexivity.
  - unfold resolve.
    rewrite (append_not_empty _ ("/" ++ c) Hne), (startswith_slash_app _ ("/" ++ c) Hne).
    set (start := if Py.startswith a "/" then [] else cwd f) in *.
    unfold posixpath.components in *.
    change ("/" ++ c) with (String "/" c).
    rewrite components_from_sep, (components_from_plain "" c Hs), walk_app, Ha.
    apply walk_name. exact Hc.
Qed.

Lemma wf_assoc c es ch :
  forallb (fun e => posixpath.is_name (fst e) && wf (snd e)) es = true ->
  assoc c es = Some ch -> wf ch = true.
Proof.
  induction es as [|[k n] es IH]; simpl; [discriminate|]. intros H Ha.
  apply andb_true_iff in H. destruct H as [Hk Hes].
  destruct (String.eqb k c).
  - injection Ha as <-. apply andb_true_iff in Hk. exact (proj2 Hk).
  - exact (IH Hes Ha).
Qed.

Lemma wf_get n p m : wf n = true -> get n p = Some m -> wf m = true.
Proof.
  revert n; induction p as [|c p IH]; intros n Hn Hg; simpl in Hg.
  - injection Hg as <-. exact Hn.
  - destruct n as [d|es]; [discriminate|].
    destruct (assoc c es) as [ch|] eqn:Hc; [|discriminate].
    apply (IH ch); [|exact Hg]. simpl in Hn. exact (wf_assoc c es ch Hn Hc).
Qed.

(** On a well-formed tree [os.listdir] returns file names. *)
Lemma listdir_names f p items item :
  wf (root f) = true -> listdir f p = inr items -> In item items ->
  posixpath.is_name item = true.
Proof.
  unfold listdir, stat. intros Hwf Hl Hin.
  destruct (resolve f p) as [e|q]; [discriminate|].
  destruct (get (root f) q) as [[d|es]|] eqn:Hg; try discriminate.
  injection Hl as <-. pose proof (wf_get _ _ _ Hwf Hg) as Hes. simpl in Hes.
  rewrite forallb_forall in Hes. apply in_map_iff in Hin.
  destruct Hin as ([k n] & <- & Hin). specialize (Hes _ Hin).
  apply andb_true_iff in Hes. exact (proj1 Hes).
Qed.

Lemma exists_resolves f p : exists_ f p = true -> exists q, resolve f p = inr q.
Proof.
  unfold exists_, stat. destruct (resolve f p) as [e|q]; [discriminate|eauto].
Qed.

Lemma listdir_resolves f p items :
  listdir f p = inr items ->
  exists q es, resolve f p = inr q /\ get (root f) q = Some (Dir es).
Proof.
  unfold listdir, stat. destruct (resolve f p) as [e|q]; [discriminate|].
  destruct (get (root f) q) as [[d|es]|] eqn:Hg; try discriminate.
  eauto.
Qed.

End PathFacts.

(** ** The monad and its loops *)

Lemma bind_inr {A B} (m : M A) (k : A -> M B) st a st' :
  m st = (inr a, st') -> bind m k st = k a st'.
Proof. unfold bind; intros ->; reflexivity. Qed.

Lemma bind_inl {A B} (m : M A) (k : A -> M B) st e st' :
  m st = (inl e, st') -> bind m k st = (inl e, st').
Proof. unfold bind; intros ->; reflexivity. Qed.

Lemma try_inr {A} (m : M A) h st a st' :
  m st = (inr a, st') -> try_except m h st = (inr a, st').
Proof. unfold try_except; intros ->; reflexivity. Qed.

Lemma try_inr_fst {A} (m : M A) h st a :
  fst (m st) = inr a -> fst (try_except m h st) = inr a.
Proof. unfold try_except; destruct (m st) as [[e|x] st']; simpl; congruence. Qed.

Lemma try_caught {A} (m : M A) h st e st' k :
  m st = (inl e, st') -> h e = Some k -> try_except m h st = k st'.
Proof. unfold try_except; intros -> ->; reflexivity. Qed.

Lemma try_uncaught {A} (m : M A) h st e st' :
  m st = (inl e, st') -> h e = None -> try_except m h st = (inl e, st').
Proof. unfold try_except; intros -> ->; reflexivity. Qed.

(** One step of a computation whose outcome is known. *)
Ltac step H :=
  first [ rewrite (bind_inr _ _ _ _ _ H)
        | rewrite (bind_inr _ _ _ _ _ (H _))
        | rewrite (bind_inr _ _ _ _ _ (H _ _))
        | rewrite (bind_inr _ _ _ _ _ (H _ _ _))
        | rewrite (bind_inl _ _ _ _ _ H) ];
  cbv beta iota; cbn [negb andb orb]; cbv beta iota.

Lemma emit_eq e st : emit e st = (inr tt, logged st [e]).
Proof. reflexivity. Qed.

Lemma logged_logged st a b : logged (logged st a) b = logged st (a ++ b).
Proof. unfold logged; simpl; rewrite <- app_assoc; reflexivity. Qed.

Lemma bind_assoc {A B C} (m : M A) (f : A -> M B) (g : B -> M C) st :
  bind (bind m f) g st = bind m (fun x => bind (f x) g) st.
Proof. unfold bind; destruct (m st) as [[e|a] st']; reflexivity. Qed.

Lemma for_each_app {A S} (l1 l2 : list A) (body : A -> S -> M S) acc st :
  Os.for_each (l1 ++ l2) body acc st
  = bind (Os.for_each l1 body acc) (Os.for_each l2 body) st.
Proof.
  revert acc st; induction l1 as [|x l1 IH]; intros acc st; simpl.
  - reflexivity.
  - rewrite bind_assoc.
    destruct (body x acc st) as [[e|acc'] st'] eqn:Hb.
    + rewrite !(bind_inl _ _ _ _ _ Hb). reflexivity.
    + rewrite !(bind_inr _ _ _ _ _ Hb). apply IH.
Qed.

Lemma counting_loop {A} (body : A -> nat * nat -> M (nat * nat)) :
  counts_one body ->
  forall l sc fc st,
    exists sc' fc' st',
      Os.for_each l body (sc, fc) st = (inr (sc', fc'), st')
      /\ sc' + fc' = sc + fc + length l.
Proof.
  intros Hb l; induction l as [|x l IH]; intros sc fc st; simpl.
  - exists sc, fc, st. split; [reflexivity|lia].
  - destruct (Hb x sc fc st) as [st1 [H|H]]; rewrite (bind_inr _ _ _ _ _ H).
    + destruct (IH (sc + 1) fc st1) as (sc' & fc' & st' & E & N).
      exists sc', fc', st'. split; [exact E|lia].
    + destruct (IH sc (fc + 1) st1) as (sc' & fc' & st' & E & N).
      exists sc', fc', st'. split; [exact E|lia].
Qed.

Lemma snippy_counts_one (E : env) (self : Snippy.t) :
  counts_one (Snippy.process_sample E self).
Proof.
  intros [strain sample] sc fc st. unfold Snippy.process_sample.
  destruct (Snippy.get_fastq_files self strain sample st) as [[e|[r1 r2]] st1] eqn:Hg.
  - eexists. right. erewrite try_caught; [|apply bind_inl; exact Hg|reflexivity].
    reflexivity.
  - destruct (Snippy.run_snippy E self strain sample r1 r2 st1) as [[e|[|]] st2] eqn:Hr.
    + eexists. right.
      erewrite try_caught; [| rewrite (bind_inr _ _ _ _ _ Hg); apply bind_inl; exact Hr|reflexivity].
      reflexivity.
    + eexists. left. apply try_inr.
      rewrite (bind_inr _ _ _ _ _ Hg), (bind_inr _ _ _ _ _ Hr). reflexivity.
    + eexists. right. apply try_inr.
      rewrite (bind_inr _ _ _ _ _ Hg), (bind_inr _ _ _ _ _ Hr). reflexivity.
Qed.

Lemma spades_counts_one (E : env) (self : Spades.t) :
  counts_one (Spades.process_sample E self).
Proof.
  intros sp sc fc st. unfold Spades.process_sample.
  set (m := Os.log INFO _).
  assert (Hm : m st = (inr tt, logged st [Log INFO ("Processing sample: " ++ sp)]))
    by reflexivity.
  destruct (Spades.decompress_fastq E self sp (logged st [Log INFO ("Processing sample: " ++ sp)]))
    as [[e|[r1 r2]] st1] eqn:Hg.
  - eexists. right.
    erewrite try_caught;
      [| rewrite (bind_inr _ _ _ _ _ Hm); apply bind_inl; exact Hg|reflexivity].
    reflexivity.
  - destruct (Spades.run_spades E self sp r1 r2 st1) as [[e|[|]] st2] eqn:Hr.
    + eexists. right.
      erewrite try_caught;
        [| rewrite (bind_inr _ _ _ _ _ Hm), (bind_inr _ _ _ _ _ Hg);
           apply bind_inl; exact Hr|reflexivity].
      reflexivity.
    + eexists. left. apply try_inr.
      rewrite (bind_inr _ _ _ _ _ Hm), (bind_inr _ _ _ _ _ Hg), (bind_inr _ _ _ _ _ Hr).
      reflexivity.
    + eexists. right. apply try_inr.
      rewrite (bind_inr _ _ _ _ _ Hm), (bind_inr _ _ _ _ _ Hg), (bind_inr _ _ _ _ _ Hr).
      reflexivity.
Qed.

Lemma log_eq lv msg st : Os.log lv msg st = (inr tt, logged st [Log lv msg]).
Proof. reflexivity. Qed.

Lemma logged_nil st : logged st [] = st.
Proof. destruct st; unfold logged; simpl; rewrite app_nil_r; reflexivity. Qed.

(** C1. In both drivers the body of the loop never raises and adds one
    to exactly one of the two counters; a run that passes validation and
    discovers at least one sample finishes its loop with
    [success_count + failed_count = len(samples)], and these are the
    numbers of the summary. *)
Theorem counters_add_up (E : env) :
  (forall self : Snippy.t, counts_one (Snippy.process_sample E self))
  /\
  (forall self : Spades.t, counts_one (Spades.process_sample E self))
  /\
  (forall (self : Snippy.t) st st1 st2 samples,
      Snippy.validate_inputs E self
        (logged st [Log INFO "Starting SNP analysis workflow"]) = (inr true, st1) ->
      Snippy.get_samples self st1 = (inr samples, st2) ->
      samples <> [] ->
      exists sc fc st3,
        Os.for_each samples (Snippy.process_sample E self) (0, 0) st2
        = (inr (sc, fc), st3)
        /\ sc + fc = length samples
        /\ Snippy.run_analysis E self st
           = (inr tt, logged st3 (snippy_summary self sc fc (length samples))))
  /\
  (forall (self : Spades.t) st st1 st2 samples,
      Spades.validate_inputs E self
        (logged st [Log INFO "Starting genome assembly workflow"]) = (inr true, st1) ->
      Spades.get_samples self st1 = (inr samples, st2) ->
      samples <> [] ->
      exists sc fc st3,
        Os.for_each samples (Spades.process_sample E self) (0, 0) st2
        = (inr (sc, fc), st3)
        /\ sc + fc = length samples
        /\ Spades.run_assembly E self st
           = (inr tt, logged st3 (spades_summary self sc fc (length samples)))).
Proof.
  split; [exact (snippy_counts_one E)|]. split; [exact (spades_counts_one E)|].
  split; intros self st st1 st2 samples Hv Hg Hne.
  - destruct (counting_loop _ (snippy_counts_one E self) samples 0 0 st2)
      as (sc & fc & st3 & Hl & Hn).
    exists sc, fc, st3. split; [exact Hl|]. split; [exact Hn|].
    unfold Snippy.run_analysis.
    step (log_eq INFO). step Hv. step Hg.
    destruct samples as [|s0 samples']; [congruence|].
    change (negb (Py.nonempty (s0 :: samples'))) with false. cbv iota.
    step Hl.
    repeat (step (log_eq INFO); rewrite ?logged_logged).
    rewrite log_eq, logged_logged. reflexivity.
  - destruct (counting_loop _ (spades_counts_one E self) samples 0 0 st2)
      as (sc & fc & st3 & Hl & Hn).
    exists sc, fc, st3. split; [exact Hl|]. split; [exact Hn|].
    unfold Spades.run_assembly.
    step (log_eq INFO). step Hv. step Hg.
    destruct samples as [|s0 samples']; [congruence|].
    change (negb (Py.nonempty (s0 :: samples'))) with false. cbv iota.
    step Hl.
    repeat (step (log_eq INFO); rewrite ?logged_logged).
    rewrite log_eq, logged_logged. reflexivity.
Qed.

Lemma snippy_resolution_failure E self strain sample sc fc st e st' :
  Snippy.get_fastq_files self strain sample st = (inl e, st') ->
  Snippy.process_sample E self (strain, sample) (sc, fc) st
  = (inr (sc, fc + 1), logged st' [snippy_failure strain sample e]).
Proof.
  intros Hg. unfold Snippy.process_sample.
  erewrite try_caught; [|apply bind_inl; exact Hg|reflexivity].
  step (log_eq ERROR). reflexivity.
Qed.

Lemma spades_resolution_failure E self sp sc fc st e st' :
  Spades.decompress_fastq E self sp (logged st [Log INFO ("Processing sample: " ++ sp)])
  = (inl e, st') ->
  Spades.process_sample E self sp (sc, fc) st
  = (inr (sc, fc + 1), logged st' [spades_failure sp e]).
Proof.
  intros Hg. unfold Spades.process_sample.
  erewrite try_caught;
    [|step (log_eq INFO); apply bind_inl; exact Hg|reflexivity].
  step (log_eq ERROR). reflexivity.
Qed.

(** C3. When resolving the input files of a sample raises, whatever the
    exception, the loop catches it, logs it, adds one to [failed_count]
    and goes on with the samples that follow. *)
Theorem resolution_failure_is_contained (E : env) :
  (forall (self : Snippy.t) pre strain sample post st sc fc st1 e st2,
      Os.for_each pre (Snippy.process_sample E self) (0, 0) st = (inr (sc, fc), st1) ->
      Snippy.get_fastq_files self strain sample st1 = (inl e, st2) ->
      Snippy.process_sample E self (strain, sample) (sc, fc) st1
      = (inr (sc, fc + 1), logged st2 [snippy_failure strain sample e])
      /\ Os.for_each (pre ++ (strain, sample) :: post) (Snippy.process_sample E self) (0, 0) st
         = Os.for_each post (Snippy.process_sample E self) (sc, fc + 1)
             (logged st2 [snippy_failure strain sample e]))
  /\
  (forall (self : Spades.t) pre sample_path post st sc fc st1 e st2,
      Os.for_each pre (Spades.process_sample E self) (0, 0) st = (inr (sc, fc), st1) ->
      Spades.decompress_fastq E self sample_path
        (logged st1 [Log INFO ("Processing sample: " ++ sample_path)]) = (inl e, st2) ->
      Spades.process_sample E self sample_path (sc, fc) st1
      = (inr (sc, fc + 1), logged st2 [spades_failure sample_path e])
      /\ Os.for_each (pre ++ sample_path :: post) (Spades.process_sample E self) (0, 0) st
         = Os.for_each post (Spades.process_sample E self) (sc, fc + 1)
             (logged st2 [spades_failure sample_path e])).
Proof.
  split.
  - intros self pre strain sample post st sc fc st1 e st2 Hpre Hg.
    pose proof (snippy_resolution_failure E self strain sample sc fc st1 e st2 Hg) as Hs.
    split; [exact Hs|].
    rewrite for_each_app. step Hpre. simpl Os.for_each. step Hs. reflexivity.
  - intros self pre sp post st sc fc st1 e st2 Hpre Hg.
    pose proof (spades_resolution_failure E self sp sc fc st1 e st2 Hg) as Hs.
    split; [exact Hs|].
    rewrite for_each_app. step Hpre. simpl Os.for_each. step Hs. reflexivity.
Qed.

(** ** The primitives *)

Lemma path_exists_eq p st : Os.path_exists p st = (inr (Fs.exists_ (fs st) p), st).
Proof. reflexivity. Qed.

Lemma path_isdir_eq p st : Os.path_isdir p st = (inr (Fs.isdir (fs st) p), st).
Proof. reflexivity. Qed.

Lemma listdir_ok p st l :
  Fs.listdir (fs st) p = inr l -> Os.listdir p st = (inr l, logged st [Listdir p]).
Proof.
  intros H. unfold Os.listdir. step emit_eq. unfold logged; cbn [fs trace stdin spawned]. rewrite H. reflexivity.
Qed.

Lemma listdir_err p st k :
  Fs.listdir (fs st) p = inl k ->
  Os.listdir p st = (inl (OSError k (strerror k p)), logged st [Listdir p]).
Proof.
  intros H. unfold Os.listdir. step emit_eq. unfold logged; cbn [fs trace stdin spawned]. rewrite H. reflexivity.
Qed.

Lemma makedirs_ok p st f :
  Fs.makedirs (fs st) p = (f, None) ->
  Os.makedirs p st
  = (inr tt, mk_state f (trace st ++ [Makedirs p]) (stdin st) (spawned st)).
Proof.
  intros H. unfold Os.makedirs. step emit_eq. unfold logged; cbn [fs trace stdin spawned]. rewrite H. reflexivity.
Qed.

Lemma makedirs_err p st f k :
  Fs.makedirs (fs st) p = (f, Some k) ->
  Os.makedirs p st
  = (inl (OSError k (strerror k p)),
     mk_state f (trace st ++ [Makedirs p]) (stdin st) (spawned st)).
Proof.
  intros H. unfold Os.makedirs. step emit_eq. unfold logged; cbn [fs trace stdin spawned]. rewrite H. reflexivity.
Qed.

Lemma subprocess_run_exit0 E cmd st out err r :
  tool E (spawned st) cmd (fs st) = (Exited 0 out err, r) ->
  Os.subprocess_run E cmd st
  = (inr (out, err),
     mk_state (Fs.with_root (fs st) r) (trace st ++ [Spawn cmd]) (stdin st)
              (S (spawned st))).
Proof.
  intros H. unfold Os.subprocess_run. step emit_eq.
  unfold logged; cbn [fs trace stdin spawned]. rewrite H. reflexivity.
Qed.

Lemma subprocess_run_nonzero E cmd st rc out err r :
  tool E (spawned st) cmd (fs st) = (Exited rc out err, r) ->
  rc <> 0%Z ->
  Os.subprocess_run E cmd st
  = (inl (CalledProcessError rc cmd out err),
     mk_state (Fs.with_root (fs st) r) (trace st ++ [Spawn cmd]) (stdin st)
              (S (spawned st))).
Proof.
  intros H Hrc. unfold Os.subprocess_run. step emit_eq.
  unfold logged; cbn [fs trace stdin spawned]. rewrite H.
  destruct (Z.eqb_spec rc 0); [contradiction|reflexivity].
Qed.

Lemma subprocess_run_exec_failed E cmd st k r :
  tool E (spawned st) cmd (fs st) = (ExecFailed k, r) ->
  Os.subprocess_run E cmd st
  = (inl (OSError k (strerror k (hd "" cmd))), logged st [Spawn cmd]).
Proof.
  intros H. unfold Os.subprocess_run. step emit_eq.
  unfold logged; cbn [fs trace stdin spawned]. rewrite H. reflexivity.
Qed.

(** ** The call of the external tool *)

Section RunSpades.

Variables (E : env) (self : Spades.t) (sample_path r1_file r2_file : string).
Variable st : state.

Let cmd := Spades.spades_cmd self sample_path r1_file r2_file.
Let call := spades_call_events self sample_path r1_file r2_file.


Lemma run_spades_nonzero rc out err r :
  tool E (spawned st) cmd (fs st) = (Exited rc out err, r) ->
  rc <> 0%Z ->
  Spades.run_spades E self sample_path r1_file r2_file st
  = (inr false,
     mk_state (Fs.with_root (fs st) r)
              (trace st ++ call ++ spades_exit_events sample_path rc err)
              (stdin st) (S (spawned st))).
Proof.
  intros H Hrc. unfold Spades.run_spades.
  do 3 step (log_eq INFO). rewrite !logged_logged.
  erewrite try_caught.
  2:{ match goal with |- context [logged st ?evs] =>
        step (subprocess_run_nonzero E cmd (logged st evs) rc out err r H Hrc) end.
      reflexivity. }
  2: reflexivity.
  do 3 step (log_eq ERROR). unfold ret, logged; cbn [fs trace stdin spawned].
  rewrite <- !app_assoc. reflexivity.
Qed.

Lemma run_spades_missing r :
  tool E (spawned st) cmd (fs st) = (ExecFailed ENOENT, r) ->
  Spades.run_spades E self sample_path r1_file r2_file st
  = (inr false, logged st (call ++ [Log ERROR Spades.spades_not_found_msg])).
Proof.
  intros H. unfold Spades.run_spades.
  do 3 step (log_eq INFO). rewrite !logged_logged.
  erewrite try_caught.
  2:{ match goal with |- context [logged st ?evs] =>
        step (subprocess_run_exec_failed E cmd (logged st evs) ENOENT r H) end.
      reflexivity. }
  2: reflexivity.
  step (log_eq ERROR). unfold ret. rewrite !logged_logged.
  unfold logged. rewrite <- !app_assoc. reflexivity.
Qed.

Lemma run_spades_exec_failed k r :
  tool E (spawned st) cmd (fs st) = (ExecFailed k, r) ->
  k <> ENOENT ->
  Spades.run_spades E self sample_path r1_file r2_file st
  = (inl (OSError k (strerror k "spades.py")), logged st call).
Proof.
  intros H Hk. unfold Spades.run_spades.
  do 3 step (log_eq INFO). rewrite !logged_logged.
  erewrite try_uncaught.
  2:{ match goal with |- context [logged st ?evs] =>
        step (subprocess_run_exec_failed E cmd (logged st evs) k r H) end.
      reflexivity. }
  - rewrite logged_logged. reflexivity.
  - destruct k; congruence.
Qed.

End RunSpades.

Section RunSnippy.

Variables (E : env) (self : Snippy.t) (strain sample R1_file R2_file : string).
Variables (st : state) (f : Fs.t).

Let cmd := Snippy.snippy_cmd self strain sample R1_file R2_file.
Let call := snippy_call_events self strain sample R1_file R2_file.

Hypothesis made : Fs.makedirs (fs st) (Snippy.output_dir self strain sample) = (f, None).

Let st1 := mk_state f (trace st ++ [Makedirs (Snippy.output_dir self strain sample)])
                    (stdin st) (spawned st).

Lemma run_snippy_exit0 out err r :
  tool E (spawned st) cmd f = (Exited 0 out err, r) ->
  fst (Snippy.run_snippy E self strain sample R1_file R2_file st) = inr true.
Proof.
  intros H. unfold Snippy.run_snippy.
  step (makedirs_ok _ _ _ made). do 2 step (log_eq INFO). rewrite !logged_logged.
  apply try_inr_fst.
  match goal with |- context [logged ?s ?evs] =>
    step (subprocess_run_exit0 E cmd (logged s evs) out err r H) end.
  do 2 step (log_eq INFO). reflexivity.
Qed.

Lemma run_snippy_nonzero rc out err r :
  tool E (spawned st) cmd f = (Exited rc out err, r) ->
  rc <> 0%Z ->
  Snippy.run_snippy E self strain sample R1_file R2_file st
  = (inr false,
     mk_state (Fs.with_root f r)
              (trace st ++ call ++ snippy_exit_events strain sample rc err)
              (stdin st) (S (spawned st))).
Proof.
  intros H Hrc. unfold Snippy.run_snippy.
  step (makedirs_ok _ _ _ made). do 2 step (log_eq INFO). rewrite !logged_logged.
  erewrite try_caught.
  2:{ match goal with |- context [logged ?s ?evs] =>
        step (subprocess_run_nonzero E cmd (logged s evs) rc out err r H Hrc) end.
      reflexivity. }
  2: reflexivity.
  do 3 step (log_eq ERROR). unfold ret, logged; cbn [fs trace stdin spawned].
  rewrite <- !app_assoc. reflexivity.
Qed.

Lemma run_snippy_missing r :
  tool E (spawned st) cmd f = (ExecFailed ENOENT, r) ->
  Snippy.run_snippy E self strain sample R1_file R2_file st
  = (inr false,
     mk_state f (trace st ++ call ++ [Log ERROR Snippy.snippy_not_found_msg])
              (stdin st) (spawned st)).
Proof.
  intros H. unfold Snippy.run_snippy.
  step (makedirs_ok _ _ _ made). do 2 step (log_eq INFO). rewrite !logged_logged.
  erewrite try_caught.
  2:{ match goal with |- context [logged ?s ?evs] =>
        step (subprocess_run_exec_failed E cmd (logged s evs) ENOENT r H) end.
      reflexivity. }
  2: reflexivity.
  step (log_eq ERROR). unfold ret, logged; cbn [fs trace stdin spawned].
  rewrite <- !app_assoc. reflexivity.
Qed.

Lemma run_snippy_exec_failed k r :
  tool E (spawned st) cmd f = (ExecFailed k, r) ->
  k <> ENOENT ->
  Snippy.run_snippy E self strain sample R1_file R2_file st
  = (inl (OSError k (strerror k "snippy")),
     mk_state f (trace st ++ call) (stdin st) (spawned st)).
Proof.
  intros H Hk. unfold Snippy.run_snippy.
  step (makedirs_ok _ _ _ made). do 2 step (log_eq INFO). rewrite !logged_logged.
  erewrite try_uncaught.
  2:{ match goal with |- context [logged ?s ?evs] =>
        step (subprocess_run_exec_failed E cmd (logged s evs) k r H) end.
      reflexivity. }
  - unfold logged; cbn [fs trace stdin spawned]. rewrite <- !app_assoc. reflexivity.
  - destruct k; congruence.
Qed.

End RunSnippy.


(** ** Decompression *)

(** C5. When both uncompressed files of a sample exist,
    [decompress_fastq] returns their paths and does nothing else: it
    logs two records, opens no compressed file and writes no file
    whatever the decoder, and it leaves the file system as it found it,
    so that every file reads as before. *)
Theorem decompress_skips_existing (E : env) (self : Spades.t) (sample_path : string)
        (st : state) :
  Fs.exists_ (fs st) (Spades.r1_fastq self sample_path) = true ->
  Fs.exists_ (fs st) (Spades.r2_fastq self sample_path) = true ->
  Spades.decompress_fastq E self sample_path st
  = (inr (Spades.r1_fastq self sample_path, Spades.r2_fastq self sample_path),
     logged st [ Log INFO ("Decompressing FASTQ files for: " ++ sample_path);
                 Log INFO ("FASTQ files already decompressed: " ++ sample_path) ])
  /\ fs (snd (Spades.decompress_fastq E self sample_path st)) = fs st
  /\ (forall p,
         Fs.read (fs (snd (Spades.decompress_fastq E self sample_path st))) p
         = Fs.read (fs st) p).
Proof.
  intros H1 H2.
  assert (Hres : Spades.decompress_fastq E self sample_path st
                 = (inr (Spades.r1_fastq self sample_path,
                         Spades.r2_fastq self sample_path),
                    logged st [ Log INFO ("Decompressing FASTQ files for: " ++ sample_path);
                                Log INFO ("FASTQ files already decompressed: " ++ sample_path) ])).
  { unfold Spades.decompress_fastq.
    step (log_eq INFO). step path_exists_eq.
    cbn [fs logged]. rewrite H1. cbv iota. step path_exists_eq.
    cbn [fs logged]. rewrite H2. cbn [andb]. cbv iota.
    step (log_eq INFO). rewrite logged_logged. reflexivity. }
  rewrite Hres. auto.
Qed.

(** ** Validation *)

Lemma probe_fails E cmd st :
  not_invocable (fst (tool E (spawned st) cmd (fs st))) ->
  exists e st',
    Os.subprocess_run E cmd st = (inl e, st')
    /\ trace st' = trace st ++ [Spawn cmd]
    /\ is_CalledProcessError e || is_FileNotFoundError e = true.
Proof.
  intros Hn. destruct (tool E (spawned st) cmd (fs st)) as [o r] eqn:Ht.
  cbn [fst] in Hn. destruct Hn as [->|(rc & out & err & -> & Hrc)].
  - rewrite (subprocess_run_exec_failed E cmd st ENOENT r Ht).
    eexists _, _. repeat split.
  - rewrite (subprocess_run_nonzero E cmd st rc out err r Ht Hrc).
    eexists _, _. repeat split.
Qed.

Lemma snippy_validate_fails E self st :
  not_invocable (fst (tool E (spawned st) ["snippy"; "--version"] (fs st))) ->
  exists st',
    Snippy.validate_inputs E self st = (inr false, st')
    /\ trace st' ++ [Log ERROR "Input validation failed, exiting analysis"]
       = trace st ++ tl (snippy_abort_events self (fs st)).
Proof.
  intros Hn. unfold Snippy.validate_inputs, snippy_abort_events.
  step path_exists_eq.
  destruct (Fs.exists_ (fs st) (Snippy.base_path self)); cbn [negb]; cbv iota.
  2:{ step (log_eq ERROR). eexists; split; [reflexivity|].
      cbn [trace logged tl app]. rewrite <- app_assoc. reflexivity. }
  step path_exists_eq.
  destruct (Fs.exists_ (fs st) (Snippy.ref_genome_path self)); cbn [negb]; cbv iota.
  2:{ step (log_eq ERROR). eexists; split; [reflexivity|].
      cbn [trace logged tl app]. rewrite <- app_assoc. reflexivity. }
  destruct (probe_fails E _ st Hn) as (e & st' & Hp & Htr & He).
  erewrite try_caught.
  2:{ step Hp. reflexivity. }
  2:{ rewrite He. reflexivity. }
  step (log_eq ERROR). eexists; split; [reflexivity|].
  cbn [trace logged tl app]. rewrite Htr, <- !app_assoc. reflexivity.
Qed.

Lemma spades_validate_fails E self st :
  not_invocable (fst (tool E (spawned st) ["spades.py"; "--version"] (fs st))) ->
  exists st',
    Spades.validate_inputs E self st = (inr false, st')
    /\ trace st' ++ [Log ERROR "Input validation failed, exiting assembly"]
       = trace st ++ tl (spades_abort_events self (fs st)).
Proof.
  intros Hn. unfold Spades.validate_inputs, spades_abort_events.
  step path_exists_eq.
  destruct (Fs.exists_ (fs st) (Spades.base_input_dir self)); cbn [negb]; cbv iota.
  2:{ step (log_eq ERROR). eexists; split; [reflexivity|].
      cbn [trace logged tl app]. rewrite <- app_assoc. reflexivity. }
  destruct (probe_fails E _ st Hn) as (e & st' & Hp & Htr & He).
  erewrite try_caught.
  2:{ step Hp. reflexivity. }
  2:{ rewrite He. reflexivity. }
  step (log_eq ERROR). eexists; split; [reflexivity|].
  cbn [trace logged tl app]. rewrite Htr, <- !app_assoc. reflexivity.
Qed.

(** C6. When the version probe of the tool fails (binary not found, or
    exit status other than zero), [validate_inputs] returns [False] and
    the run ends there: its trace is the start record, the records of
    the validation and the record of the abort, so that no directory has
    been listed, no sample looked for and no other process spawned. *)
Theorem probe_failure_aborts (E : env) :
  (forall (self : Snippy.t) st,
      not_invocable (fst (tool E (spawned st) ["snippy"; "--version"] (fs st))) ->
      fst (Snippy.validate_inputs E self st) = inr false
      /\ fst (Snippy.run_analysis E self st) = inr tt
      /\ trace (snd (Snippy.run_analysis E self st))
         = trace st ++ snippy_abort_events self (fs st))
  /\
  (forall (self : Spades.t) st,
      not_invocable (fst (tool E (spawned st) ["spades.py"; "--version"] (fs st))) ->
      fst (Spades.validate_inputs E self st) = inr false
      /\ fst (Spades.run_assembly E self st) = inr tt
      /\ trace (snd (Spades.run_assembly E self st))
         = trace st ++ spades_abort_events self (fs st)).
Proof.
  split; intros self st Hn.
  - destruct (snippy_validate_fails E self st Hn) as (st' & Hv & _).
    destruct (snippy_validate_fails E self
                (logged st [Log INFO "Starting SNP analysis workflow"]) Hn)
      as (st1 & Hv1 & Htr).
    rewrite Hv. split; [reflexivity|].
    unfold Snippy.run_analysis. step (log_eq INFO). step Hv1.
    rewrite log_eq. cbn [fst snd logged trace]. split; [reflexivity|].
    rewrite Htr. cbn [logged trace fs]. rewrite <- app_assoc. reflexivity.
  - destruct (spades_validate_fails E self st Hn) as (st' & Hv & _).
    destruct (spades_validate_fails E self
                (logged st [Log INFO "Starting genome assembly workflow"]) Hn)
      as (st1 & Hv1 & Htr).
    rewrite Hv. split; [reflexivity|].
    unfold Spades.run_assembly. step (log_eq INFO). step Hv1.
    rewrite log_eq. cbn [fst snd logged trace]. split; [reflexivity|].
    rewrite Htr. cbn [logged trace fs]. rewrite <- app_assoc. reflexivity.
Qed.

(** ** Discovery *)

Lemma for_each_invariant {A S} (Inv : S -> state -> Prop)
      (l : list A) (body : A -> S -> M S) :
  (forall x acc st, In x l -> Inv acc st -> returns (body x acc st) Inv) ->
  forall acc st, Inv acc st -> returns (Os.for_each l body acc st) Inv.
Proof.
  induction l as [|x l IH]; intros Hb acc st HI; simpl.
  - exact HI.
  - pose proof (Hb x acc st (or_introl eq_refl) HI) as Hx.
    unfold bind. destruct (body x acc st) as [[e|acc'] st']; simpl in *; [exact I|].
    apply IH; [|exact Hx]. intros; apply Hb; auto.
Qed.

Lemma snippy_get_samples_sound (self : Snippy.t) (st : state) :
  returns (Snippy.get_samples self st)
          (fun samples st' => fs st' = fs st
                              /\ Forall (snippy_sample_on self (fs st)) samples).
Proof.
  unfold Snippy.get_samples. unfold bind at 1. rewrite path_exists_eq.
  destruct (Fs.exists_ (fs st) (Snippy.base_path self)) eqn:Hbase; cbn [negb].
  2:{ rewrite (bind_inr _ _ _ _ _ (log_eq _ _ _)). simpl. auto. }
  pose (Inv := fun (acc : list Snippy.sample) (st' : state) =>
               fs st' = fs st /\ Forall (snippy_sample_on self (fs st)) acc).
  assert (Hloop : returns (Os.for_each (Snippy.strains self) (Snippy.scan_strain self) [] st) Inv).
  { apply for_each_invariant; [|split; [reflexivity|constructor]].
    intros strain acc st1 Hin [Hfs Hacc]. unfold Snippy.scan_strain.
    step path_exists_eq.
    destruct (Fs.exists_ (fs st1) _); cbn [negb].
    2:{ step (log_eq WARNING). simpl. split; assumption. }
    destruct (Fs.listdir (fs st1) (posixpath.join (Snippy.base_path self) strain))
      as [k|items] eqn:Hl.
    { step (listdir_err _ _ _ Hl). exact I. }
    step (listdir_ok _ _ _ Hl).
    apply for_each_invariant; [|split; [exact Hfs|exact Hacc]].
    intros item acc' st2 Hitem [Hfs2 Hacc']. unfold Snippy.scan_item.
    step path_isdir_eq.
    destruct (Fs.isdir (fs st2) _ && Py.startswith item "MCR_CVU_") eqn:Hk.
    2:{ simpl. split; assumption. }
    step (log_eq INFO). simpl. split; [exact Hfs2|].
    apply Forall_app; split; [exact Hacc'|]. constructor; [|constructor].
    apply andb_true_iff in Hk. destruct Hk as [Hd Hp].
    rewrite Hfs2 in Hd. rewrite Hfs in Hl.
    simpl. repeat split; eauto. }
  unfold bind.
  destruct (Os.for_each (Snippy.strains self) (Snippy.scan_strain self) [] st)
    as [[e|samples] st']; simpl; [exact I|].
  exact Hloop.
Qed.

(** C10. The Snippy driver discovers a sample only in one of its four
    strain directories and only under a name that starts with
    [MCR_CVU_]: every pair [(strain, item)] returned by [get_samples] has
    [strain] among the four names, and [item] is a directory listed in
    [base_path/strain] whose name has that prefix; on a well-formed tree
    the sample directory is the entry [strain/item] of the root
    directory.  A directory under the root itself, or under any other
    name, is therefore never returned. *)
Theorem snippy_discovery_confined (self : Snippy.t)
        (base_path output_base_dir ref_genome_path : string) (cpu_cores : Z)
        (st0 st1 st st' : state) (samples : list Snippy.sample)
        (strain item : string) :
  Snippy.init base_path output_base_dir ref_genome_path cpu_cores st0 = (inr self, st1) ->
  Snippy.get_samples self st = (inr samples, st') ->
  In (strain, item) samples ->
  In strain [ "Acinetobacterbaumannii"; "Pseudomonasaeruginosa";
              "Staphylococcusaureus"; "Klebsiellapneumoniae" ]
  /\ Py.startswith item "MCR_CVU_" = true
  /\ Fs.isdir (fs st) (posixpath.join (posixpath.join base_path strain) item) = true
  /\ (exists items,
         Fs.listdir (fs st) (posixpath.join base_path strain) = inr items
         /\ In item items)
  /\ (Fs.wf (Fs.root (fs st)) = true ->
      exists q,
        Fs.resolve (fs st) base_path = inr q
        /\ Fs.resolve (fs st) (posixpath.join (posixpath.join base_path strain) item)
           = inr (q ++ [strain; item])).
Proof.
  intros Hinit Hget Hin.
  assert (Hself : self = Snippy.mk base_path output_base_dir ref_genome_path cpu_cores
                                   Snippy.supported_strains).
  { unfold Snippy.init, bind in Hinit.
    destruct (Os.makedirs output_base_dir st0) as [[e|[]] s]; [discriminate|].
    unfold ret in Hinit. congruence. }
  pose proof (snippy_get_samples_sound self st) as Hs. rewrite Hget in Hs.
  destruct Hs as [_ Hall]. rewrite Forall_forall in Hall.
  specialize (Hall _ Hin). subst self. cbn [snippy_sample_on Snippy.base_path Snippy.strains] in Hall.
  destruct Hall as (Hbase & Hstrain & Hprefix & Hdir & items & Hl & Hitem).
  repeat split; try assumption.
  - exists items. split; assumption.
  - intros Hwf.
    destruct (PathFacts.exists_resolves _ _ Hbase) as [q Hq]. exists q. split; [exact Hq|].
    assert (Hname : posixpath.is_name strain = true).
    { destruct Hstrain as [<-|[<-|[<-|[<-|[]]]]]; reflexivity. }
    destruct (PathFacts.listdir_resolves _ _ _ Hl) as (q1 & es & Hq1 & Hes).
    pose proof (PathFacts.resolve_join _ _ _ _ Hq Hname) as Hjoin.
    rewrite Hq1 in Hjoin. unfold Fs.child_of in Hjoin.
    destruct (Fs.get (Fs.root (fs st)) q) as [[d|es0]|]; try discriminate.
    injection Hjoin as ->.
    rewrite (PathFacts.resolve_join _ _ item _ Hq1
               (PathFacts.listdir_names _ _ _ _ Hwf Hl Hitem)).
    unfold Fs.child_of. rewrite Hes, <- app_assoc. reflexivity.
Qed.

(** ** Sorting file names *)










(** ** Resolving the reads of a Snippy sample *)





(** ** What a computation adds to the trace *)

Section Emits.

Variable P : event -> Prop.

Lemma emits_ret {A} (a : A) (Q : A -> Prop) : Q a -> emits (ret a) P Q.
Proof. intros H st. exists []. simpl. rewrite app_nil_r. auto. Qed.

Lemma emits_raise {A} (e : exn) (Q : A -> Prop) : emits (raise e) P Q.
Proof. intros st. exists []. simpl. rewrite app_nil_r. auto. Qed.

Lemma emits_bind {A B} (m : M A) (k : A -> M B) (Q1 : A -> Prop) (Q2 : B -> Prop) :
  emits m P Q1 -> (forall a, Q1 a -> emits (k a) P Q2) -> emits (bind m k) P Q2.
Proof.
  intros Hm Hk st. destruct (Hm st) as (evs1 & Ht1 & Hp1 & Hq1).
  unfold bind. destruct (m st) as [[e|a] st1]; simpl in *.
  - exists evs1. auto.
  - destruct (Hk a Hq1 st1) as (evs2 & Ht2 & Hp2 & Hq2).
    exists (evs1 ++ evs2). rewrite Ht2, Ht1, app_assoc.
    split; [reflexivity|]. split; [apply Forall_app; auto|exact Hq2].
Qed.

Lemma emits_try {A} (m : M A) (h : exn -> option (M A)) (Q : A -> Prop) :
  emits m P Q -> (forall e k, h e = Some k -> emits k P Q) ->
  emits (try_except m h) P Q.
Proof.
  intros Hm Hh st. destruct (Hm st) as (evs1 & Ht1 & Hp1 & Hq1).
  unfold try_except. destruct (m st) as [[e|a] st1]; simpl in *.
  - destruct (h e) as [k|] eqn:He.
    + destruct (Hh e k He st1) as (evs2 & Ht2 & Hp2 & Hq2).
      exists (evs1 ++ evs2). rewrite Ht2, Ht1, app_assoc.
      split; [reflexivity|]. split; [apply Forall_app; auto|exact Hq2].
    + exists evs1. auto.
  - exists evs1. auto.
Qed.

Lemma emits_weaken {A} (m : M A) (Q Q' : A -> Prop) :
  emits m P Q -> (forall a, Q a -> Q' a) -> emits m P Q'.
Proof.
  intros Hm Hq st. destruct (Hm st) as (evs & Ht & Hp & Ha).
  exists evs. split; [exact Ht|]. split; [exact Hp|].
  destruct (fst (m st)); auto.
Qed.

Lemma emits_emit (e : event) : P e -> emits (emit e) P (fun _ => True).
Proof. intros H st. exists [e]. simpl. auto. Qed.

Lemma emits_log lv msg : P (Log lv msg) -> emits (Os.log lv msg) P (fun _ => True).
Proof. apply emits_emit. Qed.

Lemma emits_read {A} (g : state -> A) : emits (fun st => (inr (g st), st)) P (fun _ => True).
Proof. intros st. exists []. simpl. rewrite app_nil_r. auto. Qed.

Lemma emits_path_exists p : emits (Os.path_exists p) P (fun _ => True).
Proof. apply (emits_read (fun st => Fs.exists_ (fs st) p)). Qed.

Lemma emits_path_isdir p : emits (Os.path_isdir p) P (fun _ => True).
Proof. apply (emits_read (fun st => Fs.isdir (fs st) p)). Qed.

Lemma emits_lift_os {A} path (g : state -> os_error + A) :
  emits (fun st => lift_os path (g st) st) P (fun _ => True).
Proof.
  intros st. exists []. rewrite app_nil_r.
  destruct (g st); simpl; auto.
Qed.

Lemma emits_set_fs f : emits (set_fs f) P (fun _ => True).
Proof. intros st. exists []. simpl. rewrite app_nil_r. auto. Qed.

Lemma emits_listdir p : P (Listdir p) -> emits (Os.listdir p) P (fun _ => True).
Proof.
  intros H. unfold Os.listdir.
  eapply emits_bind; [apply emits_emit; exact H|]. intros _ _.
  apply emits_lift_os.
Qed.

Lemma emits_makedirs p : P (Makedirs p) -> emits (Os.makedirs p) P (fun _ => True).
Proof.
  intros H. unfold Os.makedirs.
  eapply emits_bind; [apply emits_emit; exact H|]. intros _ _ st.
  destruct (Fs.makedirs (fs st) p) as [f [k|]];
    exists []; rewrite app_nil_r; simpl; auto.
Qed.

Lemma emits_subprocess_run E cmd :
  P (Spawn cmd) -> emits (Os.subprocess_run E cmd) P (fun _ => True).
Proof.
  intros H. unfold Os.subprocess_run.
  eapply emits_bind; [apply emits_emit; exact H|]. intros _ _ st.
  exists []. rewrite app_nil_r.
  destruct (tool E (spawned st) cmd (fs st)) as [[rc out err|k] r]; simpl; auto.
  destruct (rc =? 0)%Z; simpl; auto.
Qed.

Lemma emits_gunzip_to E src dst :
  P (GzipOpen src) -> P (OpenWrite dst) ->
  emits (Os.gunzip_to E src dst) P (fun _ => True).
Proof.
  intros H1 H2. unfold Os.gunzip_to.
  eapply emits_bind; [apply emits_emit; exact H1|]. intros _ _.
  eapply emits_bind; [apply emits_lift_os|]. intros z _.
  eapply emits_bind; [apply emits_emit; exact H2|]. intros _ _.
  destruct (gunzip E z) as [data err].
  eapply emits_bind; [apply emits_lift_os|]. intros f _.
  eapply emits_bind; [apply emits_set_fs|]. intros _ _.
  destruct err; [apply emits_raise|apply emits_ret; exact I].
Qed.


End Emits.


Ltac emits_step :=
  match goal with
  | |- emits (bind _ _) _ _ => eapply emits_bind; [|intros ? ?]
  | |- emits (ret _) _ _ => apply emits_ret
  | |- emits (raise _) _ _ => apply emits_raise
  | |- emits (Os.log _ _) _ _ => apply emits_log; exact I
  | |- emits (Os.path_exists _) _ _ => apply emits_path_exists
  | |- emits (Os.path_isdir _) _ _ => apply emits_path_isdir
  | |- emits (Os.listdir _) _ _ => apply emits_listdir; exact I
  | |- emits (Os.makedirs _) _ _ => apply emits_makedirs; exact I
  | |- emits (Os.gunzip_to _ _ _) _ _ => apply emits_gunzip_to; exact I
  | |- emits (if ?c then _ else _) _ _ => destruct c
  end.

(** ** Which processes a run spawns *)










(** ** Discovery by the SPAdes driver *)








(** ** The interactive configuration *)

Lemma print_eq line st : Os.print line st = (inr tt, logged st [Stdout line]).
Proof. reflexivity. Qed.

Lemma input_line text st line rest :
  stdin st = line :: rest ->
  Os.input text st
  = (inr line, mk_state (fs st) (trace st ++ [Prompt text]) rest (spawned st)).
Proof. intros H. unfold Os.input. rewrite H. reflexivity. Qed.

Lemma input_eof text st :
  stdin st = [] ->
  Os.input text st
  = (inl (EOFError "EOF when reading a line"), logged st [Prompt text]).
Proof.
  intros H. unfold Os.input, logged. rewrite H. reflexivity.
Qed.

Section AskUntil.

Variables (text err : string) (ok : string -> M bool).

Hypothesis ok_eq :
  forall v st, ok v st = (inr (Py.truthy v && Fs.exists_ (fs st) v), st).



Lemma ask_until_asks_again line rest st :
  stdin st = line :: rest ->
  valid_answer (fs st) line = false ->
  Os.ask_until text err ok st
  = Os.ask_until text err ok
      (mk_state (fs st) (trace st ++ [Prompt text; Stdout err]) rest (spawned st)).
Proof.
  intros Hin Hbad. unfold Os.ask_until. rewrite Hin. cbn [Os.ask_loop stdin].
  step (input_line text st line rest Hin).
  rewrite (bind_inr _ _ _ _ _ (ok_eq _ _)). cbn [fs].
  unfold valid_answer in Hbad. rewrite Hbad. cbv iota.
  step print_eq. unfold logged. cbn [fs trace stdin spawned].
  rewrite <- app_assoc. reflexivity.
Qed.

End AskUntil.

Lemma snippy_ok_eq v st :
  Snippy.nonempty_and_exists v st = (inr (Py.truthy v && Fs.exists_ (fs st) v), st).
Proof. reflexivity. Qed.

Lemma spades_ok_eq v st :
  Spades.nonempty_and_exists v st = (inr (Py.truthy v && Fs.exists_ (fs st) v), st).
Proof. reflexivity. Qed.




(** ** The output directory of a sample *)

(** [run_snippy] calls the tool only once its output directory is there:
    when [os.makedirs] fails the function raises before any process is
    spawned, and when it succeeds the directory exists on the file system
    the tool is started on. *)
Lemma snippy_outdir_exists_at_call E self strain sample R1_file R2_file st :
  match Fs.makedirs (fs st) (Snippy.output_dir self strain sample) with
  | (f, Some k) =>
      Snippy.run_snippy E self strain sample R1_file R2_file st
      = (inl (OSError k (strerror k (Snippy.output_dir self strain sample))),
         mk_state f (trace st ++ [Makedirs (Snippy.output_dir self strain sample)])
                  (stdin st) (spawned st))
  | (f, None) =>
      Fs.isdir f (Snippy.output_dir self strain sample) = true
      /\ forall out err r,
          tool E (spawned st) (Snippy.snippy_cmd self strain sample R1_file R2_file) f
          = (Exited 0 out err, r) ->
          fst (Snippy.run_snippy E self strain sample R1_file R2_file st) = inr true
  end.
Proof.
  destruct (Fs.makedirs (fs st) (Snippy.output_dir self strain sample)) as [f [k|]] eqn:Hmk.
  - unfold Snippy.run_snippy. step (makedirs_err _ _ _ _ Hmk). reflexivity.
  - split; [exact (FsFacts.makedirs_isdir _ _ _ Hmk)|].
    intros out err r Ht.
    exact (run_snippy_exit0 E self strain sample R1_file R2_file st f Hmk out err r Ht).
Qed.

Lemma spades_run_makes_no_directory E self sp r1 r2 :
  emits (Spades.run_spades E self sp r1 r2)
        (fun e => match e with Makedirs _ => False | _ => True end)
        (fun _ => True).
Proof.
  unfold Spades.run_spades. repeat emits_step.
  apply emits_try.
  - eapply emits_bind; [apply emits_subprocess_run; exact I|intros ? ?].
    repeat emits_step. exact I.
  - intros e k Hk.
    destruct e as [[] msg|rc c out err|msg|cls msg]; try discriminate;
      injection Hk as <-; repeat emits_step; exact I.
Qed.

(** C8 on the SPAdes driver.  [run_spades] builds the path of the output
    directory and never calls [os.makedirs]; run with a tool that insists
    on finding its output directory, the driver sees both of its samples
    fail, and the directory of sample [X] is still not there after the
    run.  The same tool is content under the Snippy driver. *)
Theorem spades_outdir_not_created :
  (forall E self sp r1 r2 st,
      exists evs,
        trace (snd (Spades.run_spades E self sp r1 r2 st)) = trace st ++ evs
        /\ forall p, ~ In (Makedirs p) evs)
  /\ (let res := Spades.main Demo.wants_outdir
                             (Demo.start Demo.spades_fs [ "in"; "out"; "4" ]) in
      fst res = inr tt
      /\ Spades.assembly_dir Demo.spades_self "X/ILLUMINA_DATA/X" = "out/X_assembly"
      /\ Fs.isdir Demo.spades_fs "out" = true
      /\ Fs.isdir (fs (snd res)) "out/X_assembly" = false
      /\ In (Spawn (spades_cmd_for Demo.spades_self "X/ILLUMINA_DATA/X")) (trace (snd res))
      /\ In (Log ERROR "Error message: output directory missing") (trace (snd res))
      /\ In (Log INFO "Failed assemblies: 2 samples") (trace (snd res)))
  /\ fst (Snippy.run_snippy Demo.wants_outdir Demo.snippy_self Demo.staph "MCR_CVU_1"
                            "r1" "r2" (Demo.start Demo.snippy_fs [])) = inr true.
Proof.
  split; [|split].
  - intros E self sp r1 r2 st.
    destruct (spades_run_makes_no_directory E self sp r1 r2 st) as (evs & Ht & Hf & _).
    exists evs. split; [exact Ht|]. intros p Hin.
    rewrite Forall_forall in Hf. exact (Hf _ Hin).
  - vm_compute. repeat split; repeat (first [left; reflexivity|right]).
  - vm_compute. reflexivity.
Qed.

(* ================================================================= *)
(** ** The statements at work *)

Lemma counters_add_up_witness :
  (exists sc fc st3,
      sc + fc = 3
      /\ Snippy.run_analysis Demo.succeeds Demo.snippy_self (Demo.start Demo.snippy_fs [])
         = (inr tt, logged st3 (snippy_summary Demo.snippy_self sc fc 3)))
  /\ (exists sc fc st3,
         sc + fc = 2
         /\ Spades.run_assembly Demo.succeeds Demo.spades_self (Demo.start Demo.spades_fs [])
            = (inr tt, logged st3 (spades_summary Demo.spades_self sc fc 2))).
Proof.
  split.
  - pose (st := Demo.start Demo.snippy_fs []).
    pose (st1 := snd (Snippy.validate_inputs Demo.succeeds Demo.snippy_self
                        (logged st [Log INFO "Starting SNP analysis workflow"]))).
    pose (samples := [ (Demo.staph, "MCR_CVU_1"); (Demo.staph, "MCR_CVU_2");
                       (Demo.staph, "MCR_CVU_3") ]).
    pose (st2 := snd (Snippy.get_samples Demo.snippy_self st1)).
    destruct (proj1 (proj2 (proj2 (counters_add_up Demo.succeeds)))
                    Demo.snippy_self st st1 st2 samples)
      as (sc & fc & st3 & _ & Hn & Hr).
    + vm_compute. reflexivity.
    + vm_compute. reflexivity.
    + discriminate.
    + exists sc, fc, st3. split; [exact Hn|exact Hr].
  - pose (st := Demo.start Demo.spades_fs []).
    pose (st1 := snd (Spades.validate_inputs Demo.succeeds Demo.spades_self
                        (logged st [Log INFO "Starting genome assembly workflow"]))).
    pose (samples := [ "X/ILLUMINA_DATA/X"; "W/ILLUMINA_DATA/W" ]).
    pose (st2 := snd (Spades.get_samples Demo.spades_self st1)).
    destruct (proj2 (proj2 (proj2 (counters_add_up Demo.succeeds)))
                    Demo.spades_self st st1 st2 samples)
      as (sc & fc & st3 & _ & Hn & Hr).
    + vm_compute. reflexivity.
    + vm_compute. reflexivity.
    + discriminate.
    + exists sc, fc, st3. split; [exact Hn|exact Hr].
Defined.

Lemma resolution_failure_is_contained_witness :
  (exists st',
      Os.for_each [ (Demo.staph, "MCR_CVU_1"); (Demo.staph, "MCR_CVU_2");
                    (Demo.staph, "MCR_CVU_3") ]
                  (Snippy.process_sample Demo.succeeds Demo.snippy_self) (0, 0)
                  (Demo.start Demo.snippy_fs [])
      = Os.for_each [ (Demo.staph, "MCR_CVU_3") ]
                    (Snippy.process_sample Demo.succeeds Demo.snippy_self) (1, 0 + 1) st')
  /\ (exists st',
         Os.for_each [ "X/ILLUMINA_DATA/X"; "X/ILLUMINA_DATA/Y"; "W/ILLUMINA_DATA/W" ]
                     (Spades.process_sample Demo.succeeds Demo.spades_self) (0, 0)
                     (Demo.start Demo.spades_fs [])
         = Os.for_each [ "W/ILLUMINA_DATA/W" ]
                       (Spades.process_sample Demo.succeeds Demo.spades_self) (1, 0 + 1) st').
Proof.
  split.
  - pose (st := Demo.start Demo.snippy_fs []).
    pose (pre := [ (Demo.staph, "MCR_CVU_1") ]).
    pose (r1 := Os.for_each pre (Snippy.process_sample Demo.succeeds Demo.snippy_self)
                            (0, 0) st).
    pose (r2 := Snippy.get_fastq_files Demo.snippy_self Demo.staph "MCR_CVU_2" (snd r1)).
    eexists.
    refine (proj2 (proj1 (resolution_failure_is_contained Demo.succeeds)
                     Demo.snippy_self pre Demo.staph "MCR_CVU_2"
                     [ (Demo.staph, "MCR_CVU_3") ] st 1 0 (snd r1)
                     (no_fastq_error Demo.staph "MCR_CVU_2") (snd r2) _ _)).
    + vm_compute. reflexivity.
    + vm_compute. reflexivity.
  - pose (st := Demo.start Demo.spades_fs []).
    pose (pre := [ "X/ILLUMINA_DATA/X" ]).
    pose (r1 := Os.for_each pre (Spades.process_sample Demo.succeeds Demo.spades_self)
                            (0, 0) st).
    pose (r2 := Spades.decompress_fastq Demo.succeeds Demo.spades_self "X/ILLUMINA_DATA/Y"
                  (logged (snd r1) [Log INFO "Processing sample: X/ILLUMINA_DATA/Y"])).
    eexists.
    refine (proj2 (proj2 (resolution_failure_is_contained Demo.succeeds)
                     Demo.spades_self pre "X/ILLUMINA_DATA/Y"
                     [ "W/ILLUMINA_DATA/W" ] st 1 0 (snd r1)
                     (OSError ENOENT
                        "R2 file not found: in/X/ILLUMINA_DATA/Y_R2_trimmed.fastq.gz")
                     (snd r2) _ _)).
    + vm_compute. reflexivity.
    + vm_compute. reflexivity.
Defined.


Lemma decompress_skips_existing_witness :
  Spades.decompress_fastq Demo.succeeds Demo.spades_self "W/ILLUMINA_DATA/W"
                          (Demo.start Demo.spades_fs [])
  = (inr ("in/W/ILLUMINA_DATA/W_R1_trimmed.fastq", "in/W/ILLUMINA_DATA/W_R2_trimmed.fastq"),
     logged (Demo.start Demo.spades_fs [])
            [ Log INFO "Decompressing FASTQ files for: W/ILLUMINA_DATA/W";
              Log INFO "FASTQ files already decompressed: W/ILLUMINA_DATA/W" ]).
Proof.
  refine (proj1 (decompress_skips_existing Demo.succeeds Demo.spades_self
                   "W/ILLUMINA_DATA/W" (Demo.start Demo.spades_fs []) _ _)).
  - vm_compute. reflexivity.
  - vm_compute. reflexivity.
Defined.

Lemma probe_failure_aborts_witness :
  trace (snd (Snippy.run_analysis Demo.absent Demo.snippy_self
                                  (Demo.start Demo.snippy_fs [])))
  = [ Log INFO "Starting SNP analysis workflow";
      Spawn ["snippy"; "--version"];
      Log ERROR "Snippy command not found or version check failed";
      Log ERROR "Input validation failed, exiting analysis" ]
  /\ trace (snd (Spades.run_assembly (Demo.exits 127 "") Demo.spades_self
                                     (Demo.start Demo.spades_fs [])))
     = [ Log INFO "Starting genome assembly workflow";
         Spawn ["spades.py"; "--version"];
         Log ERROR "SPAdes command not found or version check failed";
         Log ERROR "Input validation failed, exiting assembly" ].
Proof.
  split.
  - refine (proj2 (proj2 (proj1 (probe_failure_aborts Demo.absent)
                            Demo.snippy_self (Demo.start Demo.snippy_fs []) _))).
    left. reflexivity.
  - refine (proj2 (proj2 (proj2 (probe_failure_aborts (Demo.exits 127 ""))
                            Demo.spades_self (Demo.start Demo.spades_fs []) _))).
    right. exists 127%Z, "", "". split; [reflexivity|discriminate].
Defined.

Lemma snippy_discovery_confined_witness :
  In Demo.staph [ "Acinetobacterbaumannii"; "Pseudomonasaeruginosa";
                  "Staphylococcusaureus"; "Klebsiellapneumoniae" ]
  /\ Py.startswith "MCR_CVU_3" "MCR_CVU_" = true
  /\ Fs.resolve Demo.snippy_fs
                 (posixpath.join (posixpath.join "data" Demo.staph) "MCR_CVU_3")
     = inr [ "data"; Demo.staph; "MCR_CVU_3" ].
Proof.
  pose (st0 := Demo.start Demo.snippy_fs []).
  pose (st := snd (Snippy.init "data" "out" "ref.fa" 16 st0)).
  destruct (snippy_discovery_confined Demo.snippy_self "data" "out" "ref.fa" 16
              st0 st st0 (snd (Snippy.get_samples Demo.snippy_self st0))
              [ (Demo.staph, "MCR_CVU_1"); (Demo.staph, "MCR_CVU_2");
                (Demo.staph, "MCR_CVU_3") ]
              Demo.staph "MCR_CVU_3")
    as (H1 & H2 & _ & _ & H5).
  - vm_compute. reflexivity.
  - vm_compute. reflexivity.
  - right. right. left. reflexivity.
  - split; [exact H1|]. split; [exact H2|].
    destruct (H5 eq_refl) as (q & Hq & Hr).
    vm_compute in Hq. injection Hq as <-. exact Hr.
Defined.







(* ================================================================= *)
(** * Further properties *)

(** ** The file system under writes *)

Module FsMore.

Import Fs.

Lemma with_root_same f : with_root f (root f) = f.
Proof. destruct f; reflexivity. Qed.

Lemma walk_start_dir r cur c cs q :
  walk r cur (c :: cs) = inr q -> is_dir_node (get r cur) = true.
Proof.
  simpl. destruct (get r cur) as [[d|es]|]; try discriminate. reflexivity.
Qed.

Lemma child_is_dir r cur es c :
  get r cur = Some (Dir es) ->
  is_dir_node (get r (cur ++ [c])) = true ->
  exists es', assoc c es = Some (Dir es').
Proof.
  intros Hcur H. rewrite FsFacts.get_app, Hcur in H. simpl in H.
  destruct (assoc c es) as [[d|es']|]; try discriminate. eauto.
Qed.

Lemma makedirs_walk_existing cs r cur q :
  walk r cur cs = inr q -> is_dir_node (get r q) = true ->
  makedirs_walk r cur cs = (r, None).
Proof.
  revert cur; induction cs as [|c cs IH]; intros cur Hw Hq; [reflexivity|].
  simpl in *. destruct (get r cur) as [[d|es]|] eqn:Hcur; try discriminate.
  destruct (String.eqb c "" || String.eqb c "."); [exact (IH _ Hw Hq)|].
  destruct (String.eqb c ".."); [exact (IH _ Hw Hq)|].
  assert (Hd : is_dir_node (get r (cur ++ [c])) = true).
  { destruct cs as [|c' cs'].
    - simpl in Hw. injection Hw as <-. exact Hq.
    - exact (walk_start_dir _ _ _ _ _ Hw). }
  destruct (child_is_dir _ _ _ _ Hcur Hd) as [es' ->].
  exact (IH _ Hw Hq).
Qed.

(** [os.makedirs(p, exist_ok=True)] on a directory that is there
    succeeds and changes nothing. *)
Lemma makedirs_existing f p : isdir f p = true -> makedirs f p = (f, None).
Proof.
  unfold isdir, stat, resolve, makedirs.
  destruct (String.eqb p ""); [discriminate|].
  set (cur := if Py.startswith p "/" then [] else cwd f).
  destruct (walk (root f) cur (posixpath.components p)) as [e|q] eqn:Hw; [discriminate|].
  intros H.
  rewrite (makedirs_walk_existing _ _ _ q Hw).
  - rewrite with_root_same. reflexivity.
  - destruct (get (root f) q) as [[d|es]|]; try discriminate. reflexivity.
Qed.

Lemma keeps_refl r : keeps r r.
Proof. intros y. split; auto. Qed.

Lemma keeps_trans r1 r2 r3 : keeps r1 r2 -> keeps r2 r3 -> keeps r1 r3.
Proof.
  intros H12 H23 y. destruct (H12 y) as [Ha Hb], (H23 y) as [Hc Hd]. split; auto.
Qed.

Lemma walk_keeps r r' cur cs q :
  keeps r r' -> walk r cur cs = inr q -> walk r' cur cs = inr q.
Proof.
  intros Hk. revert cur; induction cs as [|c cs IH]; intros cur Hw; [exact Hw|].
  pose proof (proj1 (Hk cur) (walk_start_dir _ _ _ _ _ Hw)) as Hd.
  simpl in *. destruct (get r cur) as [[d|es]|]; try discriminate.
  destruct (get r' cur) as [[d'|es']|]; try discriminate.
  destruct (String.eqb c "" || String.eqb c "."); [exact (IH _ Hw)|].
  destruct (String.eqb c ".."); exact (IH _ Hw).
Qed.

(** Storing a node under a directory, at a place that holds no
    directory: what was there before is still there. *)
Lemma put_keeps p c r es x :
  get r p = Some (Dir es) ->
  is_dir_node (get r (p ++ [c])) = false ->
  keeps r (put r (p ++ [c]) x).
Proof.
  revert r; induction p as [|k p IH]; intros r Hp Hq y; simpl in *.
  - injection Hp as ->. destruct y as [|c' y]; [split; [reflexivity|discriminate]|].
    simpl. destruct (String.eqb c' c) eqn:E.
    + apply String.eqb_eq in E. subst c'. rewrite FsFacts.assoc_alter_same.
      destruct (assoc c es) as [[d0|es0]|]; try discriminate.
      * destruct y; simpl; split; auto; discriminate.
      * split; [discriminate|congruence].
    + assert (Hne : c' <> c) by (intros ->; rewrite String.eqb_refl in E; discriminate).
      rewrite FsFacts.assoc_alter_other; [split; auto|exact Hne|].
      simpl. destruct (String.eqb c c') eqn:E'; [|reflexivity].
      apply String.eqb_eq in E'. congruence.
  - destruct r as [dat|es0]; [discriminate|].
    destruct (assoc k es0) as [ch|] eqn:Hk; [|discriminate].
    destruct y as [|c' y]; [split; [reflexivity|discriminate]|]. simpl.
    destruct (String.eqb c' k) eqn:E.
    + apply String.eqb_eq in E. subst c'. rewrite FsFacts.assoc_alter_same, Hk.
      exact (IH ch Hp Hq y).
    + assert (Hne : c' <> k) by (intros ->; rewrite String.eqb_refl in E; discriminate).
      rewrite FsFacts.assoc_alter_other; [split; auto|exact Hne|].
      apply FsFacts.assoc_fresh_other. exact Hne.
Qed.

(** A file elsewhere is left as it is. *)
Lemma put_file_other p c r es x y d :
  get r p = Some (Dir es) ->
  is_dir_node (get r (p ++ [c])) = false ->
  get r y = Some (File d) -> y <> p ++ [c] ->
  get (put r (p ++ [c]) x) y = Some (File d).
Proof.
  revert r y; induction p as [|k p IH]; intros r y Hp Hq Hy Hne; simpl in *.
  - injection Hp as ->. destruct y as [|c' y]; [discriminate|]. simpl in *.
    destruct (String.eqb c' c) eqn:E.
    + apply String.eqb_eq in E. subst c'.
      destruct (assoc c es) as [[d0|es0]|]; try discriminate.
      destruct y; [congruence|discriminate].
    + assert (Hn : c' <> c) by (intros ->; rewrite String.eqb_refl in E; discriminate).
      rewrite FsFacts.assoc_alter_other; [exact Hy|exact Hn|].
      simpl. destruct (String.eqb c c') eqn:E'; [|reflexivity].
      apply String.eqb_eq in E'. congruence.
  - destruct r as [dat|es0]; [discriminate|].
    destruct (assoc k es0) as [ch|] eqn:Hk; [|discriminate].
    destruct y as [|c' y]; [discriminate|]. simpl in *.
    destruct (String.eqb c' k) eqn:E.
    + apply String.eqb_eq in E. subst c'. rewrite FsFacts.assoc_alter_same, Hk.
      rewrite Hk in Hy. apply IH; try assumption. congruence.
    + assert (Hn : c' <> k) by (intros ->; rewrite String.eqb_refl in E; discriminate).
      rewrite FsFacts.assoc_alter_other; [exact Hy|exact Hn|].
      apply FsFacts.assoc_fresh_other. exact Hn.
Qed.

(** Where a path that does not lead to a directory ends. *)
Lemma walk_ends cs r cur q :
  walk r cur cs = inr q -> is_dir_node (get r cur) = true ->
  is_dir_node (get r q) = true
  \/ exists p c es, q = p ++ [c] /\ get r p = Some (Dir es).
Proof.
  revert cur; induction cs as [|c cs IH]; intros cur Hw Hd.
  - injection Hw as <-. left. exact Hd.
  - simpl in Hw. destruct (get r cur) as [[d|es]|] eqn:Hcur; try discriminate.
    destruct (String.eqb c "" || String.eqb c ".").
    { apply (IH cur Hw). rewrite Hcur. reflexivity. }
    destruct (String.eqb c "..").
    { apply (IH _ Hw). apply FsFacts.get_parent. rewrite Hcur. reflexivity. }
    destruct cs as [|c' cs'].
    + simpl in Hw. injection Hw as <-. right. exists cur, c, es. auto.
    + apply (IH _ Hw). exact (walk_start_dir _ _ _ _ _ Hw).
Qed.

Lemma resolve_start_dir f p q :
  resolve f p = inr q ->
  is_dir_node (get (root f) (if Py.startswith p "/" then [] else cwd f)) = true.
Proof.
  unfold resolve. destruct (String.eqb p ""); [discriminate|].
  unfold posixpath.components.
  pose proof (FsFacts.components_from_nonempty "" p) as Hne.
  destruct (posixpath.components_from "" p) as [|c cs]; [congruence|].
  apply walk_start_dir.
Qed.

(** What [write] does, on canonical paths. *)
Lemma write_inv f p d f' :
  write f p d = inr f' ->
  exists q0 c es,
    resolve f p = inr (q0 ++ [c])
    /\ get (root f) q0 = Some (Dir es)
    /\ is_dir_node (get (root f) (q0 ++ [c])) = false
    /\ f' = with_root f (put (root f) (q0 ++ [c]) (File d)).
Proof.
  unfold write. destruct (resolve f p) as [e|q] eqn:Hr; [discriminate|].
  intros H.
  assert (Hnd : is_dir_node (get (root f) q) = false).
  { destruct (get (root f) q) as [[d0|es0]|]; try discriminate; reflexivity. }
  assert (Hf : f' = with_root f (put (root f) q (File d))).
  { destruct (get (root f) q) as [[d0|es0]|]; congruence. }
  pose proof (resolve_start_dir _ _ _ Hr) as Hs.
  unfold resolve in Hr. destruct (String.eqb p ""); [discriminate|].
  destruct (walk_ends _ _ _ _ Hr Hs) as [Hd|(q0 & c & es & -> & Hq0)].
  - congruence.
  - exists q0, c, es. auto.
Qed.

Lemma write_keeps f p d f' : write f p d = inr f' -> keeps (root f) (root f').
Proof.
  intros H. destruct (write_inv _ _ _ _ H) as (q0 & c & es & _ & Hq0 & Hnd & ->).
  cbn [root with_root]. exact (put_keeps _ _ _ _ _ Hq0 Hnd).
Qed.

Lemma cwd_write f p d f' : write f p d = inr f' -> cwd f' = cwd f.
Proof.
  intros H. destruct (write_inv _ _ _ _ H) as (q0 & c & es & _ & _ & _ & ->).
  reflexivity.
Qed.

Lemma resolve_keeps f f' p q :
  keeps (root f) (root f') -> cwd f' = cwd f ->
  resolve f p = inr q -> resolve f' p = inr q.
Proof.
  unfold resolve. intros Hk Hc. destruct (String.eqb p ""); [discriminate|].
  rewrite Hc. apply walk_keeps. exact Hk.
Qed.

Lemma exists_keeps f f' p :
  keeps (root f) (root f') -> cwd f' = cwd f ->
  exists_ f p = true -> exists_ f' p = true.
Proof.
  unfold exists_, stat. intros Hk Hc.
  destruct (resolve f p) as [e|q] eqn:Hr; [discriminate|].
  rewrite (resolve_keeps _ _ _ _ Hk Hc Hr).
  destruct (get (root f) q) eqn:Hg; [|discriminate]. intros _.
  destruct (get (root f') q) eqn:Hg'; [reflexivity|].
  exfalso. apply (proj2 (Hk q)); [congruence|exact Hg'].
Qed.

(** What has been written can be read. *)
Lemma read_write f p d f' : write f p d = inr f' -> read f' p = inr d.
Proof.
  intros H. pose proof (write_keeps _ _ _ _ H) as Hk.
  pose proof (cwd_write _ _ _ _ H) as Hc.
  destruct (write_inv _ _ _ _ H) as (q0 & c & es & Hr & Hq0 & Hnd & ->).
  unfold read, stat. rewrite (resolve_keeps _ _ _ _ Hk Hc Hr). cbn [root with_root].
  rewrite (FsFacts.get_put_new _ _ _ _ _ Hq0). reflexivity.
Qed.

Lemma exists_write f p d f' : write f p d = inr f' -> exists_ f' p = true.
Proof.
  intros H. pose proof (read_write _ _ _ _ H) as Hr.
  unfold read in Hr. unfold exists_. destruct (stat f' p); [discriminate|reflexivity].
Qed.

(** Writing one file leaves the content of every other file. *)
Lemma read_write_other f p d f' p' q q' d' :
  write f p d = inr f' ->
  resolve f p = inr q -> resolve f p' = inr q' -> q' <> q ->
  read f p' = inr d' -> read f' p' = inr d'.
Proof.
  intros H Hq Hq' Hne Hrd. pose proof (write_keeps _ _ _ _ H) as Hk.
  pose proof (cwd_write _ _ _ _ H) as Hc.
  destruct (write_inv _ _ _ _ H) as (q0 & c & es & Hr & Hq0 & Hnd & ->).
  rewrite Hq in Hr. injection Hr as ->.
  unfold read, stat in *. rewrite (resolve_keeps _ _ _ _ Hk Hc Hq'). rewrite Hq' in Hrd.
  cbn [root with_root].
  destruct (get (root f) q') as [[d0|es0]|] eqn:Hg; try discriminate.
  injection Hrd as ->.
  rewrite (put_file_other _ _ _ _ _ _ _ Hq0 Hnd Hg Hne). reflexivity.
Qed.

Lemma makedirs_walk_keeps cs r cur r' e :
  makedirs_walk r cur cs = (r', e) -> keeps r r'.
Proof.
  revert r cur; induction cs as [|c cs IH]; intros r cur H; simpl in H.
  - injection H as <- _. apply keeps_refl.
  - destruct (get r cur) as [[d|es]|] eqn:Hcur;
      try (injection H as <- _; apply keeps_refl).
    destruct (String.eqb c "" || String.eqb c "."); [eapply IH; eassumption|].
    destruct (String.eqb c ".."); [eapply IH; eassumption|].
    destruct (assoc c es) as [[d|es']|] eqn:Hc.
    + injection H as <- _. apply keeps_refl.
    + eapply IH; eassumption.
    + eapply keeps_trans; [|eapply IH; exact H].
      apply (put_keeps _ _ _ es); [exact Hcur|].
      rewrite FsFacts.get_app, Hcur. simpl. rewrite Hc. reflexivity.
Qed.

(** [os.makedirs] removes nothing. *)
Lemma makedirs_keeps f p f' e :
  makedirs f p = (f', e) -> keeps (root f) (root f') /\ cwd f' = cwd f.
Proof.
  unfold makedirs. destruct (String.eqb p "").
  - intros H. injection H as <- _. split; [apply keeps_refl|reflexivity].
  - destruct (makedirs_walk _ _ _) as [r e'] eqn:Hw. intros H. injection H as <- _.
    cbn [root cwd with_root]. split; [|reflexivity].
    exact (makedirs_walk_keeps _ _ _ _ _ Hw).
Qed.

Lemma isdir_keeps f f' p :
  keeps (root f) (root f') -> cwd f' = cwd f ->
  isdir f p = true -> isdir f' p = true.
Proof.
  unfold isdir, stat. intros Hk Hc.
  destruct (resolve f p) as [e|q] eqn:Hr; [discriminate|].
  rewrite (resolve_keeps _ _ _ _ Hk Hc Hr). intros H.
  assert (Hd : is_dir_node (get (root f) q) = true).
  { destruct (get (root f) q) as [[d|es]|]; try discriminate. reflexivity. }
  apply (proj1 (Hk q)) in Hd.
  destruct (get (root f') q) as [[d|es]|]; try discriminate. reflexivity.
Qed.

(** Writing a file makes no directory and unmakes none. *)
Lemma put_file_same_dirs p c r es d y :
  get r p = Some (Dir es) ->
  is_dir_node (get r (p ++ [c])) = false ->
  is_dir_node (get (put r (p ++ [c]) (File d)) y) = is_dir_node (get r y).
Proof.
  revert r y; induction p as [|k p IH]; intros r y Hp Hq; simpl in *.
  - injection Hp as ->. destruct y as [|c' y]; [reflexivity|].
    simpl. destruct (String.eqb c' c) eqn:E.
    + apply String.eqb_eq in E. subst c'. rewrite FsFacts.assoc_alter_same.
      destruct (assoc c es) as [[d0|es0]|]; try discriminate.
      * destruct y; reflexivity.
      * simpl. rewrite String.eqb_refl. destruct y; reflexivity.
    + assert (Hne : c' <> c) by (intros ->; rewrite String.eqb_refl in E; discriminate).
      rewrite FsFacts.assoc_alter_other; [reflexivity|exact Hne|].
      simpl. destruct (String.eqb c c') eqn:E'; [|reflexivity].
      apply String.eqb_eq in E'. congruence.
  - destruct r as [dat|es0]; [discriminate|].
    destruct (assoc k es0) as [ch|] eqn:Hk; [|discriminate].
    destruct y as [|c' y]; [reflexivity|]. simpl.
    destruct (String.eqb c' k) eqn:E.
    + apply String.eqb_eq in E. subst c'. rewrite FsFacts.assoc_alter_same, Hk.
      exact (IH ch y Hp Hq).
    + assert (Hne : c' <> k) by (intros ->; rewrite String.eqb_refl in E; discriminate).
      rewrite FsFacts.assoc_alter_other; [reflexivity|exact Hne|].
      apply FsFacts.assoc_fresh_other. exact Hne.
Qed.

Lemma write_same_dirs f p d f' y :
  write f p d = inr f' ->
  is_dir_node (get (root f') y) = is_dir_node (get (root f) y).
Proof.
  intros H. destruct (write_inv _ _ _ _ H) as (q0 & c & es & _ & Hq0 & Hnd & ->).
  cbn [root with_root]. exact (put_file_same_dirs _ _ _ _ _ _ Hq0 Hnd).
Qed.

(** An entry beside the one that is stored is left as it is. *)
Lemma put_sibling p c c' r es x :
  get r p = Some (Dir es) -> c' <> c ->
  get (put r (p ++ [c]) x) (p ++ [c']) = get r (p ++ [c']).
Proof.
  revert r; induction p as [|k p IH]; intros r Hp Hne; simpl in *.
  - injection Hp as ->. rewrite FsFacts.assoc_alter_other; [reflexivity|exact Hne|].
    simpl. destruct (String.eqb c c') eqn:E'; [|reflexivity].
    apply String.eqb_eq in E'. congruence.
  - destruct r as [dat|es0]; [discriminate|].
    destruct (assoc k es0) as [ch|] eqn:Hk; [|discriminate].
    rewrite FsFacts.assoc_alter_same, Hk. exact (IH ch Hp Hne).
Qed.



End FsMore.

(** ** Files side by side *)

Module PathMore.

Import Fs.
Local Open Scope string_scope.

Lemma length_append (a b : string) :
  String.length (a ++ b) = String.length a + String.length b.
Proof. induction a as [|x a IH]; simpl; [reflexivity|rewrite IH; reflexivity]. Qed.

Lemma append_inj_l (a b c : string) : a ++ b = a ++ c -> b = c.
Proof.
  induction a as [|x a IH]; simpl; intros H; [exact H|].
  injection H as H. exact (IH H).
Qed.

(** A name of three characters or more is a plain component. *)
Lemma long_not_special (c : string) :
  2 < String.length c ->
  String.eqb c "" || String.eqb c "." = false /\ String.eqb c ".." = false.
Proof.
  destruct c as [|x [|y [|z c]]]; simpl; try lia. intros _.
  split.
  - destruct (Ascii.eqb x "."); reflexivity.
  - destruct (Ascii.eqb x "."); [|reflexivity]. destruct (Ascii.eqb y "."); reflexivity.
Qed.

(** [os.path.join] with a suffix added to its last argument. *)
Lemma join_suffix a b s :
  Py.startswith s "/" = false ->
  posixpath.join a (b ++ s) = posixpath.join a b ++ s.
Proof.
  intros Hs. unfold posixpath.join.
  assert (Hb : Py.startswith (b ++ s) "/" = Py.startswith b "/").
  { destruct b as [|x b]; [exact Hs|]. apply PathFacts.startswith_slash_app. discriminate. }
  rewrite Hb. destruct (Py.startswith b "/"); [reflexivity|].
  destruct (String.eqb a "" || Py.endswith a "/").
  - rewrite PathFacts.append_assoc. reflexivity.
  - rewrite !PathFacts.append_assoc. reflexivity.
Qed.

(** The components of a path whose last component is lengthened. *)
Lemma components_from_suffix cur p s :
  posixpath.no_slash s = true ->
  posixpath.components_from cur (p ++ s)
  = (removelast (posixpath.components_from cur p)
     ++ [(last (posixpath.components_from cur p) "" ++ s)%string])%list.
Proof.
  intros Hs. revert cur; induction p as [|x p IH]; intros cur.
  - simpl. apply PathFacts.components_from_plain. exact Hs.
  - cbn [append posixpath.components_from]. destruct (Ascii.eqb x "/").
    + rewrite IH.
      pose proof (FsFacts.components_from_nonempty "" p) as Hne.
      destruct (posixpath.components_from "" p) as [|c cs] eqn:E; [congruence|].
      reflexivity.
    + apply IH.
Qed.

Lemma walk_last r cur c q :
  2 < String.length c ->
  walk r cur [c] = inr q ->
  q = (cur ++ [c])%list /\ is_dir_node (get r cur) = true.
Proof.
  intros Hc. destruct (long_not_special c Hc) as [H1 H2]. simpl. rewrite H1, H2.
  destruct (get r cur) as [[d|es]|]; try discriminate.
  intros H. injection H as <-. split; reflexivity.
Qed.

Lemma walk_last_dir r cur c :
  2 < String.length c -> is_dir_node (get r cur) = true ->
  walk r cur [c] = inr (cur ++ [c])%list.
Proof.
  intros Hc Hd. destruct (long_not_special c Hc) as [H1 H2]. simpl. rewrite H1, H2.
  destruct (get r cur) as [[d|es]|]; try discriminate. reflexivity.
Qed.

(** Two paths that differ in a suffix of their last component lead to
    two entries of one directory. *)
Lemma resolve_sibling f p s q :
  posixpath.no_slash s = true -> 2 < String.length s ->
  resolve f (p ++ s) = inr q ->
  exists q0 l,
    q = (q0 ++ [(l ++ s)%string])%list
    /\ is_dir_node (get (root f) q0) = true
    /\ forall s', posixpath.no_slash s' = true -> 2 < String.length s' ->
                  resolve f (p ++ s') = inr (q0 ++ [(l ++ s')%string])%list.
Proof.
  intros Hs Hl. unfold resolve.
  assert (Hstart : forall s', posixpath.no_slash s' = true -> 2 < String.length s' ->
            String.eqb (p ++ s') "" = false
            /\ Py.startswith (p ++ s') "/" = Py.startswith p "/").
  { intros s' Hs' Hl'. split.
    - destruct (String.eqb (p ++ s') "") eqn:E; [|reflexivity].
      apply String.eqb_eq in E. apply (f_equal String.length) in E.
      rewrite length_append in E. simpl in E. lia.
    - destruct p as [|x p]; [|apply PathFacts.startswith_slash_app; discriminate].
      destruct s' as [|y s']; [simpl in Hl'; lia|]. unfold Py.startswith. cbn [append String.prefix].
      unfold posixpath.no_slash in Hs'. cbn [list_ascii_of_string forallb] in Hs'.
      apply andb_true_iff in Hs'. destruct Hs' as [Hy _].
      destruct (ascii_dec "/" y) as [<-|]; [discriminate|reflexivity]. }
  destruct (Hstart s Hs Hl) as [-> ->].
  set (cur := if Py.startswith p "/" then [] else cwd f).
  unfold posixpath.components. rewrite (components_from_suffix "" p s Hs), PathFacts.walk_app.
  set (l := last (posixpath.components_from "" p) "").
  destruct (walk (root f) cur (removelast (posixpath.components_from "" p)))
    as [e|q0] eqn:Hw; [discriminate|].
  intros H.
  assert (Hlen : forall s', 2 < String.length s' -> 2 < String.length (l ++ s')).
  { intros s' H'. rewrite length_append. lia. }
  destruct (walk_last _ _ _ _ (Hlen s Hl) H) as [-> Hd].
  exists q0, l. split; [reflexivity|split; [exact Hd|]].
  intros s' Hs' Hl'. destruct (Hstart s' Hs' Hl') as [-> ->]. fold cur.
  rewrite (components_from_suffix "" p s' Hs'), PathFacts.walk_app, Hw.
  apply walk_last_dir; [apply Hlen; exact Hl'|exact Hd].
Qed.

End PathMore.

(** ** Validation, case by case *)

Lemma snippy_validate_ok E self st out err r :
  Fs.exists_ (fs st) (Snippy.base_path self) = true ->
  Fs.exists_ (fs st) (Snippy.ref_genome_path self) = true ->
  tool E (spawned st) ["snippy"; "--version"] (fs st) = (Exited 0 out err, r) ->
  Snippy.validate_inputs E self st
  = (inr true,
     mk_state (Fs.with_root (fs st) r)
              (trace st ++ [ Spawn ["snippy"; "--version"];
                             Log INFO "Snippy tool validation successful" ])
              (stdin st) (S (spawned st))).
Proof.
  intros Hb Hr Ht. unfold Snippy.validate_inputs.
  step path_exists_eq. rewrite Hb. cbn [negb]; cbv iota.
  step path_exists_eq. rewrite Hr. cbn [negb]; cbv iota.
  apply try_inr. step (subprocess_run_exit0 E _ st out err r Ht).
  step (log_eq INFO). unfold ret, logged; cbn [fs trace stdin spawned].
  rewrite <- app_assoc. reflexivity.
Qed.

Lemma spades_validate_ok E self st out err r :
  Fs.exists_ (fs st) (Spades.base_input_dir self) = true ->
  tool E (spawned st) ["spades.py"; "--version"] (fs st) = (Exited 0 out err, r) ->
  Spades.validate_inputs E self st
  = (inr true,
     mk_state (Fs.with_root (fs st) r)
              (trace st ++ [ Spawn ["spades.py"; "--version"];
                             Log INFO "SPAdes tool validation successful" ])
              (stdin st) (S (spawned st))).
Proof.
  intros Hb Ht. unfold Spades.validate_inputs.
  step path_exists_eq. rewrite Hb. cbn [negb]; cbv iota.
  apply try_inr. step (subprocess_run_exit0 E _ st out err r Ht).
  step (log_eq INFO). unfold ret, logged; cbn [fs trace stdin spawned].
  rewrite <- app_assoc. reflexivity.
Qed.

Lemma snippy_validate_raises E self st k r :
  Fs.exists_ (fs st) (Snippy.base_path self) = true ->
  Fs.exists_ (fs st) (Snippy.ref_genome_path self) = true ->
  tool E (spawned st) ["snippy"; "--version"] (fs st) = (ExecFailed k, r) ->
  k <> ENOENT ->
  Snippy.validate_inputs E self st
  = (inl (OSError k (strerror k "snippy")), logged st [Spawn ["snippy"; "--version"]]).
Proof.
  intros Hb Hr Ht Hk. unfold Snippy.validate_inputs.
  step path_exists_eq. rewrite Hb. cbn [negb]; cbv iota.
  step path_exists_eq. rewrite Hr. cbn [negb]; cbv iota.
  apply try_uncaught.
  - step (subprocess_run_exec_failed E _ st k r Ht). reflexivity.
  - destruct k; solve [reflexivity | congruence].
Qed.

Lemma spades_validate_raises E self st k r :
  Fs.exists_ (fs st) (Spades.base_input_dir self) = true ->
  tool E (spawned st) ["spades.py"; "--version"] (fs st) = (ExecFailed k, r) ->
  k <> ENOENT ->
  Spades.validate_inputs E self st
  = (inl (OSError k (strerror k "spades.py")),
     logged st [Spawn ["spades.py"; "--version"]]).
Proof.
  intros Hb Ht Hk. unfold Spades.validate_inputs.
  step path_exists_eq. rewrite Hb. cbn [negb]; cbv iota.
  apply try_uncaught.
  - step (subprocess_run_exec_failed E _ st k r Ht). reflexivity.
  - destruct k; solve [reflexivity | congruence].
Qed.

Lemma snippy_validate_no_path E self st :
  Fs.exists_ (fs st) (Snippy.base_path self) = false
  \/ Fs.exists_ (fs st) (Snippy.ref_genome_path self) = false ->
  exists msg, Snippy.validate_inputs E self st = (inr false, logged st [Log ERROR msg]).
Proof.
  intros H. unfold Snippy.validate_inputs. step path_exists_eq.
  destruct (Fs.exists_ (fs st) (Snippy.base_path self)); cbn [negb]; cbv iota.
  2:{ step (log_eq ERROR). eexists; reflexivity. }
  destruct H as [H|H]; [discriminate|].
  step path_exists_eq. rewrite H. cbn [negb]; cbv iota.
  step (log_eq ERROR). eexists; reflexivity.
Qed.

Lemma spades_validate_no_path E self st :
  Fs.exists_ (fs st) (Spades.base_input_dir self) = false ->
  Spades.validate_inputs E self st
  = (inr false,
     logged st [Log ERROR ("Base input directory does not exist: "
                             ++ Spades.base_input_dir self)]).
Proof.
  intros H. unfold Spades.validate_inputs. step path_exists_eq.
  rewrite H. cbn [negb]; cbv iota. step (log_eq ERROR). reflexivity.
Qed.

Lemma outcome_cases (o : outcome) :
  (exists out err, o = Exited 0 out err)
  \/ not_invocable o
  \/ (exists k, o = ExecFailed k /\ k <> ENOENT).
Proof.
  destruct o as [rc out err|k].
  - destruct (Z.eq_dec rc 0) as [->|Hrc]; [left; eauto|].
    right; left; right. eauto.
  - destruct k; try (right; right; eexists; split; [reflexivity|discriminate]).
    right; left; left. reflexivity.
Qed.

Lemma snippy_validate_iff E self st :
  fst (Snippy.validate_inputs E self st) = inr true
  <-> Fs.exists_ (fs st) (Snippy.base_path self) = true
      /\ Fs.exists_ (fs st) (Snippy.ref_genome_path self) = true
      /\ exists out err,
           fst (tool E (spawned st) ["snippy"; "--version"] (fs st)) = Exited 0 out err.
Proof.
  split.
  - intros Hv.
    destruct (Fs.exists_ (fs st) (Snippy.base_path self)) eqn:Hb.
    2:{ destruct (snippy_validate_no_path E self st (or_introl Hb)) as [msg Hm].
        rewrite Hm in Hv. discriminate. }
    destruct (Fs.exists_ (fs st) (Snippy.ref_genome_path self)) eqn:Hr.
    2:{ destruct (snippy_validate_no_path E self st (or_intror Hr)) as [msg Hm].
        rewrite Hm in Hv. discriminate. }
    split; [reflexivity|split; [reflexivity|]].
    destruct (outcome_cases (fst (tool E (spawned st) ["snippy"; "--version"] (fs st))))
      as [H|[H|(k & H & Hk)]]; [exact H| |].
    + destruct (snippy_validate_fails E self st H) as (st' & Hf & _).
      rewrite Hf in Hv. discriminate.
    + destruct (tool E (spawned st) ["snippy"; "--version"] (fs st)) as [o r] eqn:Ht.
      cbn [fst] in H. subst o.
      rewrite (snippy_validate_raises E self st k r Hb Hr Ht Hk) in Hv. discriminate.
  - intros (Hb & Hr & out & err & Ho).
    destruct (tool E (spawned st) ["snippy"; "--version"] (fs st)) as [o r] eqn:Ht.
    cbn [fst] in Ho. subst o.
    rewrite (snippy_validate_ok E self st out err r Hb Hr Ht). reflexivity.
Qed.

Lemma spades_validate_iff E self st :
  fst (Spades.validate_inputs E self st) = inr true
  <-> Fs.exists_ (fs st) (Spades.base_input_dir self) = true
      /\ exists out err,
           fst (tool E (spawned st) ["spades.py"; "--version"] (fs st)) = Exited 0 out err.
Proof.
  split.
  - intros Hv.
    destruct (Fs.exists_ (fs st) (Spades.base_input_dir self)) eqn:Hb.
    2:{ rewrite (spades_validate_no_path E self st Hb) in Hv. discriminate. }
    split; [reflexivity|].
    destruct (outcome_cases (fst (tool E (spawned st) ["spades.py"; "--version"] (fs st))))
      as [H|[H|(k & H & Hk)]]; [exact H| |].
    + destruct (spades_validate_fails E self st H) as (st' & Hf & _).
      rewrite Hf in Hv. discriminate.
    + destruct (tool E (spawned st) ["spades.py"; "--version"] (fs st)) as [o r] eqn:Ht.
      cbn [fst] in H. subst o.
      rewrite (spades_validate_raises E self st k r Hb Ht Hk) in Hv. discriminate.
  - intros (Hb & out & err & Ho).
    destruct (tool E (spawned st) ["spades.py"; "--version"] (fs st)) as [o r] eqn:Ht.
    cbn [fst] in Ho. subst o.
    rewrite (spades_validate_ok E self st out err r Hb Ht). reflexivity.
Qed.

(** X1. [validate_inputs] returns [True] exactly when the paths it
    checks exist (the input root, and for Snippy the reference file) and
    the version probe exits with status zero; when a path is missing it
    returns [False] after a single error record, without spawning the
    probe. *)
Theorem validation_passes_exactly (E : env) :
  (forall (self : Snippy.t) st,
      (fst (Snippy.validate_inputs E self st) = inr true
       <-> Fs.exists_ (fs st) (Snippy.base_path self) = true
           /\ Fs.exists_ (fs st) (Snippy.ref_genome_path self) = true
           /\ exists out err,
                fst (tool E (spawned st) ["snippy"; "--version"] (fs st))
                = Exited 0 out err)
      /\ (Fs.exists_ (fs st) (Snippy.base_path self) = false
          \/ Fs.exists_ (fs st) (Snippy.ref_genome_path self) = false ->
          exists msg,
            Snippy.validate_inputs E self st = (inr false, logged st [Log ERROR msg])))
  /\
  (forall (self : Spades.t) st,
      (fst (Spades.validate_inputs E self st) = inr true
       <-> Fs.exists_ (fs st) (Spades.base_input_dir self) = true
           /\ exists out err,
                fst (tool E (spawned st) ["spades.py"; "--version"] (fs st))
                = Exited 0 out err)
      /\ (Fs.exists_ (fs st) (Spades.base_input_dir self) = false ->
          exists msg,
            Spades.validate_inputs E self st = (inr false, logged st [Log ERROR msg]))).
Proof.
  split; intros self st; (split; [|]).
  - apply snippy_validate_iff.
  - apply snippy_validate_no_path.
  - apply spades_validate_iff.
  - intros Hb. eexists. apply spades_validate_no_path. exact Hb.
Qed.

(** On the demonstration tree everything is in place, and a reference
    file that is not there stops the validation before the probe. *)
Lemma validation_passes_exactly_witness :
  fst (Snippy.validate_inputs Demo.succeeds Demo.snippy_self
         (Demo.start Demo.snippy_fs [])) = inr true
  /\ exists msg,
       Snippy.validate_inputs Demo.succeeds
         (Snippy.mk "data" "out" "nowhere.fa" 16 Snippy.supported_strains)
         (Demo.start Demo.snippy_fs [])
       = (inr false, logged (Demo.start Demo.snippy_fs []) [Log ERROR msg]).
Proof.
  split.
  - apply (proj1 (validation_passes_exactly Demo.succeeds)).
    split; [vm_compute; reflexivity|split; [vm_compute; reflexivity|]].
    exists "", "". reflexivity.
  - apply (proj1 (validation_passes_exactly Demo.succeeds)).
    right. vm_compute. reflexivity.
Defined.

(** ** A probe that cannot be executed *)

Lemma snippy_run_validation_raises E self st e st' :
  Snippy.validate_inputs E self (logged st [Log INFO "Starting SNP analysis workflow"])
  = (inl e, st') ->
  Snippy.run_analysis E self st = (inl e, st').
Proof.
  intros H. unfold Snippy.run_analysis. step (log_eq INFO). step H. reflexivity.
Qed.

Lemma spades_run_validation_raises E self st e st' :
  Spades.validate_inputs E self (logged st [Log INFO "Starting genome assembly workflow"])
  = (inl e, st') ->
  Spades.run_assembly E self st = (inl e, st').
Proof.
  intros H. unfold Spades.run_assembly. step (log_eq INFO). step H. reflexivity.
Qed.

(** X2. The version probe is guarded against a missing binary and a
    non-zero exit only.  When the binary is there and cannot be executed
    (any [OSError] other than [FileNotFoundError]), [validate_inputs]
    raises instead of returning [False], [run_analysis] and
    [run_assembly] let the exception through without a record of their
    own, and [main] turns it into one line on the console. *)
Theorem probe_error_reaches_main (E : env) (k : os_error) :
  k <> ENOENT ->
  (forall (self : Snippy.t) st,
      Fs.exists_ (fs st) (Snippy.base_path self) = true ->
      Fs.exists_ (fs st) (Snippy.ref_genome_path self) = true ->
      fst (tool E (spawned st) ["snippy"; "--version"] (fs st)) = ExecFailed k ->
      Snippy.run_analysis E self st
      = (inl (OSError k (strerror k "snippy")),
         logged st [ Log INFO "Starting SNP analysis workflow";
                     Spawn ["snippy"; "--version"] ]))
  /\
  (forall (self : Spades.t) st,
      Fs.exists_ (fs st) (Spades.base_input_dir self) = true ->
      fst (tool E (spawned st) ["spades.py"; "--version"] (fs st)) = ExecFailed k ->
      Spades.run_assembly E self st
      = (inl (OSError k (strerror k "spades.py")),
         logged st [ Log INFO "Starting genome assembly workflow";
                     Spawn ["spades.py"; "--version"] ]))
  /\
  (forall st cfg st1 self st2,
      Snippy.get_user_inputs st = (inr cfg, st1) ->
      Snippy.init (Snippy.cfg_base_path cfg) (Snippy.cfg_output_dir cfg)
                  (Snippy.cfg_ref_genome cfg) (Snippy.cfg_cpu_cores cfg) st1
      = (inr self, st2) ->
      Fs.exists_ (fs st2) (Snippy.base_path self) = true ->
      Fs.exists_ (fs st2) (Snippy.ref_genome_path self) = true ->
      fst (tool E (spawned st2) ["snippy"; "--version"] (fs st2)) = ExecFailed k ->
      Snippy.main E st
      = (inr tt,
         logged st2 [ Log INFO "Starting SNP analysis workflow";
                      Spawn ["snippy"; "--version"];
                      Stdout ("Error: " ++ strerror k "snippy") ]))
  /\
  (forall st cfg st1 self st2,
      Spades.get_user_inputs st = (inr cfg, st1) ->
      Spades.init (Spades.cfg_input_dir cfg) (Spades.cfg_output_dir cfg)
                  (Spades.cfg_cpu_cores cfg) st1
      = (inr self, st2) ->
      Fs.exists_ (fs st2) (Spades.base_input_dir self) = true ->
      fst (tool E (spawned st2) ["spades.py"; "--version"] (fs st2)) = ExecFailed k ->
      Spades.main E st
      = (inr tt,
         logged st2 [ Log INFO "Starting genome assembly workflow";
                      Spawn ["spades.py"; "--version"];
                      Stdout ("Error: " ++ strerror k "spades.py") ])).
Proof.
  intros Hk.
  assert (Hsn : forall (self : Snippy.t) st,
      Fs.exists_ (fs st) (Snippy.base_path self) = true ->
      Fs.exists_ (fs st) (Snippy.ref_genome_path self) = true ->
      fst (tool E (spawned st) ["snippy"; "--version"] (fs st)) = ExecFailed k ->
      Snippy.run_analysis E self st
      = (inl (OSError k (strerror k "snippy")),
         logged st [ Log INFO "Starting SNP analysis workflow";
                     Spawn ["snippy"; "--version"] ])).
  { intros self st Hb Hr Ho.
    destruct (tool E (spawned st) ["snippy"; "--version"] (fs st)) as [o r] eqn:Ht.
    cbn [fst] in Ho. subst o.
    erewrite snippy_run_validation_raises.
    2:{ apply (snippy_validate_raises E self _ k r); [exact Hb|exact Hr|exact Ht|exact Hk]. }
    rewrite logged_logged. reflexivity. }
  assert (Hsp : forall (self : Spades.t) st,
      Fs.exists_ (fs st) (Spades.base_input_dir self) = true ->
      fst (tool E (spawned st) ["spades.py"; "--version"] (fs st)) = ExecFailed k ->
      Spades.run_assembly E self st
      = (inl (OSError k (strerror k "spades.py")),
         logged st [ Log INFO "Starting genome assembly workflow";
                     Spawn ["spades.py"; "--version"] ])).
  { intros self st Hb Ho.
    destruct (tool E (spawned st) ["spades.py"; "--version"] (fs st)) as [o r] eqn:Ht.
    cbn [fst] in Ho. subst o.
    erewrite spades_run_validation_raises.
    2:{ apply (spades_validate_raises E self _ k r); [exact Hb|exact Ht|exact Hk]. }
    rewrite logged_logged. reflexivity. }
  split; [exact Hsn|split; [exact Hsp|split]].
  - intros st cfg st1 self st2 Hc Hi Hb Hr Ho. unfold Snippy.main.
    erewrite try_caught.
    2:{ step Hc. step Hi. apply Hsn; assumption. }
    2: reflexivity.
    rewrite print_eq, logged_logged. reflexivity.
  - intros st cfg st1 self st2 Hc Hi Hb Ho. unfold Spades.main.
    erewrite try_caught.
    2:{ step Hc. step Hi. apply Hsp; assumption. }
    2: reflexivity.
    rewrite print_eq, logged_logged. reflexivity.
Qed.

(** On the demonstration tree, with a tool that may not be executed:
    the run ends with the text of a [PermissionError] on the console. *)
Lemma probe_error_reaches_main_witness :
  exists st2,
    Snippy.main Cases.not_executable
      (Demo.start Demo.snippy_fs ["data"; "out"; "ref.fa"; "4"])
    = (inr tt,
       logged st2 [ Log INFO "Starting SNP analysis workflow";
                    Spawn ["snippy"; "--version"];
                    Stdout "Error: [Errno 13] Permission denied: 'snippy'" ]).
Proof.
  pose (st := Demo.start Demo.snippy_fs ["data"; "out"; "ref.fa"; "4"]).
  pose (cfg := Snippy.mk_config "data" "out" "ref.fa" 4).
  pose (st1 := snd (Snippy.get_user_inputs st)).
  pose (self := Snippy.mk "data" "out" "ref.fa" 4 Snippy.supported_strains).
  pose (st2 := snd (Snippy.init "data" "out" "ref.fa" 4 st1)).
  exists st2.
  refine (proj1 (proj2 (proj2 (probe_error_reaches_main Cases.not_executable EACCES _)))
            st cfg st1 self st2 _ _ _ _ _).
  - discriminate.
  - vm_compute. reflexivity.
  - vm_compute. reflexivity.
  - vm_compute. reflexivity.
  - vm_compute. reflexivity.
  - vm_compute. reflexivity.
Defined.

(** ** From the dialogue to the validation *)

Section AskInv.

Variables (text err : string) (ok : string -> M bool).

Hypothesis ok_eq :
  forall v st, ok v st = (inr (Py.truthy v && Fs.exists_ (fs st) v), st).

Lemma ask_loop_inv pending :
  forall st v st',
    stdin st = pending ->
    Os.ask_loop text err ok pending st = (inr v, st') ->
    fs st' = fs st /\ spawned st' = spawned st
    /\ Py.truthy v = true /\ Fs.exists_ (fs st) v = true.
Proof.
  induction pending as [|l rest IH]; intros st v st' Hin H.
  - cbn [Os.ask_loop] in H. rewrite (input_eof text st Hin) in H. discriminate.
  - cbn [Os.ask_loop] in H.
    rewrite (bind_inr _ _ _ _ _ (input_line text st l rest Hin)) in H.
    rewrite (bind_inr _ _ _ _ _ (ok_eq _ _)) in H. cbn [fs] in H.
    destruct (Py.truthy (Py.strip l) && Fs.exists_ (fs st) (Py.strip l)) eqn:Hb.
    + injection H as <- <-. apply andb_prop in Hb. cbn [fs spawned]. tauto.
    + rewrite (bind_inr _ _ _ _ _ (print_eq _ _)) in H.
      apply IH in H; [exact H|reflexivity].
Qed.

Lemma ask_until_inv st v st' :
  Os.ask_until text err ok st = (inr v, st') ->
  fs st' = fs st /\ spawned st' = spawned st
  /\ Py.truthy v = true /\ Fs.exists_ (fs st) v = true.
Proof. unfold Os.ask_until. apply ask_loop_inv. reflexivity. Qed.

End AskInv.

Lemma input_inv text st line st' :
  Os.input text st = (inr line, st') -> fs st' = fs st /\ spawned st' = spawned st.
Proof.
  unfold Os.input. destruct (stdin st); [discriminate|].
  intros H. injection H as _ <-. split; reflexivity.
Qed.

Lemma makedirs_inv p st st' :
  Os.makedirs p st = (inr tt, st') ->
  Fs.makedirs (fs st) p = (fs st', None) /\ spawned st' = spawned st.
Proof.
  destruct (Fs.makedirs (fs st) p) as [f [k|]] eqn:Hm.
  - rewrite (makedirs_err p st f k Hm). discriminate.
  - rewrite (makedirs_ok p st f Hm). intros H. injection H as <-. split; reflexivity.
Qed.

Ltac bind_cases H x s Hx :=
  match type of H with
  | bind ?m _ ?st = _ =>
      destruct (m st) as [[?e|x] s] eqn:Hx;
      [ rewrite (bind_inl _ _ _ _ _ Hx) in H; discriminate
      | rewrite (bind_inr _ _ _ _ _ Hx) in H; cbv beta in H ]
  end.

Lemma snippy_get_user_inputs_inv st cfg st1 :
  Snippy.get_user_inputs st = (inr cfg, st1) ->
  Fs.exists_ (fs st1) (Snippy.cfg_base_path cfg) = true
  /\ Fs.exists_ (fs st1) (Snippy.cfg_ref_genome cfg) = true
  /\ Fs.isdir (fs st1) (Snippy.cfg_output_dir cfg) = true
  /\ Fs.exists_ (fs st) (Snippy.cfg_base_path cfg) = true
  /\ spawned st1 = spawned st.
Proof.
  unfold Snippy.get_user_inputs. intros H.
  do 4 rewrite (bind_inr _ _ _ _ _ (print_eq _ _)) in H. rewrite !logged_logged in H.
  bind_cases H base s1 H1.
  destruct (ask_until_inv _ _ _ snippy_ok_eq _ _ _ H1) as (F1 & S1 & _ & B1).
  bind_cases H line s2 H2. destruct (input_inv _ _ _ _ H2) as (F2 & S2).
  bind_cases H u s3 H3. destruct u.
  destruct (makedirs_inv _ _ _ H3) as (M3 & S3).
  bind_cases H ref s4 H4.
  destruct (ask_until_inv _ _ _ snippy_ok_eq _ _ _ H4) as (F4 & S4 & _ & B4).
  bind_cases H line2 s5 H5. destruct (input_inv _ _ _ _ H5) as (F5 & S5).
  do 7 rewrite (bind_inr _ _ _ _ _ (print_eq _ _)) in H. rewrite !logged_logged in H.
  unfold ret in H. injection H as <- <-.
  cbn [Snippy.cfg_base_path Snippy.cfg_ref_genome Snippy.cfg_output_dir logged fs spawned].
  cbn [logged fs] in F1, B1.
  destruct (FsMore.makedirs_keeps _ _ _ _ M3) as (K & C).
  rewrite F5, F4. repeat split.
  - apply (FsMore.exists_keeps (fs s2)); [exact K|exact C|]. rewrite F2, F1. exact B1.
  - exact B4.
  - exact (FsFacts.makedirs_isdir _ _ _ M3).
  - exact B1.
  - rewrite S5, S4, S3, S2, S1. reflexivity.
Qed.

Lemma spades_get_user_inputs_inv st cfg st1 :
  Spades.get_user_inputs st = (inr cfg, st1) ->
  Fs.exists_ (fs st1) (Spades.cfg_input_dir cfg) = true
  /\ Fs.isdir (fs st1) (Spades.cfg_output_dir cfg) = true
  /\ Fs.exists_ (fs st) (Spades.cfg_input_dir cfg) = true
  /\ spawned st1 = spawned st.
Proof.
  unfold Spades.get_user_inputs. intros H.
  do 4 rewrite (bind_inr _ _ _ _ _ (print_eq _ _)) in H. rewrite !logged_logged in H.
  bind_cases H base s1 H1.
  destruct (ask_until_inv _ _ _ spades_ok_eq _ _ _ H1) as (F1 & S1 & _ & B1).
  bind_cases H line s2 H2. destruct (input_inv _ _ _ _ H2) as (F2 & S2).
  bind_cases H u s3 H3. destruct u.
  destruct (makedirs_inv _ _ _ H3) as (M3 & S3).
  bind_cases H line2 s5 H5. destruct (input_inv _ _ _ _ H5) as (F5 & S5).
  do 6 rewrite (bind_inr _ _ _ _ _ (print_eq _ _)) in H. rewrite !logged_logged in H.
  unfold ret in H. injection H as <- <-.
  cbn [Spades.cfg_input_dir Spades.cfg_output_dir logged fs spawned].
  cbn [logged fs] in F1, B1.
  destruct (FsMore.makedirs_keeps _ _ _ _ M3) as (K & C).
  rewrite F5. repeat split.
  - apply (FsMore.exists_keeps (fs s2)); [exact K|exact C|]. rewrite F2, F1. exact B1.
  - exact (FsFacts.makedirs_isdir _ _ _ M3).
  - exact B1.
  - rewrite S5, S3, S2, S1. reflexivity.
Qed.

Lemma snippy_init_existing base out ref cpu st :
  Fs.isdir (fs st) out = true ->
  Snippy.init base out ref cpu st
  = (inr (Snippy.mk base out ref cpu Snippy.supported_strains), logged st [Makedirs out]).
Proof.
  intros H. unfold Snippy.init.
  step (makedirs_ok out st (fs st) (FsMore.makedirs_existing _ _ H)). reflexivity.
Qed.

Lemma spades_init_existing base out cpu st :
  Fs.isdir (fs st) out = true ->
  Spades.init base out cpu st
  = (inr (Spades.mk base out cpu), logged st [Makedirs out]).
Proof.
  intros H. unfold Spades.init.
  step (makedirs_ok out st (fs st) (FsMore.makedirs_existing _ _ H)). reflexivity.
Qed.

(** X3. What [main] hands over.  When the dialogue returns a
    configuration, the paths it asked for exist on the file system it
    leaves and the output directory is a directory; [__init__] then finds
    that directory in place, changes nothing and cannot fail; and the
    validation that follows finds its paths, so that in a run started by
    [main] it returns [True] exactly when the version probe exits with
    status zero.  The dialogue spawns no process. *)
Theorem dialogue_feeds_validation (E : env) :
  (forall st cfg st1,
      Snippy.get_user_inputs st = (inr cfg, st1) ->
      let self := Snippy.mk (Snippy.cfg_base_path cfg) (Snippy.cfg_output_dir cfg)
                            (Snippy.cfg_ref_genome cfg) (Snippy.cfg_cpu_cores cfg)
                            Snippy.supported_strains in
      let st2 := logged st1 [Makedirs (Snippy.cfg_output_dir cfg)] in
      Snippy.init (Snippy.cfg_base_path cfg) (Snippy.cfg_output_dir cfg)
                  (Snippy.cfg_ref_genome cfg) (Snippy.cfg_cpu_cores cfg) st1
      = (inr self, st2)
      /\ Fs.exists_ (fs st2) (Snippy.base_path self) = true
      /\ Fs.exists_ (fs st2) (Snippy.ref_genome_path self) = true
      /\ Fs.isdir (fs st2) (Snippy.output_base_dir self) = true
      /\ spawned st2 = spawned st
      /\ (fst (Snippy.validate_inputs E self
                 (logged st2 [Log INFO "Starting SNP analysis workflow"])) = inr true
          <-> exists out err,
                fst (tool E (spawned st) ["snippy"; "--version"] (fs st1))
                = Exited 0 out err))
  /\
  (forall st cfg st1,
      Spades.get_user_inputs st = (inr cfg, st1) ->
      let self := Spades.mk (Spades.cfg_input_dir cfg) (Spades.cfg_output_dir cfg)
                            (Spades.cfg_cpu_cores cfg) in
      let st2 := logged st1 [Makedirs (Spades.cfg_output_dir cfg)] in
      Spades.init (Spades.cfg_input_dir cfg) (Spades.cfg_output_dir cfg)
                  (Spades.cfg_cpu_cores cfg) st1
      = (inr self, st2)
      /\ Fs.exists_ (fs st2) (Spades.base_input_dir self) = true
      /\ Fs.isdir (fs st2) (Spades.base_output_dir self) = true
      /\ spawned st2 = spawned st
      /\ (fst (Spades.validate_inputs E self
                 (logged st2 [Log INFO "Starting genome assembly workflow"])) = inr true
          <-> exists out err,
                fst (tool E (spawned st) ["spades.py"; "--version"] (fs st1))
                = Exited 0 out err)).
Proof.
  split.
  - intros st cfg st1 H self st2.
    destruct (snippy_get_user_inputs_inv st cfg st1 H) as (Hb & Hr & Ho & _ & Hs).
    split; [apply snippy_init_existing; exact Ho|].
    subst self st2. cbn [logged fs spawned Snippy.base_path Snippy.ref_genome_path
                         Snippy.output_base_dir].
    repeat (split; [assumption|]).
    rewrite snippy_validate_iff.
    cbn [logged fs spawned Snippy.base_path Snippy.ref_genome_path]. rewrite Hs.
    tauto.
  - intros st cfg st1 H self st2.
    destruct (spades_get_user_inputs_inv st cfg st1 H) as (Hb & Ho & _ & Hs).
    split; [apply spades_init_existing; exact Ho|].
    subst self st2. cbn [logged fs spawned Spades.base_input_dir Spades.base_output_dir].
    repeat (split; [assumption|]).
    rewrite spades_validate_iff.
    cbn [logged fs spawned Spades.base_input_dir]. rewrite Hs.
    tauto.
Qed.

(** The dialogue on the demonstration tree, with two answers rejected. *)
Lemma dialogue_feeds_validation_witness :
  Fs.isdir
    (fs (snd (Snippy.get_user_inputs
                (Demo.start Demo.snippy_fs ["nowhere"; "data"; ""; " "; "ref.fa"; "x"]))))
    "./snippy_results" = true
  /\ spawned
       (snd (Snippy.get_user_inputs
               (Demo.start Demo.snippy_fs ["nowhere"; "data"; ""; " "; "ref.fa"; "x"])))
     = 0.
Proof.
  pose (st := Demo.start Demo.snippy_fs ["nowhere"; "data"; ""; " "; "ref.fa"; "x"]).
  pose (cfg := Snippy.mk_config "data" "./snippy_results" "ref.fa" 16).
  pose (st1 := snd (Snippy.get_user_inputs st)).
  destruct (proj1 (dialogue_feeds_validation Demo.succeeds) st cfg st1)
    as (_ & _ & _ & Hd & Hs & _).
  - vm_compute. reflexivity.
  - split; [exact Hd|exact Hs].
Defined.

(** ** The end of the input *)

Section AskEof.

Variables (text err : string) (ok : string -> M bool).

Hypothesis ok_eq :
  forall v st, ok v st = (inr (Py.truthy v && Fs.exists_ (fs st) v), st).

Lemma ask_loop_eof lines :
  forall st,
    stdin st = lines ->
    Forall (fun l => valid_answer (fs st) l = false) lines ->
    Os.ask_loop text err ok lines st
    = (inl eof, mk_state (fs st) (trace st ++ asked text err lines) [] (spawned st)).
Proof.
  induction lines as [|l rest IH]; intros st Hin Hbad.
  - cbn [Os.ask_loop]. rewrite (input_eof text st Hin). unfold logged. rewrite Hin.
    reflexivity.
  - cbn [Os.ask_loop]. step (input_line text st l rest Hin).
    rewrite (bind_inr _ _ _ _ _ (ok_eq _ _)). cbn [fs].
    inversion Hbad as [|? ? Hb Hbad']; subst.
    unfold valid_answer in Hb. rewrite Hb. cbv iota.
    step print_eq. rewrite IH; [|reflexivity|exact Hbad'].
    unfold asked, logged. cbn [fs trace stdin spawned flat_map app].
    rewrite <- !app_assoc. reflexivity.
Qed.

Lemma ask_until_eof st :
  Forall (fun l => valid_answer (fs st) l = false) (stdin st) ->
  Os.ask_until text err ok st
  = (inl eof, mk_state (fs st) (trace st ++ asked text err (stdin st)) [] (spawned st)).
Proof. intros H. unfold Os.ask_until. apply ask_loop_eof; [reflexivity|exact H]. Qed.

End AskEof.

Lemma snippy_get_user_inputs_eof st :
  Forall (fun l => valid_answer (fs st) l = false) (stdin st) ->
  Snippy.get_user_inputs st
  = (inl eof,
     mk_state (fs st)
       (trace st ++ snippy_banner
          ++ asked "Base path for FASTQ files: "
                   "Error: Path does not exist or is empty. Try again." (stdin st))
       [] (spawned st)).
Proof.
  intros Hbad. unfold Snippy.get_user_inputs.
  do 4 step print_eq. rewrite !logged_logged.
  erewrite bind_inl; [|apply (ask_until_eof _ _ _ snippy_ok_eq); exact Hbad].
  unfold logged, snippy_banner. cbn [fs trace stdin spawned].
  rewrite <- !app_assoc. reflexivity.
Qed.

Lemma spades_get_user_inputs_eof st :
  Forall (fun l => valid_answer (fs st) l = false) (stdin st) ->
  Spades.get_user_inputs st
  = (inl eof,
     mk_state (fs st)
       (trace st ++ spades_banner
          ++ asked "Base path for input directories: "
                   "Error: Directory does not exist or is empty. Try again." (stdin st))
       [] (spawned st)).
Proof.
  intros Hbad. unfold Spades.get_user_inputs.
  do 4 step print_eq. rewrite !logged_logged.
  erewrite bind_inl; [|apply (ask_until_eof _ _ _ spades_ok_eq); exact Hbad].
  unfold logged, spades_banner. cbn [fs trace stdin spawned].
  rewrite <- !app_assoc. reflexivity.
Qed.

(** X4. When the input ends before an existing root path has been
    typed, [main] asks once per line and once more, the last [input]
    raises [EOFError], and the run is over: the text of the exception is
    printed, no directory has been created, no record logged and no
    process spawned.  With no input at all the prompt is shown once. *)
Theorem input_ends_before_root (E : env) (st : state) :
  Forall (fun l => valid_answer (fs st) l = false) (stdin st) ->
  Snippy.main E st
  = (inr tt,
     mk_state (fs st)
       (trace st ++ snippy_banner
          ++ asked "Base path for FASTQ files: "
                   "Error: Path does not exist or is empty. Try again." (stdin st)
          ++ [Stdout "Error: EOF when reading a line"])
       [] (spawned st))
  /\
  Spades.main E st
  = (inr tt,
     mk_state (fs st)
       (trace st ++ spades_banner
          ++ asked "Base path for input directories: "
                   "Error: Directory does not exist or is empty. Try again." (stdin st)
          ++ [Stdout "Error: EOF when reading a line"])
       [] (spawned st)).
Proof.
  intros Hbad. split.
  - unfold Snippy.main. erewrite try_caught.
    2:{ apply bind_inl. apply snippy_get_user_inputs_eof. exact Hbad. }
    2: reflexivity.
    rewrite print_eq. unfold logged. cbn [fs trace stdin spawned str_of_exn eof].
    rewrite <- !app_assoc. reflexivity.
  - unfold Spades.main. erewrite try_caught.
    2:{ apply bind_inl. apply spades_get_user_inputs_eof. exact Hbad. }
    2: reflexivity.
    rewrite print_eq. unfold logged. cbn [fs trace stdin spawned str_of_exn eof].
    rewrite <- !app_assoc. reflexivity.
Qed.

(** Two answers that name nothing, then the end of the input. *)
Lemma input_ends_before_root_witness :
  spawned (snd (Snippy.main Demo.succeeds (Demo.start Demo.snippy_fs ["nowhere"; ""]))) = 0
  /\ fs (snd (Spades.main Demo.succeeds (Demo.start Demo.snippy_fs ["nowhere"; ""])))
     = Demo.snippy_fs.
Proof.
  pose (st := Demo.start Demo.snippy_fs ["nowhere"; ""]).
  assert (H : Forall (fun l => valid_answer (fs st) l = false) (stdin st)).
  { repeat constructor. }
  destruct (input_ends_before_root Demo.succeeds st H) as [H1 H2].
  split.
  - exact (f_equal (fun r => spawned (snd r)) H1).
  - exact (f_equal (fun r => fs (snd r)) H2).
Defined.

(** ** An output directory that cannot be made *)



(** ** Decompression, step by step *)

Lemma gunzip_to_run E src dst st z d err f' :
  Fs.read (fs st) src = inr z ->
  gunzip E z = (d, err) ->
  Fs.write (fs st) dst d = inr f' ->
  Os.gunzip_to E src dst st
  = (match err with None => inr tt | Some e => inl e end,
     mk_state f' (trace st ++ [GzipOpen src; OpenWrite dst]) (stdin st) (spawned st)).
Proof.
  intros Hr Hg Hw. unfold Os.gunzip_to. step emit_eq.
  rewrite (bind_inr (fun s => lift_os src (Fs.read (fs s) src) s) _
                    (logged st [GzipOpen src]) z (logged st [GzipOpen src])).
  2:{ cbn [logged fs]. rewrite Hr. reflexivity. }
  step emit_eq. rewrite Hg. rewrite logged_logged.
  rewrite (bind_inr (fun s => lift_os dst (Fs.write (fs s) dst d) s) _ _ f'
                    (logged st ([GzipOpen src] ++ [OpenWrite dst]))).
  2:{ cbn [logged fs]. rewrite Hw. reflexivity. }
  unfold bind, set_fs, ret, raise, logged. cbn [fs trace stdin spawned app].
  destruct err; reflexivity.
Qed.

Lemma gunzip_to_unreadable E src dst st k :
  Fs.read (fs st) src = inl k ->
  Os.gunzip_to E src dst st
  = (inl (OSError k (strerror k src)), logged st [GzipOpen src]).
Proof.
  intros Hr. unfold Os.gunzip_to. step emit_eq.
  apply (bind_inl (fun s => lift_os src (Fs.read (fs s) src) s)).
  cbn [logged fs]. rewrite Hr. reflexivity.
Qed.

Lemma gunzip_to_unwritable E src dst st z k :
  Fs.read (fs st) src = inr z ->
  Fs.write (fs st) dst (fst (gunzip E z)) = inl k ->
  Os.gunzip_to E src dst st
  = (inl (OSError k (strerror k dst)), logged st [GzipOpen src; OpenWrite dst]).
Proof.
  intros Hr Hw. unfold Os.gunzip_to. step emit_eq.
  rewrite (bind_inr (fun s => lift_os src (Fs.read (fs s) src) s) _
                    (logged st [GzipOpen src]) z (logged st [GzipOpen src])).
  2:{ cbn [logged fs]. rewrite Hr. reflexivity. }
  step emit_eq. destruct (gunzip E z) as [d err]. cbn [fst] in Hw. rewrite logged_logged.
  apply (bind_inl (fun s => lift_os dst (Fs.write (fs s) dst d) s)).
  cbn [logged fs]. rewrite Hw. reflexivity.
Qed.

Lemma read_exists f p z : Fs.read f p = inr z -> Fs.exists_ f p = true.
Proof.
  unfold Fs.read, Fs.exists_. destruct (Fs.stat f p); [discriminate|reflexivity].
Qed.

Section DecompressOne.

Variables (E : env) (read gz fastq : string) (st : state).

Lemma decompress_one_ok z d f' :
  Fs.read (fs st) gz = inr z ->
  gunzip E z = (d, None) ->
  Fs.write (fs st) fastq d = inr f' ->
  Spades.decompress_one E read gz fastq st
  = (inr tt,
     mk_state f'
       (trace st ++ [ GzipOpen gz; OpenWrite fastq;
                      Log INFO ("Decompressed " ++ read ++ ": " ++ posixpath.basename gz) ])
       (stdin st) (spawned st)).
Proof.
  intros Hr Hg Hw. unfold Spades.decompress_one.
  step path_exists_eq. rewrite (read_exists _ _ _ Hr). cbv iota.
  apply try_inr. step (gunzip_to_run E gz fastq st z d None f' Hr Hg Hw).
  rewrite log_eq. unfold logged. cbn [fs trace stdin spawned].
  rewrite <- app_assoc. reflexivity.
Qed.

(** The stream is bad: what was decoded has been written, the failure
    is logged, and the exception is raised again. *)
Lemma decompress_one_bad z d e f' :
  Fs.read (fs st) gz = inr z ->
  gunzip E z = (d, Some e) ->
  Fs.write (fs st) fastq d = inr f' ->
  Spades.decompress_one E read gz fastq st
  = (inl e,
     mk_state f'
       (trace st ++ [ GzipOpen gz; OpenWrite fastq;
                      Log ERROR ("Failed to decompress " ++ gz ++ ": " ++ str_of_exn e) ])
       (stdin st) (spawned st)).
Proof.
  intros Hr Hg Hw. unfold Spades.decompress_one.
  step path_exists_eq. rewrite (read_exists _ _ _ Hr). cbv iota.
  erewrite try_caught.
  2:{ apply bind_inl. exact (gunzip_to_run E gz fastq st z d (Some e) f' Hr Hg Hw). }
  2: reflexivity.
  step (log_eq ERROR). unfold raise, logged. cbn [fs trace stdin spawned].
  rewrite <- app_assoc. reflexivity.
Qed.

Lemma decompress_one_missing :
  Fs.exists_ (fs st) gz = false ->
  Spades.decompress_one E read gz fastq st
  = (inl (OSError ENOENT (read ++ " file not found: " ++ gz)), st).
Proof.
  intros H. unfold Spades.decompress_one. step path_exists_eq. rewrite H. reflexivity.
Qed.

(** The target cannot be written (it is a directory, say): nothing
    is written, the failure is logged and raised. *)
Lemma decompress_one_unwritable z k :
  Fs.read (fs st) gz = inr z ->
  Fs.write (fs st) fastq (fst (gunzip E z)) = inl k ->
  Spades.decompress_one E read gz fastq st
  = (inl (OSError k (strerror k fastq)),
     logged st [ GzipOpen gz; OpenWrite fastq;
                 Log ERROR ("Failed to decompress " ++ gz ++ ": " ++ strerror k fastq) ]).
Proof.
  intros Hr Hw. unfold Spades.decompress_one.
  step path_exists_eq. rewrite (read_exists _ _ _ Hr). cbv iota.
  erewrite try_caught.
  2:{ apply bind_inl. exact (gunzip_to_unwritable E gz fastq st z k Hr Hw). }
  2: reflexivity.
  step (log_eq ERROR). unfold raise. rewrite logged_logged. reflexivity.
Qed.

(** The compressed file is there and cannot be read (it is a
    directory, say). *)
Lemma decompress_one_unreadable k :
  Fs.exists_ (fs st) gz = true ->
  Fs.read (fs st) gz = inl k ->
  Spades.decompress_one E read gz fastq st
  = (inl (OSError k (strerror k gz)),
     logged st [ GzipOpen gz;
                 Log ERROR ("Failed to decompress " ++ gz ++ ": " ++ strerror k gz) ]).
Proof.
  intros He Hr. unfold Spades.decompress_one.
  step path_exists_eq. rewrite He. cbv iota.
  erewrite try_caught.
  2:{ apply bind_inl. exact (gunzip_to_unreadable E gz fastq st k Hr). }
  2: reflexivity.
  step (log_eq ERROR). unfold raise. rewrite logged_logged. reflexivity.
Qed.

(** When it returns, the target has been written. *)
Lemma decompress_one_inv st' :
  Spades.decompress_one E read gz fastq st = (inr tt, st') ->
  exists d, Fs.write (fs st) fastq d = inr (fs st')
            /\ spawned st' = spawned st /\ stdin st' = stdin st.
Proof.
  intros H.
  destruct (Fs.exists_ (fs st) gz) eqn:He.
  2:{ rewrite (decompress_one_missing He) in H. discriminate. }
  destruct (Fs.read (fs st) gz) as [k|z] eqn:Hr.
  { rewrite (decompress_one_unreadable k He Hr) in H. discriminate. }
  destruct (gunzip E z) as [d err] eqn:Hg.
  destruct (Fs.write (fs st) fastq d) as [k|f'] eqn:Hw.
  { rewrite (decompress_one_unwritable z k Hr) in H; [discriminate|].
    rewrite Hg. exact Hw. }
  destruct err as [e|].
  - rewrite (decompress_one_bad z d e f' Hr Hg Hw) in H. discriminate.
  - rewrite (decompress_one_ok z d f' Hr Hg Hw) in H. injection H as <-.
    exists d. cbn [fs spawned stdin]. auto.
Qed.

End DecompressOne.

(** ** Decompression of a sample *)

Lemma isdir_resolved f p q :
  Fs.resolve f p = inr q -> Fs.isdir f p = Fs.is_dir_node (Fs.get (Fs.root f) q).
Proof.
  intros H. unfold Fs.isdir, Fs.stat. rewrite H.
  destruct (Fs.get (Fs.root f) q) as [[d|es]|]; reflexivity.
Qed.

Lemma read_resolves f p z : Fs.read f p = inr z -> exists q, Fs.resolve f p = inr q.
Proof.
  unfold Fs.read, Fs.stat. destruct (Fs.resolve f p) as [e|q]; [discriminate|eauto].
Qed.

(** Writing one of the files that stand side by side: it then holds
    what was written, and the others are as they were. *)
Lemma sibling_write f p s z sw d :
  plain_suffix s -> plain_suffix sw ->
  Fs.read f (p ++ s) = inr z ->
  Fs.isdir f (p ++ sw) = false ->
  exists f',
    Fs.write f (p ++ sw) d = inr f'
    /\ Fs.read f' (p ++ sw) = inr d
    /\ (forall s' z', plain_suffix s' -> s' <> sw ->
                      Fs.read f (p ++ s') = inr z' -> Fs.read f' (p ++ s') = inr z')
    /\ (forall s', plain_suffix s' -> Fs.isdir f' (p ++ s') = Fs.isdir f (p ++ s'))
    /\ (forall s', plain_suffix s' -> s' <> sw ->
                   Fs.exists_ f' (p ++ s') = Fs.exists_ f (p ++ s')).
Proof.
  intros [Hs Hl] [Hsw Hlw] Hr Hd.
  destruct (read_resolves _ _ _ Hr) as [q Hq].
  destruct (PathMore.resolve_sibling f p s q Hs Hl Hq) as (q0 & l & -> & Hq0 & Hall).
  pose proof (Hall sw Hsw Hlw) as Hrw.
  assert (Hw : exists f', Fs.write f (p ++ sw) d = inr f').
  { unfold Fs.write. rewrite Hrw. rewrite (isdir_resolved _ _ _ Hrw) in Hd.
    destruct (Fs.get (Fs.root f) _) as [[d0|es]|]; try discriminate; eauto. }
  destruct Hw as [f' Hw]. exists f'.
  pose proof (FsMore.write_keeps _ _ _ _ Hw) as Hk.
  pose proof (FsMore.cwd_write _ _ _ _ Hw) as Hc.
  split; [exact Hw|split; [exact (FsMore.read_write _ _ _ _ Hw)|split; [|split]]].
  - intros s' z' [Hs' Hl'] Hne Hr'.
    apply (FsMore.read_write_other f (p ++ sw) d f' (p ++ s') _ _ z' Hw Hrw (Hall s' Hs' Hl'));
      [|exact Hr'].
    intros Heq. apply app_inv_head in Heq. injection Heq as Heq.
    apply PathMore.append_inj_l in Heq. contradiction.
  - intros s' [Hs' Hl'].
    rewrite (isdir_resolved f _ _ (Hall s' Hs' Hl')).
    rewrite (isdir_resolved f' _ _ (FsMore.resolve_keeps _ _ _ _ Hk Hc (Hall s' Hs' Hl'))).
    apply (FsMore.write_same_dirs _ _ _ _ _ Hw).
  - intros s' [Hs' Hl'] Hne.
    unfold Fs.exists_, Fs.stat.
    rewrite (Hall s' Hs' Hl'), (FsMore.resolve_keeps _ _ _ _ Hk Hc (Hall s' Hs' Hl')).
    destruct (FsMore.write_inv _ _ _ _ Hw) as (q1 & c & es & Hr1 & Hq1 & _ & ->).
    rewrite Hrw in Hr1. injection Hr1 as Hr1.
    apply app_inj_tail in Hr1. destruct Hr1 as [<- <-].
    cbn [Fs.root Fs.with_root].
    rewrite (FsMore.put_sibling _ _ _ _ es _ Hq1); [reflexivity|].
    intros Heq. apply PathMore.append_inj_l in Heq. contradiction.
Qed.

Section Decompress.

Variables (E : env) (self : Spades.t) (sample_path : string).

Let r1_gz := Spades.r1_gz self sample_path.
Let r2_gz := Spades.r2_gz self sample_path.
Let r1_fastq := Spades.r1_fastq self sample_path.
Let r2_fastq := Spades.r2_fastq self sample_path.

Lemma decompress_skip st :
  Fs.exists_ (fs st) r1_fastq = true ->
  Fs.exists_ (fs st) r2_fastq = true ->
  Spades.decompress_fastq E self sample_path st
  = (inr (r1_fastq, r2_fastq), logged st (skip_events sample_path)).
Proof.
  intros H1 H2. unfold Spades.decompress_fastq.
  step (log_eq INFO). step path_exists_eq.
  cbn [fs logged]. fold r1_fastq. rewrite H1. cbv iota. step path_exists_eq.
  cbn [fs logged]. fold r2_fastq. rewrite H2. cbn [andb]. cbv iota.
  step (log_eq INFO). rewrite logged_logged. reflexivity.
Qed.

Lemma decompress_both st :
  Fs.exists_ (fs st) r1_fastq && Fs.exists_ (fs st) r2_fastq = false ->
  Spades.decompress_fastq E self sample_path st
  = (Spades.decompress_one E "R1" r1_gz r1_fastq ;;
     Spades.decompress_one E "R2" r2_gz r2_fastq ;;
     ret (r1_fastq, r2_fastq))
      (logged st [Log INFO ("Decompressing FASTQ files for: " ++ sample_path)]).
Proof.
  intros H. unfold Spades.decompress_fastq.
  step (log_eq INFO). step path_exists_eq. cbn [fs logged]. fold r1_fastq.
  destruct (Fs.exists_ (fs st) r1_fastq); cbv iota.
  - step path_exists_eq. cbn [fs logged]. fold r2_fastq.
    cbn [andb] in H. rewrite H. reflexivity.
  - unfold ret at 1. reflexivity.
Qed.

End Decompress.

Lemma suffixes_plain :
  plain_suffix "_R1_trimmed.fastq.gz" /\ plain_suffix "_R2_trimmed.fastq.gz"
  /\ plain_suffix "_R1_trimmed.fastq" /\ plain_suffix "_R2_trimmed.fastq".
Proof. unfold plain_suffix. simpl. repeat split; lia. Qed.

(** The four paths of a sample are one path with four suffixes. *)
Lemma sample_paths self sp :
  Spades.r1_gz self sp
  = (posixpath.join (Spades.base_input_dir self) sp ++ "_R1_trimmed.fastq.gz")%string
  /\ Spades.r2_gz self sp
     = (posixpath.join (Spades.base_input_dir self) sp ++ "_R2_trimmed.fastq.gz")%string
  /\ Spades.r1_fastq self sp
     = (posixpath.join (Spades.base_input_dir self) sp ++ "_R1_trimmed.fastq")%string
  /\ Spades.r2_fastq self sp
     = (posixpath.join (Spades.base_input_dir self) sp ++ "_R2_trimmed.fastq")%string.
Proof.
  unfold Spades.r1_gz, Spades.r2_gz, Spades.r1_fastq, Spades.r2_fastq.
  repeat split; apply PathMore.join_suffix; reflexivity.
Qed.

(** Both files are decompressed: the two writes, and what they leave
    of the files beside them. *)
Lemma decompress_both_run (E : env) (self : Spades.t) (sample_path : string)
        (st : state) (z1 z2 d1 d2 : list byte) :
  Fs.read (fs st) (Spades.r1_gz self sample_path) = inr z1 ->
  Fs.read (fs st) (Spades.r2_gz self sample_path) = inr z2 ->
  gunzip E z1 = (d1, None) ->
  gunzip E z2 = (d2, None) ->
  Fs.exists_ (fs st) (Spades.r1_fastq self sample_path)
  && Fs.exists_ (fs st) (Spades.r2_fastq self sample_path) = false ->
  Fs.isdir (fs st) (Spades.r1_fastq self sample_path) = false ->
  Fs.isdir (fs st) (Spades.r2_fastq self sample_path) = false ->
  exists f1 f2,
    Spades.decompress_fastq E self sample_path st
    = (inr (Spades.r1_fastq self sample_path, Spades.r2_fastq self sample_path),
       mk_state f2 (trace st ++ decompress_events self sample_path) (stdin st)
                (spawned st))
    /\ Fs.write (fs st) (Spades.r1_fastq self sample_path) d1 = inr f1
    /\ Fs.write f1 (Spades.r2_fastq self sample_path) d2 = inr f2
    /\ (forall s z, plain_suffix s -> s <> "_R1_trimmed.fastq" ->
                    Fs.read (fs st)
                      (posixpath.join (Spades.base_input_dir self) sample_path ++ s)%string
                    = inr z ->
                    Fs.read f1
                      (posixpath.join (Spades.base_input_dir self) sample_path ++ s)%string
                    = inr z)
    /\ (forall s z, plain_suffix s -> s <> "_R2_trimmed.fastq" ->
                    Fs.read f1
                      (posixpath.join (Spades.base_input_dir self) sample_path ++ s)%string
                    = inr z ->
                    Fs.read f2
                      (posixpath.join (Spades.base_input_dir self) sample_path ++ s)%string
                    = inr z).
Proof.
  intros Hr1 Hr2 Hg1 Hg2 Hn Hd1 Hd2.
  rewrite (decompress_both E self sample_path st Hn).
  unfold decompress_events.
  destruct (sample_paths self sample_path) as (Ea & Eb & Ec & Ed).
  destruct suffixes_plain as (Pa & Pb & Pc & Pd).
  set (p := posixpath.join (Spades.base_input_dir self) sample_path) in *.
  set (st0 := logged st _).
  assert (Hr1' : Fs.read (fs st0) (Spades.r1_gz self sample_path) = inr z1) by exact Hr1.
  rewrite Ec in Hd1. rewrite Ed in Hd2. rewrite Ea in Hr1. rewrite Eb in Hr2.
  destruct (sibling_write (fs st) p _ z1 _ d1 Pa Pc Hr1 Hd1) as (f1 & Hw1 & Hc1 & Ho1 & Hi1 & _).
  assert (Hr2f1 : Fs.read f1 (p ++ "_R2_trimmed.fastq.gz") = inr z2).
  { apply Ho1; [exact Pb|discriminate|exact Hr2]. }
  assert (Hd2f1 : Fs.isdir f1 (p ++ "_R2_trimmed.fastq") = false).
  { rewrite (Hi1 _ Pd). exact Hd2. }
  destruct (sibling_write f1 p _ z2 _ d2 Pb Pd Hr2f1 Hd2f1) as (f2 & Hw2 & Hc2 & Ho2 & _).
  exists f1, f2. rewrite <- Ec in Hw1. rewrite <- Ed in Hw2.
  rewrite <- Eb in Hr2f1.
  split; [|split; [exact Hw1|split; [exact Hw2|split; [exact Ho1|exact Ho2]]]].
  step (decompress_one_ok E "R1" _ _ st0 z1 d1 f1 Hr1' Hg1 Hw1).
  match goal with |- context [bind _ _ ?s] => set (st1 := s) end.
  step (decompress_one_ok E "R2" _ _ st1 z2 d2 f2 Hr2f1 Hg2 Hw2).
  unfold ret. subst st1 st0. unfold logged. cbn [fs trace stdin spawned].
  rewrite <- !app_assoc. reflexivity.
Qed.

(** X6. [decompress_fastq] decompresses.  When the two compressed files
    of a sample can be read, the decoder accepts both, the two targets
    are not both there already and neither is a directory, the call
    returns the two target paths; afterwards the first target holds the
    decoded forward reads and the second the decoded reverse reads, the
    compressed files are as they were, and the trace shows one read and
    one write per file, in that order.  A forward target that was there
    alone is written again. *)
Theorem decompress_writes_both (E : env) (self : Spades.t) (sample_path : string)
        (st : state) (z1 z2 d1 d2 : list byte) :
  Fs.read (fs st) (Spades.r1_gz self sample_path) = inr z1 ->
  Fs.read (fs st) (Spades.r2_gz self sample_path) = inr z2 ->
  gunzip E z1 = (d1, None) ->
  gunzip E z2 = (d2, None) ->
  Fs.exists_ (fs st) (Spades.r1_fastq self sample_path)
  && Fs.exists_ (fs st) (Spades.r2_fastq self sample_path) = false ->
  Fs.isdir (fs st) (Spades.r1_fastq self sample_path) = false ->
  Fs.isdir (fs st) (Spades.r2_fastq self sample_path) = false ->
  exists f',
    Spades.decompress_fastq E self sample_path st
    = (inr (Spades.r1_fastq self sample_path, Spades.r2_fastq self sample_path),
       mk_state f' (trace st ++ decompress_events self sample_path) (stdin st)
                (spawned st))
    /\ Fs.read f' (Spades.r1_fastq self sample_path) = inr d1
    /\ Fs.read f' (Spades.r2_fastq self sample_path) = inr d2
    /\ Fs.read f' (Spades.r1_gz self sample_path) = inr z1
    /\ Fs.read f' (Spades.r2_gz self sample_path) = inr z2.
Proof.
  intros Hr1 Hr2 Hg1 Hg2 Hn Hd1 Hd2.
  destruct (decompress_both_run E self sample_path st z1 z2 d1 d2 Hr1 Hr2 Hg1 Hg2 Hn Hd1 Hd2)
    as (f1 & f2 & Hrun & Hw1 & Hw2 & Ho1 & Ho2).
  destruct (sample_paths self sample_path) as (Ea & Eb & Ec & Ed).
  destruct suffixes_plain as (Pa & Pb & Pc & Pd).
  pose proof (FsMore.read_write _ _ _ _ Hw1) as Hc1.
  exists f2. split; [exact Hrun|split; [|split; [|split]]].
  - rewrite Ec in *. apply (Ho2 _ d1 Pc); [discriminate|exact Hc1].
  - exact (FsMore.read_write _ _ _ _ Hw2).
  - rewrite Ea in *. apply (Ho2 _ z1 Pa); [discriminate|].
    apply (Ho1 _ z1 Pa); [discriminate|exact Hr1].
  - rewrite Eb in *. apply (Ho2 _ z2 Pb); [discriminate|].
    apply (Ho1 _ z2 Pb); [discriminate|exact Hr2].
Qed.

(** Sample [X] of the demonstration tree, decoded by a decoder that
    doubles every byte. *)
Lemma decompress_writes_both_witness :
  exists f',
    Fs.read f' "in/X/ILLUMINA_DATA/X_R1_trimmed.fastq" = inr ["1"%byte; "1"%byte]
    /\ Fs.read f' "in/X/ILLUMINA_DATA/X_R2_trimmed.fastq" = inr ["2"%byte; "2"%byte]
    /\ Fs.read f' "in/X/ILLUMINA_DATA/X_R1_trimmed.fastq.gz" = inr ["1"%byte].
Proof.
  destruct (decompress_writes_both Cases.doubling Demo.spades_self "X/ILLUMINA_DATA/X"
              (Demo.start Demo.spades_fs [])
              ["1"%byte] ["2"%byte] ["1"%byte; "1"%byte] ["2"%byte; "2"%byte])
    as (f' & _ & H1 & H2 & H3 & _); try (vm_compute; reflexivity).
  exists f'. split; [exact H1|split; [exact H2|exact H3]].
Defined.

(** X7. Whenever [decompress_fastq] returns, it returns the two target
    paths and both exist on the file system it leaves, whatever the
    decoder produced; it has spawned no process.  A second call on
    that file system therefore finds both, returns the same paths and
    does nothing but log two records. *)
Theorem decompress_then_skips (E : env) (self : Spades.t) (sample_path : string)
        (st st' : state) (paths : string * string) :
  Spades.decompress_fastq E self sample_path st = (inr paths, st') ->
  paths = (Spades.r1_fastq self sample_path, Spades.r2_fastq self sample_path)
  /\ Fs.exists_ (fs st') (fst paths) = true
  /\ Fs.exists_ (fs st') (snd paths) = true
  /\ spawned st' = spawned st
  /\ Spades.decompress_fastq E self sample_path st'
     = (inr paths, logged st' (skip_events sample_path)).
Proof.
  intros H.
  assert (Hpost : paths = (Spades.r1_fastq self sample_path, Spades.r2_fastq self sample_path)
                  /\ Fs.exists_ (fs st') (Spades.r1_fastq self sample_path) = true
                  /\ Fs.exists_ (fs st') (Spades.r2_fastq self sample_path) = true
                  /\ spawned st' = spawned st).
  { destruct (Fs.exists_ (fs st) (Spades.r1_fastq self sample_path)
              && Fs.exists_ (fs st) (Spades.r2_fastq self sample_path)) eqn:Hb.
    - apply andb_prop in Hb. destruct Hb as [H1 H2].
      rewrite (decompress_skip E self sample_path st H1 H2) in H.
      injection H as <- <-. cbn [logged fs spawned]. auto.
    - rewrite (decompress_both E self sample_path st Hb) in H.
      bind_cases H u1 s1 D1. destruct u1.
      bind_cases H u2 s2 D2. destruct u2.
      unfold ret in H. injection H as <- <-.
      destruct (decompress_one_inv _ _ _ _ _ _ D1) as (d1 & W1 & S1 & _).
      destruct (decompress_one_inv _ _ _ _ _ _ D2) as (d2 & W2 & S2 & _).
      split; [reflexivity|split; [|split]].
      + apply (FsMore.exists_keeps (fs s1)).
        * exact (FsMore.write_keeps _ _ _ _ W2).
        * exact (FsMore.cwd_write _ _ _ _ W2).
        * exact (FsMore.exists_write _ _ _ _ W1).
      + exact (FsMore.exists_write _ _ _ _ W2).
      + rewrite S2, S1. reflexivity. }
  destruct Hpost as (-> & H1 & H2 & Hs). cbn [fst snd].
  repeat (split; [assumption || reflexivity|]).
  apply decompress_skip; assumption.
Qed.

(** Sample [X] of the demonstration tree: decompressed by the first
    call, found by the second. *)
Lemma decompress_then_skips_witness :
  Fs.exists_
    (fs (snd (Spades.decompress_fastq Demo.succeeds Demo.spades_self "X/ILLUMINA_DATA/X"
                (Demo.start Demo.spades_fs []))))
    "in/X/ILLUMINA_DATA/X_R2_trimmed.fastq" = true.
Proof.
  pose (st := Demo.start Demo.spades_fs []).
  pose (st' := snd (Spades.decompress_fastq Demo.succeeds Demo.spades_self
                      "X/ILLUMINA_DATA/X" st)).
  destruct (decompress_then_skips Demo.succeeds Demo.spades_self "X/ILLUMINA_DATA/X" st st'
              ("in/X/ILLUMINA_DATA/X_R1_trimmed.fastq",
               "in/X/ILLUMINA_DATA/X_R2_trimmed.fastq"))
    as (_ & _ & H2 & _).
  - vm_compute. reflexivity.
  - exact H2.
Defined.

(** X8. What [decompress_fastq] leaves behind when it fails, the two
    targets not being both there.  A forward file that is missing
    raises [FileNotFoundError] before anything is opened.  A forward
    stream the decoder rejects raises the decoder's exception after an
    error record, and what had been decoded stays in the target; the
    reverse file is not looked at.  A reverse file that is missing
    raises after the forward file has been decompressed, and that
    output stays. *)
Theorem decompress_failures (E : env) (self : Spades.t) (sample_path : string)
        (st : state) :
  Fs.exists_ (fs st) (Spades.r1_fastq self sample_path)
  && Fs.exists_ (fs st) (Spades.r2_fastq self sample_path) = false ->
  (Fs.exists_ (fs st) (Spades.r1_gz self sample_path) = false ->
   Spades.decompress_fastq E self sample_path st
   = (inl (OSError ENOENT ("R1 file not found: " ++ Spades.r1_gz self sample_path)),
      logged st [Log INFO ("Decompressing FASTQ files for: " ++ sample_path)]))
  /\
  (forall z1 d1 e,
      Fs.read (fs st) (Spades.r1_gz self sample_path) = inr z1 ->
      gunzip E z1 = (d1, Some e) ->
      Fs.isdir (fs st) (Spades.r1_fastq self sample_path) = false ->
      exists f',
        Spades.decompress_fastq E self sample_path st
        = (inl e,
           mk_state f'
             (trace st
                ++ [ Log INFO ("Decompressing FASTQ files for: " ++ sample_path);
                     GzipOpen (Spades.r1_gz self sample_path);
                     OpenWrite (Spades.r1_fastq self sample_path);
                     Log ERROR ("Failed to decompress " ++ Spades.r1_gz self sample_path
                                  ++ ": " ++ str_of_exn e) ])
             (stdin st) (spawned st))
        /\ Fs.read f' (Spades.r1_fastq self sample_path) = inr d1)
  /\
  (forall z1 d1,
      Fs.read (fs st) (Spades.r1_gz self sample_path) = inr z1 ->
      gunzip E z1 = (d1, None) ->
      Fs.isdir (fs st) (Spades.r1_fastq self sample_path) = false ->
      Fs.exists_ (fs st) (Spades.r2_gz self sample_path) = false ->
      exists f',
        Spades.decompress_fastq E self sample_path st
        = (inl (OSError ENOENT ("R2 file not found: " ++ Spades.r2_gz self sample_path)),
           mk_state f'
             (trace st
                ++ [ Log INFO ("Decompressing FASTQ files for: " ++ sample_path);
                     GzipOpen (Spades.r1_gz self sample_path);
                     OpenWrite (Spades.r1_fastq self sample_path);
                     Log INFO ("Decompressed R1: "
                                 ++ posixpath.basename (Spades.r1_gz self sample_path)) ])
             (stdin st) (spawned st))
        /\ Fs.read f' (Spades.r1_fastq self sample_path) = inr d1
        /\ Fs.exists_ f' (Spades.r2_fastq self sample_path)
           = Fs.exists_ (fs st) (Spades.r2_fastq self sample_path)).
Proof.
  intros Hn.
  rewrite (decompress_both E self sample_path st Hn).
  destruct (sample_paths self sample_path) as (Ea & Eb & Ec & Ed).
  destruct suffixes_plain as (Pa & Pb & Pc & Pd).
  set (st0 := logged st _).
  split; [|split].
  - intros H1. apply bind_inl. apply decompress_one_missing. exact H1.
  - intros z1 d1 e Hr1 Hg1 Hd1.
    assert (Hr1' : Fs.read (fs st0) (Spades.r1_gz self sample_path) = inr z1) by exact Hr1.
    rewrite Ea in Hr1. rewrite Ec in Hd1.
    destruct (sibling_write (fs st) _ _ z1 _ d1 Pa Pc Hr1 Hd1) as (f1 & Hw1 & Hc1 & _).
    rewrite <- Ec in Hw1, Hc1. exists f1. split; [|exact Hc1].
    erewrite bind_inl; [|exact (decompress_one_bad E "R1" _ _ st0 z1 d1 e f1 Hr1' Hg1 Hw1)].
    subst st0. unfold logged. cbn [fs trace stdin spawned]. rewrite <- app_assoc. reflexivity.
  - intros z1 d1 Hr1 Hg1 Hd1 H2.
    assert (Hr1' : Fs.read (fs st0) (Spades.r1_gz self sample_path) = inr z1) by exact Hr1.
    rewrite Ea in Hr1. rewrite Ec in Hd1.
    destruct (sibling_write (fs st) _ _ z1 _ d1 Pa Pc Hr1 Hd1)
      as (f1 & Hw1 & Hc1 & _ & _ & Hx1).
    rewrite <- Ec in Hw1, Hc1. exists f1.
    step (decompress_one_ok E "R1" _ _ st0 z1 d1 f1 Hr1' Hg1 Hw1).
    match goal with |- context [bind _ _ ?s] => set (st1 := s) end.
    assert (H2' : Fs.exists_ (fs st1) (Spades.r2_gz self sample_path) = false).
    { subst st1. cbn [fs]. rewrite Eb. rewrite (Hx1 _ Pb); [|discriminate].
      rewrite <- Eb. exact H2. }
    split; [|split; [exact Hc1|]].
    + erewrite bind_inl; [|apply decompress_one_missing; exact H2'].
      subst st1 st0. unfold logged. cbn [fs trace stdin spawned].
      rewrite <- app_assoc. reflexivity.
    + rewrite Ed. apply Hx1; [exact Pd|discriminate].
Qed.

(** Sample [X] of the demonstration tree under a decoder that fails
    after one byte: that byte is in the forward target, and there is no
    reverse target. *)
Lemma decompress_failures_witness :
  exists f',
    fs (snd (Spades.decompress_fastq Cases.truncated Demo.spades_self "X/ILLUMINA_DATA/X"
               (Demo.start Demo.spades_fs []))) = f'
    /\ Fs.read f' "in/X/ILLUMINA_DATA/X_R1_trimmed.fastq" = inr ["1"%byte].
Proof.
  destruct (proj1 (proj2 (decompress_failures Cases.truncated Demo.spades_self
                            "X/ILLUMINA_DATA/X" (Demo.start Demo.spades_fs []) eq_refl))
              ["1"%byte] ["1"%byte]
              (OtherError "EOFError"
                 "Compressed file ended before the end-of-stream marker was reached"))
    as (f' & Hrun & Hread); try (vm_compute; reflexivity).
  exists f'. split; [|exact Hread].
  exact (f_equal (fun r => fs (snd r)) Hrun).
Defined.

(** ** A tool that exits with status zero *)

Lemma run_spades_ok E self sp r1 r2 st out err r :
  tool E (spawned st) (Spades.spades_cmd self sp r1 r2) (fs st) = (Exited 0 out err, r) ->
  Spades.run_spades E self sp r1 r2 st
  = (inr true,
     mk_state (Fs.with_root (fs st) r)
       (trace st ++ spades_call_events self sp r1 r2
          ++ spades_done_events self sp (Fs.with_root (fs st) r))
       (stdin st) (S (spawned st))).
Proof.
  intros H. unfold Spades.run_spades.
  do 3 step (log_eq INFO). rewrite !logged_logged.
  apply try_inr.
  match goal with |- context [logged st ?evs] =>
    step (subprocess_run_exit0 E _ (logged st evs) out err r H) end.
  step (log_eq INFO). step path_exists_eq.
  unfold spades_done_events, contigs_file, spades_call_events.
  cbn [logged fs trace stdin spawned].
  destruct (Fs.exists_ _ _); step log_eq; unfold ret, logged;
    cbn [fs trace stdin spawned]; rewrite <- !app_assoc; reflexivity.
Qed.

Lemma run_snippy_ok E self strain sample r1 r2 st f out err r :
  Fs.makedirs (fs st) (Snippy.output_dir self strain sample) = (f, None) ->
  tool E (spawned st) (Snippy.snippy_cmd self strain sample r1 r2) f
  = (Exited 0 out err, r) ->
  Snippy.run_snippy E self strain sample r1 r2 st
  = (inr true,
     mk_state (Fs.with_root f r)
       (trace st ++ snippy_call_events self strain sample r1 r2
          ++ snippy_done_events self strain sample)
       (stdin st) (S (spawned st))).
Proof.
  intros Hm H. unfold Snippy.run_snippy.
  step (makedirs_ok _ _ _ Hm). do 2 step (log_eq INFO). rewrite !logged_logged.
  apply try_inr.
  match goal with |- context [logged ?s ?evs] =>
    step (subprocess_run_exit0 E _ (logged s evs) out err r H) end.
  do 2 step (log_eq INFO). unfold ret, logged, snippy_call_events, snippy_done_events.
  cbn [fs trace stdin spawned]. rewrite <- !app_assoc. reflexivity.
Qed.

Lemma run_snippy_no_directory E self strain sample r1 r2 st f k :
  Fs.makedirs (fs st) (Snippy.output_dir self strain sample) = (f, Some k) ->
  Snippy.run_snippy E self strain sample r1 r2 st
  = (inl (OSError k (strerror k (Snippy.output_dir self strain sample))),
     mk_state f (trace st ++ [Makedirs (Snippy.output_dir self strain sample)])
              (stdin st) (spawned st)).
Proof.
  intros Hm. unfold Snippy.run_snippy. apply bind_inl. apply makedirs_err. exact Hm.
Qed.





(** ** How many processes a run starts *)

Lemma quiet_ret {A} (a : A) : quiet (ret a).
Proof. intros st. reflexivity. Qed.

Lemma quiet_raise {A} (e : exn) : quiet (@raise A e).
Proof. intros st. reflexivity. Qed.

Lemma quiet_bind {A B} (m : M A) (k : A -> M B) :
  quiet m -> (forall a, quiet (k a)) -> quiet (bind m k).
Proof.
  intros Hm Hk st. unfold bind. specialize (Hm st).
  destruct (m st) as [[e|a] st1]; cbn [snd] in *; [exact Hm|].
  rewrite Hk. exact Hm.
Qed.

Lemma quiet_try {A} (m : M A) (h : exn -> option (M A)) :
  quiet m -> (forall e k, h e = Some k -> quiet k) -> quiet (try_except m h).
Proof.
  intros Hm Hh st. unfold try_except. specialize (Hm st).
  destruct (m st) as [[e|a] st1]; cbn [snd] in *; [|exact Hm].
  destruct (h e) as [k|] eqn:Hk; [|exact Hm].
  rewrite (Hh e k Hk). exact Hm.
Qed.

Lemma quiet_emit ev : quiet (emit ev).
Proof. intros st. reflexivity. Qed.

Lemma quiet_log lv msg : quiet (Os.log lv msg).
Proof. intros st. reflexivity. Qed.

Lemma quiet_path_exists p : quiet (Os.path_exists p).
Proof. intros st. reflexivity. Qed.

Lemma quiet_lift_os {A} path (g : state -> os_error + A) :
  quiet (fun st => lift_os path (g st) st).
Proof. intros st. destruct (g st); reflexivity. Qed.

Lemma quiet_listdir p : quiet (Os.listdir p).
Proof.
  unfold Os.listdir. apply quiet_bind; [apply quiet_emit|intros _]. apply quiet_lift_os.
Qed.

Lemma quiet_set_fs f : quiet (set_fs f).
Proof. intros st. reflexivity. Qed.

Lemma quiet_makedirs p : quiet (Os.makedirs p).
Proof.
  unfold Os.makedirs. apply quiet_bind; [apply quiet_emit|intros _]. intros st.
  destruct (Fs.makedirs (fs st) p) as [f [k|]]; reflexivity.
Qed.

Lemma quiet_gunzip_to E src dst : quiet (Os.gunzip_to E src dst).
Proof.
  unfold Os.gunzip_to.
  apply quiet_bind; [apply quiet_emit|intros _].
  apply quiet_bind; [apply quiet_lift_os|intros z].
  apply quiet_bind; [apply quiet_emit|intros _].
  destruct (gunzip E z) as [data err].
  apply quiet_bind; [apply quiet_lift_os|intros f].
  apply quiet_bind; [apply quiet_set_fs|intros _].
  destruct err; [apply quiet_raise|apply quiet_ret].
Qed.

Ltac quiet_step :=
  match goal with
  | |- quiet (bind _ _) => apply quiet_bind; [|intros ?]
  | |- quiet (ret _) => apply quiet_ret
  | |- quiet (raise _) => apply quiet_raise
  | |- quiet (Os.log _ _) => apply quiet_log
  | |- quiet (Os.path_exists _) => apply quiet_path_exists
  | |- quiet (Os.listdir _) => apply quiet_listdir
  | |- quiet (Os.makedirs _) => apply quiet_makedirs
  | |- quiet (Os.gunzip_to _ _ _) => apply quiet_gunzip_to
  | |- quiet (if ?c then _ else _) => destruct c
  | |- quiet (match ?l with [] => _ | _ :: _ => _ end) => destruct l
  | |- quiet (let '(_, _) := ?p in _) => destruct p
  end.

Lemma snippy_get_fastq_files_quiet self strain sample :
  quiet (Snippy.get_fastq_files self strain sample).
Proof. unfold Snippy.get_fastq_files. repeat quiet_step. Qed.

Lemma spades_decompress_quiet E self sp : quiet (Spades.decompress_fastq E self sp).
Proof.
  unfold Spades.decompress_fastq, Spades.decompress_one. repeat quiet_step;
    apply quiet_try; repeat quiet_step;
    intros e k Hk; injection Hk as <-; repeat quiet_step.
Qed.

(** The call of the tool, whatever becomes of it: the result is [True]
    after a process that ran, and no more than one process runs. *)
Lemma run_snippy_runs E self strain sample r1 r2 st :
  let res := Snippy.run_snippy E self strain sample r1 r2 st in
  (fst res = inr true /\ spawned (snd res) = S (spawned st))
  \/ (fst res <> inr true
      /\ (spawned (snd res) = spawned st \/ spawned (snd res) = S (spawned st))).
Proof.
  cbv zeta.
  destruct (Fs.makedirs (fs st) (Snippy.output_dir self strain sample)) as [f [k|]] eqn:Hm.
  { rewrite (run_snippy_no_directory E self strain sample r1 r2 st f k Hm).
    right. split; [discriminate|left; reflexivity]. }
  destruct (tool E (spawned st) (Snippy.snippy_cmd self strain sample r1 r2) f)
    as [[rc out err|k] r] eqn:Ht.
  - destruct (Z.eq_dec rc 0) as [->|Hrc].
    + rewrite (run_snippy_ok E self strain sample r1 r2 st f out err r Hm Ht).
      left. split; reflexivity.
    + rewrite (run_snippy_nonzero E self strain sample r1 r2 st f Hm rc out err r Ht Hrc).
      right. split; [discriminate|right; reflexivity].
  - destruct (os_error_eqb k ENOENT) eqn:Hk.
    + destruct k; try discriminate.
      rewrite (run_snippy_missing E self strain sample r1 r2 st f Hm r Ht).
      right. split; [discriminate|left; reflexivity].
    + rewrite (run_snippy_exec_failed E self strain sample r1 r2 st f Hm k r Ht).
      * right. split; [discriminate|left; reflexivity].
      * intros ->. discriminate.
Qed.

Lemma run_spades_runs E self sp r1 r2 st :
  let res := Spades.run_spades E self sp r1 r2 st in
  (fst res = inr true /\ spawned (snd res) = S (spawned st))
  \/ (fst res <> inr true
      /\ (spawned (snd res) = spawned st \/ spawned (snd res) = S (spawned st))).
Proof.
  cbv zeta.
  destruct (tool E (spawned st) (Spades.spades_cmd self sp r1 r2) (fs st))
    as [[rc out err|k] r] eqn:Ht.
  - destruct (Z.eq_dec rc 0) as [->|Hrc].
    + rewrite (run_spades_ok E self sp r1 r2 st out err r Ht).
      left. split; reflexivity.
    + rewrite (run_spades_nonzero E self sp r1 r2 st rc out err r Ht Hrc).
      right. split; [discriminate|right; reflexivity].
  - destruct (os_error_eqb k ENOENT) eqn:Hk.
    + destruct k; try discriminate.
      rewrite (run_spades_missing E self sp r1 r2 st r Ht).
      right. split; [discriminate|left; reflexivity].
    + rewrite (run_spades_exec_failed E self sp r1 r2 st k r Ht).
      * right. split; [discriminate|left; reflexivity].
      * intros ->. discriminate.
Qed.

Lemma snippy_one_run_each E self : one_run_each (Snippy.process_sample E self).
Proof.
  intros [strain sample] sc fc st. unfold Snippy.process_sample.
  pose proof (snippy_get_fastq_files_quiet self strain sample st) as Hq.
  destruct (Snippy.get_fastq_files self strain sample st) as [[e|[r1 r2]] st1] eqn:Hg;
    cbn [snd] in Hq.
  - eexists. right. split.
    + erewrite try_caught; [|apply bind_inl; exact Hg|reflexivity]. reflexivity.
    + left. cbn [logged spawned]. exact Hq.
  - pose proof (run_snippy_runs E self strain sample r1 r2 st1) as Hr. cbv zeta in Hr.
    rewrite Hq in Hr.
    destruct (Snippy.run_snippy E self strain sample r1 r2 st1) as [[e|[|]] st2] eqn:Hrun;
      cbn [fst snd] in Hr.
    + eexists. right. split.
      * erewrite try_caught;
          [|rewrite (bind_inr _ _ _ _ _ Hg); apply bind_inl; exact Hrun|reflexivity].
        reflexivity.
      * cbn [logged spawned]. destruct Hr as [[Hr _]|[_ Hr]]; [discriminate|exact Hr].
    + exists st2. left. split.
      * apply try_inr.
        rewrite (bind_inr _ _ _ _ _ Hg), (bind_inr _ _ _ _ _ Hrun). reflexivity.
      * destruct Hr as [[_ Hr]|[Hr _]]; [exact Hr|congruence].
    + exists st2. right. split.
      * apply try_inr.
        rewrite (bind_inr _ _ _ _ _ Hg), (bind_inr _ _ _ _ _ Hrun). reflexivity.
      * destruct Hr as [[Hr _]|[_ Hr]]; [discriminate|exact Hr].
Qed.

Lemma spades_one_run_each E self : one_run_each (Spades.process_sample E self).
Proof.
  intros sp sc fc st. unfold Spades.process_sample.
  set (st0 := logged st [Log INFO ("Processing sample: " ++ sp)]).
  assert (Hm : Os.log INFO ("Processing sample: " ++ sp) st = (inr tt, st0)) by reflexivity.
  pose proof (spades_decompress_quiet E self sp st0) as Hq.
  destruct (Spades.decompress_fastq E self sp st0) as [[e|[r1 r2]] st1] eqn:Hg;
    cbn [snd] in Hq; change (spawned st0) with (spawned st) in Hq.
  - eexists. right. split.
    + erewrite try_caught;
        [|rewrite (bind_inr _ _ _ _ _ Hm); apply bind_inl; exact Hg|reflexivity].
      reflexivity.
    + left. cbn [logged spawned]. exact Hq.
  - pose proof (run_spades_runs E self sp r1 r2 st1) as Hr. cbv zeta in Hr.
    rewrite Hq in Hr.
    destruct (Spades.run_spades E self sp r1 r2 st1) as [[e|[|]] st2] eqn:Hrun;
      cbn [fst snd] in Hr.
    + eexists. right. split.
      * erewrite try_caught;
          [|rewrite (bind_inr _ _ _ _ _ Hm), (bind_inr _ _ _ _ _ Hg);
            apply bind_inl; exact Hrun|reflexivity].
        reflexivity.
      * cbn [logged spawned]. destruct Hr as [[Hr _]|[_ Hr]]; [discriminate|exact Hr].
    + exists st2. left. split.
      * apply try_inr.
        rewrite (bind_inr _ _ _ _ _ Hm), (bind_inr _ _ _ _ _ Hg), (bind_inr _ _ _ _ _ Hrun).
        reflexivity.
      * destruct Hr as [[_ Hr]|[Hr _]]; [exact Hr|congruence].
    + exists st2. right. split.
      * apply try_inr.
        rewrite (bind_inr _ _ _ _ _ Hm), (bind_inr _ _ _ _ _ Hg), (bind_inr _ _ _ _ _ Hrun).
        reflexivity.
      * destruct Hr as [[Hr _]|[_ Hr]]; [discriminate|exact Hr].
Qed.

Lemma one_run_loop {A} (body : A -> nat * nat -> M (nat * nat)) :
  one_run_each body ->
  forall l sc fc st sc' fc' st',
    Os.for_each l body (sc, fc) st = (inr (sc', fc'), st') ->
    sc <= sc' /\ spawned st + (sc' - sc) <= spawned st'
    /\ spawned st' <= spawned st + length l.
Proof.
  intros Hb l; induction l as [|x l IH]; intros sc fc st sc' fc' st' H; simpl in H.
  - unfold ret in H. injection H as <- <- <-. simpl. lia.
  - destruct (Hb x sc fc st) as [st1 [[Hx Hs]|[Hx Hs]]];
      rewrite (bind_inr _ _ _ _ _ Hx) in H; apply IH in H; simpl; lia.
Qed.

(** X11. One sample, at most one process.  The body of either loop
    starts the tool at most once for the sample it is given (there is
    no second attempt), and it adds to [success_count] only when a
    process has run.  Over the whole loop the number of processes run
    lies between the number of successes and the number of samples. *)
Theorem one_process_per_sample (E : env) :
  (forall self : Snippy.t, one_run_each (Snippy.process_sample E self))
  /\ (forall self : Spades.t, one_run_each (Spades.process_sample E self))
  /\ (forall (self : Snippy.t) samples st sc fc st',
         Os.for_each samples (Snippy.process_sample E self) (0, 0) st
         = (inr (sc, fc), st') ->
         spawned st + sc <= spawned st'
         /\ spawned st' <= spawned st + length samples)
  /\ (forall (self : Spades.t) samples st sc fc st',
         Os.for_each samples (Spades.process_sample E self) (0, 0) st
         = (inr (sc, fc), st') ->
         spawned st + sc <= spawned st'
         /\ spawned st' <= spawned st + length samples).
Proof.
  split; [exact (snippy_one_run_each E)|split; [exact (spades_one_run_each E)|split]].
  - intros self samples st sc fc st' H.
    pose proof (one_run_loop _ (snippy_one_run_each E self) _ _ _ _ _ _ _ H). lia.
  - intros self samples st sc fc st' H.
    pose proof (one_run_loop _ (spades_one_run_each E self) _ _ _ _ _ _ _ H). lia.
Qed.

(** The three samples of the demonstration tree: one has no reverse
    reads, so two processes run. *)
Lemma one_process_per_sample_witness :
  spawned (snd (Os.for_each
                  [ (Demo.staph, "MCR_CVU_1"); (Demo.staph, "MCR_CVU_2");
                    (Demo.staph, "MCR_CVU_3") ]
                  (Snippy.process_sample Demo.succeeds Demo.snippy_self) (0, 0)
                  (Demo.start Demo.snippy_fs [])))
  <= 3.
Proof.
  pose (st := Demo.start Demo.snippy_fs []).
  pose (l := [ (Demo.staph, "MCR_CVU_1"); (Demo.staph, "MCR_CVU_2");
               (Demo.staph, "MCR_CVU_3") ]).
  pose (st' := snd (Os.for_each l (Snippy.process_sample Demo.succeeds Demo.snippy_self)
                      (0, 0) st)).
  destruct (proj1 (proj2 (proj2 (one_process_per_sample Demo.succeeds)))
              Demo.snippy_self l st 2 1 st') as [_ H].
  - vm_compute. reflexivity.
  - exact H.
Defined.

(** ** Discovery is a function of the tree *)

Lemma isdir_listdir f p : Fs.isdir f p = true -> exists l, Fs.listdir f p = inr l.
Proof.
  unfold Fs.isdir, Fs.listdir. destruct (Fs.stat f p) as [e|[d|es]]; try discriminate.
  eauto.
Qed.

Lemma missing_listdir f p : Fs.exists_ f p = false -> exists k, Fs.listdir f p = inl k.
Proof.
  unfold Fs.exists_, Fs.listdir. destruct (Fs.stat f p) as [e|n]; [eauto|discriminate].
Qed.


Lemma ret_eq (A : Type) (a : A) st : ret a st = (inr a, st).
Proof. reflexivity. Qed.

Lemma snippy_scan_items strain strain_path items :
  forall samples st,
    exists evs,
      Os.for_each items (Snippy.scan_item strain strain_path) samples st
      = (inr (samples
                ++ map (fun item => (strain, item))
                     (filter (fun item => Fs.isdir (fs st) (posixpath.join strain_path item)
                                          && Py.startswith item "MCR_CVU_") items)),
         logged st evs).
Proof.
  induction items as [|item items IH]; intros samples st.
  - exists []. simpl. rewrite app_nil_r, logged_nil. reflexivity.
  - cbn [Os.for_each filter]. unfold Snippy.scan_item at 1. rewrite bind_assoc.
    step path_isdir_eq.
    destruct (Fs.isdir (fs st) (posixpath.join strain_path item)
              && Py.startswith item "MCR_CVU_").
    + rewrite bind_assoc. step (log_eq INFO). step ret_eq.
      set (st1 := logged st _).
      destruct (IH (samples ++ [(strain, item)]) st1) as [evs Hevs].
      rewrite Hevs.
      subst st1. rewrite logged_logged. eexists. cbn [logged fs map].
      rewrite <- app_assoc. reflexivity.
    + step ret_eq. destruct (IH samples st) as [evs Hevs].
      rewrite Hevs. eexists. reflexivity.
Qed.

Lemma snippy_scan_strain self strain samples st :
  dir_if_there (fs st) (posixpath.join (Snippy.base_path self) strain) ->
  exists evs,
    Snippy.scan_strain self strain samples st
    = (inr (samples ++ snippy_strain_samples self (fs st) strain), logged st evs).
Proof.
  intros Hd. unfold Snippy.scan_strain, snippy_strain_samples.
  step path_exists_eq.
  destruct (Fs.exists_ (fs st) (posixpath.join (Snippy.base_path self) strain)) eqn:He;
    cbn [negb]; cbv iota.
  - destruct (isdir_listdir _ _ (Hd He)) as [items Hl]. rewrite Hl.
    step (listdir_ok _ _ _ Hl).
    destruct (snippy_scan_items strain (posixpath.join (Snippy.base_path self) strain)
                items samples (logged st [Listdir (posixpath.join (Snippy.base_path self) strain)]))
      as [evs Hevs].
    rewrite Hevs, logged_logged. eexists. reflexivity.
  - destruct (missing_listdir _ _ He) as [k ->].
    step (log_eq WARNING). rewrite app_nil_r. eexists. reflexivity.
Qed.

Lemma snippy_scan_strains self strains :
  forall samples st,
    Forall (fun strain => dir_if_there (fs st)
                            (posixpath.join (Snippy.base_path self) strain)) strains ->
    exists evs,
      Os.for_each strains (Snippy.scan_strain self) samples st
      = (inr (samples ++ flat_map (snippy_strain_samples self (fs st)) strains),
         logged st evs).
Proof.
  induction strains as [|strain strains IH]; intros samples st Hall.
  - exists []. simpl. rewrite app_nil_r, logged_nil. reflexivity.
  - inversion Hall as [|? ? Hd Hall']; subst. cbn [Os.for_each flat_map].
    destruct (snippy_scan_strain self strain samples st Hd) as [evs1 H1].
    step H1.
    destruct (IH (samples ++ snippy_strain_samples self (fs st) strain) (logged st evs1) Hall')
      as [evs2 H2].
    rewrite H2, logged_logged. eexists. cbn [logged fs]. rewrite <- app_assoc. reflexivity.
Qed.

(** X12. What the Snippy driver discovers.  When the root exists and
    no strain path is anything but a directory, [get_samples] returns,
    strain after strain in the order of [self.strains] and within a
    strain in listing order, every entry of the strain directory that is
    a directory and whose name starts with [MCR_CVU_], and nothing else;
    a strain directory that is missing contributes nothing.  It only
    adds to the trace.  When the root does not exist it returns the
    empty list after one error record. *)
Theorem snippy_discovery_exact (self : Snippy.t) (st : state) :
  (Fs.exists_ (fs st) (Snippy.base_path self) = true ->
   Forall (fun strain => dir_if_there (fs st)
                           (posixpath.join (Snippy.base_path self) strain))
          (Snippy.strains self) ->
   exists evs,
     Snippy.get_samples self st = (inr (snippy_discovered self (fs st)), logged st evs))
  /\
  (Fs.exists_ (fs st) (Snippy.base_path self) = false ->
   Snippy.get_samples self st
   = (inr [], logged st [Log ERROR ("Base path does not exist: "
                                      ++ Snippy.base_path self)])).
Proof.
  split.
  - intros Hb Hall. unfold Snippy.get_samples.
    step path_exists_eq. rewrite Hb. cbn [negb]; cbv iota.
    destruct (snippy_scan_strains self (Snippy.strains self) [] st Hall) as [evs H].
    step H. step (log_eq INFO). unfold ret. rewrite logged_logged.
    eexists. reflexivity.
  - intros Hb. unfold Snippy.get_samples.
    step path_exists_eq. rewrite Hb. cbn [negb]; cbv iota.
    step (log_eq ERROR). reflexivity.
Qed.

(** The demonstration tree: three samples under the one strain that is
    there; the directory [notes] and the sample directory under the root
    are not among them. *)
Lemma snippy_discovery_exact_witness :
  fst (Snippy.get_samples Demo.snippy_self (Demo.start Demo.snippy_fs []))
  = inr [ (Demo.staph, "MCR_CVU_1"); (Demo.staph, "MCR_CVU_2"); (Demo.staph, "MCR_CVU_3") ].
Proof.
  destruct (proj1 (snippy_discovery_exact Demo.snippy_self (Demo.start Demo.snippy_fs [])))
    as [evs H].
  - vm_compute. reflexivity.
  - repeat constructor; intros He; vm_compute in He; try discriminate; vm_compute; reflexivity.
  - rewrite H. vm_compute. reflexivity.
Defined.






(** ** A root that is not a directory *)







(** ** Where the results go *)

Module NameFacts.

Local Open Scope string_scope.

Lemma no_slash_cons c s :
  posixpath.no_slash (String c s) = true ->
  Ascii.eqb c "/" = false /\ posixpath.no_slash s = true.
Proof.
  unfold posixpath.no_slash. cbn [list_ascii_of_string forallb]. intros H.
  apply andb_true_iff in H. destruct H as [Hc Hs]. apply negb_true_iff in Hc. auto.
Qed.

Lemma basename_from_plain acc s :
  posixpath.no_slash s = true -> posixpath.basename_from acc s = acc.
Proof.
  revert acc; induction s as [|c s IH]; intros acc H; [reflexivity|].
  destruct (no_slash_cons c s H) as [Hc Hs]. cbn [posixpath.basename_from].
  rewrite Hc. apply IH. exact Hs.
Qed.

Lemma basename_from_sep acc a b :
  posixpath.basename_from acc (a ++ String "/" b) = posixpath.basename_from b b.
Proof.
  revert acc; induction a as [|c a IH]; intros acc.
  - reflexivity.
  - cbn [append posixpath.basename_from]. destruct (Ascii.eqb c "/"); apply IH.
Qed.

Lemma not_absolute c : posixpath.no_slash c = true -> Py.startswith c "/" = false.
Proof.
  intros H. destruct c as [|x c]; [reflexivity|].
  destruct (no_slash_cons x c H) as [Hx _]. unfold Py.startswith. cbn [String.prefix].
  destruct (ascii_dec "/" x) as [<-|]; [discriminate|reflexivity].
Qed.

(** The last component of a path to which a name has been joined. *)
Lemma basename_join a c :
  posixpath.no_slash c = true -> posixpath.basename (posixpath.join a c) = c.
Proof.
  intros Hc. unfold posixpath.join, posixpath.basename. rewrite (not_absolute c Hc).
  destruct (String.eqb a "") eqn:Ha.
  - apply String.eqb_eq in Ha. subst a. cbn [orb append].
    apply basename_from_plain. exact Hc.
  - cbn [orb]. destruct (Py.endswith a "/") eqn:He.
    + destruct (PathFacts.endswith_app _ _ He) as [a' ->].
      rewrite PathFacts.append_assoc. change ("/" ++ c) with (String "/" c).
      rewrite basename_from_sep. apply basename_from_plain. exact Hc.
    + change ("/" ++ c) with (String "/" c).
      rewrite basename_from_sep. apply basename_from_plain. exact Hc.
Qed.

Lemma endswith_plain s : posixpath.no_slash s = true -> Py.endswith s "/" = false.
Proof.
  induction s as [|c s IH]; intros H; [reflexivity|].
  destruct (no_slash_cons c s H) as [Hc Hs]. cbn [Py.endswith].
  rewrite (IH Hs), orb_false_r. cbn [String.eqb]. rewrite Hc. reflexivity.
Qed.

Lemma endswith_append a s :
  s <> "" -> Py.endswith (a ++ s) "/" = Py.endswith s "/".
Proof.
  intros Hs. induction a as [|c a IH]; [reflexivity|].
  cbn [append Py.endswith]. rewrite IH.
  assert (H : String.eqb (String c (a ++ s)) "/" = false).
  { cbn [String.eqb]. destruct (Ascii.eqb c "/"); [|reflexivity].
    destruct (a ++ s) eqn:E; [|reflexivity].
    destruct a; [simpl in E; congruence|discriminate]. }
  rewrite H. destruct s as [|x s]; [congruence|].
  cbn [Py.endswith]. reflexivity.
Qed.

(** Joining a name to a path that ends with a name. *)
Lemma join_names a s c :
  posixpath.no_slash s = true -> s <> "" -> posixpath.no_slash c = true ->
  posixpath.join (a ++ s) c = a ++ s ++ String "/" c.
Proof.
  intros Hs Hne Hc. unfold posixpath.join. rewrite (not_absolute c Hc).
  rewrite (endswith_append a s Hne), (endswith_plain s Hs), orb_false_r.
  assert (H : String.eqb (a ++ s) "" = false).
  { destruct (a ++ s) eqn:E; [|reflexivity].
    destruct a; [simpl in E; congruence|discriminate]. }
  rewrite H. rewrite PathFacts.append_assoc. reflexivity.
Qed.

(** What [os.path.join] puts before a relative second argument depends
    on the first argument alone. *)
Lemma join_relative a :
  exists pre, forall c, Py.startswith c "/" = false -> posixpath.join a c = pre ++ c.
Proof.
  destruct (String.eqb a "" || Py.endswith a "/") eqn:H.
  - exists a. intros c Hc. unfold posixpath.join. rewrite Hc, H. reflexivity.
  - exists (a ++ "/"). intros c Hc. unfold posixpath.join. rewrite Hc, H.
    rewrite PathFacts.append_assoc. reflexivity.
Qed.

Lemma append_inj_r (a b c : string) : a ++ c = b ++ c -> a = b.
Proof.
  revert b; induction a as [|x a IH]; intros b H.
  - destruct b as [|y b]; [reflexivity|].
    apply (f_equal String.length) in H. cbn [append String.length] in H.
    rewrite PathMore.length_append in H. lia.
  - destruct b as [|y b].
    + apply (f_equal String.length) in H. cbn [append String.length] in H.
      rewrite PathMore.length_append in H. lia.
    + cbn [append] in H. injection H as -> H. rewrite (IH b H). reflexivity.
Qed.

Lemma split_at_slash s1 s2 r1 r2 :
  posixpath.no_slash s1 = true -> posixpath.no_slash s2 = true ->
  s1 ++ String "/" r1 = s2 ++ String "/" r2 -> s1 = s2 /\ r1 = r2.
Proof.
  revert s2; induction s1 as [|x s1 IH]; intros s2 H1 H2 H.
  - destruct s2 as [|y s2].
    + cbn [append] in H. injection H as ->. auto.
    + destruct (no_slash_cons y s2 H2) as [Hy _]. cbn [append] in H.
      injection H as <- _. discriminate.
  - destruct (no_slash_cons x s1 H1) as [Hx Hs1]. destruct s2 as [|y s2].
    + cbn [append] in H. injection H as -> _. discriminate.
    + destruct (no_slash_cons y s2 H2) as [_ Hs2]. cbn [append] in H.
      injection H as -> H. destruct (IH s2 Hs1 Hs2 H) as [-> ->]. auto.
Qed.

Lemma no_slash_app a b :
  posixpath.no_slash (a ++ b) = posixpath.no_slash a && posixpath.no_slash b.
Proof.
  induction a as [|c a IH]; [reflexivity|].
  unfold posixpath.no_slash in *. cbn [append list_ascii_of_string forallb].
  rewrite IH, andb_assoc. reflexivity.
Qed.

End NameFacts.

Lemma snippy_output_dir_shape self :
  exists pre,
    forall strain sample,
      posixpath.no_slash strain = true -> strain <> "" ->
      posixpath.no_slash sample = true ->
      Snippy.output_dir self strain sample
      = (pre ++ strain ++ String "/" (sample ++ "_mysnps"))%string.
Proof.
  destruct (NameFacts.join_relative (Snippy.output_base_dir self)) as [pre Hpre].
  exists pre. intros strain sample Hs Hne Hn.
  unfold Snippy.output_dir, posixpath.join3.
  rewrite (Hpre strain (NameFacts.not_absolute _ Hs)).
  apply NameFacts.join_names; [exact Hs|exact Hne|].
  rewrite NameFacts.no_slash_app, Hn. reflexivity.
Qed.

(** X15. Where the results of a sample go.  The Snippy driver gives
    two samples one output directory only if they are the same sample of
    the same strain.  The SPAdes driver names the output directory after
    the last component of the sample path alone: two samples with the
    same file stem found under different directories of the root are
    assembled into one and the same directory. *)
Theorem output_directories :
  (forall (self : Snippy.t) strain1 sample1 strain2 sample2,
      posixpath.is_name strain1 = true -> posixpath.is_name strain2 = true ->
      posixpath.no_slash sample1 = true -> posixpath.no_slash sample2 = true ->
      Snippy.output_dir self strain1 sample1 = Snippy.output_dir self strain2 sample2 ->
      strain1 = strain2 /\ sample1 = sample2)
  /\
  (forall (self : Spades.t) directory1 directory2 stem,
      posixpath.no_slash stem = true ->
      Spades.assembly_dir self (posixpath.join3 directory1 "ILLUMINA_DATA" stem)
      = posixpath.join (Spades.base_output_dir self) (stem ++ "_assembly")
      /\ Spades.assembly_dir self (posixpath.join3 directory1 "ILLUMINA_DATA" stem)
         = Spades.assembly_dir self (posixpath.join3 directory2 "ILLUMINA_DATA" stem)).
Proof.
  split.
  - intros self strain1 sample1 strain2 sample2 H1 H2 Hn1 Hn2 H.
    destruct (PathFacts.is_name_spec _ H1) as (Hne1 & _ & _ & Hs1).
    destruct (PathFacts.is_name_spec _ H2) as (Hne2 & _ & _ & Hs2).
    destruct (snippy_output_dir_shape self) as [pre Hpre].
    rewrite (Hpre _ _ Hs1 Hne1 Hn1), (Hpre _ _ Hs2 Hne2 Hn2) in H.
    apply PathMore.append_inj_l in H.
    destruct (NameFacts.split_at_slash _ _ _ _ Hs1 Hs2 H) as [-> H'].
    apply NameFacts.append_inj_r in H'. auto.
  - intros self directory1 directory2 stem Hs.
    unfold Spades.assembly_dir, posixpath.join3.
    rewrite !(NameFacts.basename_join _ stem Hs). auto.
Qed.

(** The stem [X] under the directories [X] and [W]: one assembly
    directory for both. *)
Lemma output_directories_witness :
  Spades.assembly_dir Demo.spades_self "X/ILLUMINA_DATA/X" = "out/X_assembly"
  /\ Spades.assembly_dir Demo.spades_self "X/ILLUMINA_DATA/X"
     = Spades.assembly_dir Demo.spades_self "W/ILLUMINA_DATA/X".
Proof.
  exact (proj2 output_directories Demo.spades_self "X" "W" "X" eq_refl).
Defined.

(** ** From discovery to decompression *)

Lemma sample_path_shape directory x :
  posixpath.is_name directory = true -> posixpath.no_slash x = true ->
  posixpath.join3 directory "ILLUMINA_DATA" x
  = (directory ++ "/ILLUMINA_DATA/" ++ x)%string.
Proof.
  intros Hd Hx. destruct (PathFacts.is_name_spec _ Hd) as (Hne & _ & _ & Hs).
  unfold posixpath.join3.
  pose proof (NameFacts.join_names "" directory "ILLUMINA_DATA" Hs Hne eq_refl) as H1.
  cbn [append] in H1. rewrite H1.
  pose proof (NameFacts.join_names (directory ++ "/") "ILLUMINA_DATA" x eq_refl) as H2.
  rewrite PathFacts.append_assoc in H2. cbn [append] in H2.
  rewrite H2; [|discriminate|exact Hx].
  rewrite PathFacts.append_assoc. reflexivity.
Qed.

Lemma input_path_shape base directory name :
  posixpath.is_name directory = true -> posixpath.no_slash name = true ->
  posixpath.join (posixpath.join3 base directory "ILLUMINA_DATA") name
  = posixpath.join base (directory ++ "/ILLUMINA_DATA/" ++ name)%string.
Proof.
  intros Hd Hn. destruct (PathFacts.is_name_spec _ Hd) as (Hne & _ & _ & Hs).
  destruct (NameFacts.join_relative base) as [pre Hpre].
  unfold posixpath.join3.
  rewrite (Hpre directory (NameFacts.not_absolute _ Hs)).
  rewrite (NameFacts.join_names pre directory "ILLUMINA_DATA" Hs Hne eq_refl).
  pose proof (NameFacts.join_names (pre ++ directory ++ "/") "ILLUMINA_DATA" name eq_refl)
    as H2.
  rewrite !PathFacts.append_assoc in H2. cbn [append] in H2.
  cbn [append]. rewrite H2; [|discriminate|exact Hn].
  rewrite Hpre.
  - rewrite ?PathFacts.append_assoc. reflexivity.
  - rewrite PathFacts.startswith_slash_app; [|exact Hne].
    apply NameFacts.not_absolute. exact Hs.
Qed.

Lemma sample_file_path self directory x s :
  posixpath.is_name directory = true -> posixpath.no_slash x = true ->
  posixpath.no_slash s = true ->
  posixpath.join (Spades.base_input_dir self)
                 (posixpath.join3 directory "ILLUMINA_DATA" x ++ s)
  = posixpath.join (posixpath.join3 (Spades.base_input_dir self) directory "ILLUMINA_DATA")
                   (x ++ s).
Proof.
  intros Hd Hx Hs.
  rewrite (sample_path_shape directory x Hd Hx).
  rewrite (input_path_shape _ directory (x ++ s) Hd).
  - rewrite !PathFacts.append_assoc. reflexivity.
  - rewrite NameFacts.no_slash_app, Hx, Hs. reflexivity.
Qed.

(** X16. Discovery and decompression agree on the files of a sample.
    For a forward file [x_R1_trimmed.fastq.gz] listed in
    [root/directory/ILLUMINA_DATA] (the marker occurring at the end of
    the name only), discovery tests the existence of
    [x_R2_trimmed.fastq.gz] in that directory and, if it is there, names
    the sample [directory/ILLUMINA_DATA/x]; the compressed files
    [decompress_fastq] opens for that sample are that forward file and
    that counterpart, and its targets are entries of the same
    directory. *)
Theorem discovered_files_are_opened (self : Spades.t) (f : Fs.t) (directory x : string) :
  posixpath.is_name directory = true ->
  posixpath.no_slash x = true ->
  only_at_end "_R1_trimmed.fastq.gz" x = true ->
  let input_dir := posixpath.join3 (Spades.base_input_dir self) directory "ILLUMINA_DATA" in
  let sample := posixpath.join3 directory "ILLUMINA_DATA" x in
  spades_file_sample f directory input_dir (x ++ "_R1_trimmed.fastq.gz")
  = (if Fs.exists_ f (posixpath.join input_dir (x ++ "_R2_trimmed.fastq.gz"))
     then [sample] else [])
  /\ Spades.r1_gz self sample = posixpath.join input_dir (x ++ "_R1_trimmed.fastq.gz")
  /\ Spades.r2_gz self sample = posixpath.join input_dir (x ++ "_R2_trimmed.fastq.gz")
  /\ Spades.r1_fastq self sample = posixpath.join input_dir (x ++ "_R1_trimmed.fastq")
  /\ Spades.r2_fastq self sample = posixpath.join input_dir (x ++ "_R2_trimmed.fastq").
Proof.
  intros Hd Hx Hend input_dir sample. split.
  - unfold spades_file_sample, Spades.r1_suffix, Spades.r2_suffix.
    rewrite !(PathFacts.replace_suffix "_R1_trimmed.fastq.gz" _ x) by (discriminate || exact Hend).
    rewrite PathFacts.append_nil_r. reflexivity.
  - unfold Spades.r1_gz, Spades.r2_gz, Spades.r1_fastq, Spades.r2_fastq.
    repeat split; apply sample_file_path; solve [assumption | reflexivity].
Qed.

(** Sample [X] of the demonstration tree. *)
Lemma discovered_files_are_opened_witness :
  spades_file_sample Demo.spades_fs "X" "in/X/ILLUMINA_DATA" "X_R1_trimmed.fastq.gz"
  = ["X/ILLUMINA_DATA/X"]
  /\ Spades.r2_gz Demo.spades_self "X/ILLUMINA_DATA/X"
     = "in/X/ILLUMINA_DATA/X_R2_trimmed.fastq.gz".
Proof.
  destruct (discovered_files_are_opened Demo.spades_self Demo.spades_fs "X" "X"
              eq_refl eq_refl eq_refl) as (H1 & _ & H2 & _).
  split; [exact H1|exact H2].
Defined.

(** ** A sample without its read directory *)






(** ** A sample of the SPAdes driver, from the compressed files to the tool *)



(** ** What the drivers leave of the tree *)

Lemma extends_refl f : extends f f.
Proof. split; [reflexivity|split; [apply FsMore.keeps_refl|auto]]. Qed.

Lemma extends_trans f1 f2 f3 : extends f1 f2 -> extends f2 f3 -> extends f1 f3.
Proof.
  intros (C1 & K1 & F1) (C2 & K2 & F2). split; [congruence|split].
  - exact (FsMore.keeps_trans _ _ _ K1 K2).
  - auto.
Qed.

Lemma extends_read f f' p d : extends f f' -> Fs.read f p = inr d -> Fs.read f' p = inr d.
Proof.
  intros (C & K & F). unfold Fs.read, Fs.stat.
  destruct (Fs.resolve f p) as [e|q] eqn:Hr; [discriminate|].
  rewrite (FsMore.resolve_keeps _ _ _ _ K C Hr).
  destruct (Fs.get (Fs.root f) q) as [[d0|es]|] eqn:Hg; try discriminate.
  intros H. injection H as <-. rewrite (F _ _ Hg). reflexivity.
Qed.

Lemma makedirs_walk_files cs r cur r' e y d :
  Fs.makedirs_walk r cur cs = (r', e) ->
  Fs.get r y = Some (Fs.File d) -> Fs.get r' y = Some (Fs.File d).
Proof.
  revert r cur; induction cs as [|c cs IH]; intros r cur H Hy; simpl in H.
  - injection H as <- _. exact Hy.
  - destruct (Fs.get r cur) as [[d0|es]|] eqn:Hcur;
      try (injection H as <- _; exact Hy).
    destruct (String.eqb c "" || String.eqb c "."); [eapply IH; eassumption|].
    destruct (String.eqb c ".."); [eapply IH; eassumption|].
    destruct (Fs.assoc c es) as [[d1|es']|] eqn:Hc.
    + injection H as <- _. exact Hy.
    + eapply IH; eassumption.
    + eapply IH; [exact H|].
      assert (Hnone : Fs.get r (cur ++ [c]) = None).
      { rewrite FsFacts.get_app, Hcur. simpl. rewrite Hc. reflexivity. }
      apply (FsMore.put_file_other cur c r es); [exact Hcur| |exact Hy|].
      * rewrite Hnone. reflexivity.
      * intros ->. congruence.
Qed.

Lemma makedirs_extends f p f' e : Fs.makedirs f p = (f', e) -> extends f f'.
Proof.
  intros H. destruct (FsMore.makedirs_keeps _ _ _ _ H) as [K C].
  split; [exact C|split; [exact K|]].
  unfold Fs.makedirs in H. destruct (String.eqb p "").
  - injection H as <- _. auto.
  - destruct (Fs.makedirs_walk _ _ _) as [r e'] eqn:Hw. injection H as <- _.
    cbn [Fs.root Fs.with_root]. intros y d. exact (makedirs_walk_files _ _ _ _ _ _ _ Hw).
Qed.

Lemma retains_refl f : retains f f.
Proof. split; [reflexivity|apply FsMore.keeps_refl]. Qed.

Lemma retains_trans f1 f2 f3 : retains f1 f2 -> retains f2 f3 -> retains f1 f3.
Proof.
  intros (C1 & K1) (C2 & K2). split; [congruence|].
  exact (FsMore.keeps_trans _ _ _ K1 K2).
Qed.

Lemma makedirs_retains f p f' e : Fs.makedirs f p = (f', e) -> retains f f'.
Proof. intros H. destruct (FsMore.makedirs_keeps _ _ _ _ H) as [K C]. split; assumption. Qed.

Lemma write_retains f p d f' : Fs.write f p d = inr f' -> retains f f'.
Proof.
  intros H. split; [exact (FsMore.cwd_write _ _ _ _ H)|exact (FsMore.write_keeps _ _ _ _ H)].
Qed.

Section Frame.

Variable R : Fs.t -> Fs.t -> Prop.

Hypothesis R_refl : forall f, R f f.
Hypothesis R_trans : forall f1 f2 f3, R f1 f2 -> R f2 f3 -> R f1 f3.
Hypothesis R_makedirs : forall f p f' e, Fs.makedirs f p = (f', e) -> R f f'.
Hypothesis R_write : forall f p d f', Fs.write f p d = inr f' -> R f f'.

Variable E : env.
Hypothesis R_tool : tool_framed R E.

Lemma framed_ret {A} (a : A) : framed R (ret a).
Proof. intros st. apply R_refl. Qed.

Lemma framed_raise {A} (e : exn) : framed R (@raise A e).
Proof. intros st. apply R_refl. Qed.

Lemma framed_bind {A B} (m : M A) (k : A -> M B) :
  framed R m -> (forall a, framed R (k a)) -> framed R (bind m k).
Proof.
  intros Hm Hk st. unfold bind. specialize (Hm st).
  destruct (m st) as [[e|a] st1]; cbn [snd] in *; [exact Hm|].
  exact (R_trans _ _ _ Hm (Hk a st1)).
Qed.

Lemma framed_try {A} (m : M A) (h : exn -> option (M A)) :
  framed R m -> (forall e k, h e = Some k -> framed R k) -> framed R (try_except m h).
Proof.
  intros Hm Hh st. unfold try_except. specialize (Hm st).
  destruct (m st) as [[e|a] st1]; cbn [snd] in *; [|exact Hm].
  destruct (h e) as [k|] eqn:Hk; [|exact Hm].
  exact (R_trans _ _ _ Hm (Hh e k Hk st1)).
Qed.

Lemma framed_emit ev : framed R (emit ev).
Proof. intros st. apply R_refl. Qed.

Lemma framed_log lv msg : framed R (Os.log lv msg).
Proof. intros st. apply R_refl. Qed.

Lemma framed_print line : framed R (Os.print line).
Proof. intros st. apply R_refl. Qed.

Lemma framed_input text : framed R (Os.input text).
Proof. intros st. unfold Os.input. destruct (stdin st); apply R_refl. Qed.

Lemma framed_path_exists p : framed R (Os.path_exists p).
Proof. intros st. apply R_refl. Qed.

Lemma framed_path_isdir p : framed R (Os.path_isdir p).
Proof. intros st. apply R_refl. Qed.

Lemma framed_listdir p : framed R (Os.listdir p).
Proof.
  unfold Os.listdir. apply framed_bind; [apply framed_emit|intros _]. intros st.
  destruct (Fs.listdir (fs st) p); apply R_refl.
Qed.

Lemma framed_makedirs p : framed R (Os.makedirs p).
Proof.
  unfold Os.makedirs. apply framed_bind; [apply framed_emit|intros _]. intros st.
  destruct (Fs.makedirs (fs st) p) as [f e] eqn:Hm.
  apply R_makedirs in Hm. destruct e; exact Hm.
Qed.

Lemma framed_subprocess_run cmd : framed R (Os.subprocess_run E cmd).
Proof.
  unfold Os.subprocess_run. apply framed_bind; [apply framed_emit|intros _].
  intros st. pose proof (R_tool (spawned st) cmd (fs st)) as H.
  destruct (tool E (spawned st) cmd (fs st)) as [[rc out err|k] r]; cbn [snd] in *.
  - destruct (rc =? 0)%Z; exact H.
  - apply R_refl.
Qed.

Lemma framed_gunzip_to src dst : framed R (Os.gunzip_to E src dst).
Proof.
  unfold Os.gunzip_to.
  apply framed_bind; [apply framed_emit|intros _].
  apply framed_bind.
  { intros st. destruct (Fs.read (fs st) src); apply R_refl. }
  intros z. apply framed_bind; [apply framed_emit|intros _].
  destruct (gunzip E z) as [data err]. intros st. unfold bind.
  destruct (Fs.write (fs st) dst data) as [k|f'] eqn:Hw; cbn [lift_os].
  - apply R_refl.
  - apply R_write in Hw. destruct err; exact Hw.
Qed.

Lemma framed_for_each {A S} (l : list A) (body : A -> S -> M S) :
  (forall x acc, framed R (body x acc)) -> forall acc, framed R (Os.for_each l body acc).
Proof.
  intros Hb. induction l as [|x l IH]; intros acc; simpl.
  - apply framed_ret.
  - apply framed_bind; [apply Hb|exact IH].
Qed.

Lemma framed_filter_m {A} (p : A -> M bool) (l : list A) :
  (forall x, framed R (p x)) -> framed R (Os.filter_m p l).
Proof.
  intros Hp. induction l as [|x l IH]; simpl.
  - apply framed_ret.
  - apply framed_bind; [apply Hp|intros b].
    apply framed_bind; [exact IH|intros r]. apply framed_ret.
Qed.

Lemma framed_ask_loop text err ok pending :
  (forall v, framed R (ok v)) -> framed R (Os.ask_loop text err ok pending).
Proof.
  intros Hok. induction pending as [|l rest IH]; cbn [Os.ask_loop].
  - apply framed_input.
  - apply framed_bind; [apply framed_input|intros line].
    apply framed_bind; [apply Hok|intros b].
    destruct b; [apply framed_ret|].
    apply framed_bind; [apply framed_print|intros _; exact IH].
Qed.

Lemma framed_ask_until text err ok :
  (forall v, framed R (ok v)) -> framed R (Os.ask_until text err ok).
Proof. intros Hok st. unfold Os.ask_until. apply framed_ask_loop. exact Hok. Qed.

Ltac framed_step :=
  match goal with
  | |- framed R (bind _ _) => apply framed_bind; [|intros ?]
  | |- framed R (ret _) => apply framed_ret
  | |- framed R (raise _) => apply framed_raise
  | |- framed R (Os.log _ _) => apply framed_log
  | |- framed R (Os.print _) => apply framed_print
  | |- framed R (Os.input _) => apply framed_input
  | |- framed R (Os.path_exists _) => apply framed_path_exists
  | |- framed R (Os.path_isdir _) => apply framed_path_isdir
  | |- framed R (Os.listdir _) => apply framed_listdir
  | |- framed R (Os.makedirs _) => apply framed_makedirs
  | |- framed R (Os.subprocess_run _ _) => apply framed_subprocess_run
  | |- framed R (Os.gunzip_to _ _ _) => apply framed_gunzip_to
  | |- framed R (if ?c then _ else _) => destruct c
  | |- framed R (match ?l with [] => _ | _ :: _ => _ end) => destruct l
  | |- framed R (let '(_, _) := ?p in _) => destruct p
  end.

(** *** The Snippy driver *)

Lemma snippy_get_user_inputs_framed : framed R Snippy.get_user_inputs.
Proof.
  unfold Snippy.get_user_inputs.
  repeat first [ framed_step
               | apply framed_ask_until; intros v; unfold Snippy.nonempty_and_exists ].
Qed.

Lemma snippy_get_samples_framed self : framed R (Snippy.get_samples self).
Proof.
  unfold Snippy.get_samples. repeat framed_step.
  apply framed_for_each. intros strain acc. unfold Snippy.scan_strain.
  repeat framed_step.
  apply framed_for_each. intros item acc'. unfold Snippy.scan_item.
  repeat framed_step.
Qed.

Lemma snippy_get_fastq_files_framed self strain sample :
  framed R (Snippy.get_fastq_files self strain sample).
Proof. unfold Snippy.get_fastq_files. repeat framed_step. Qed.

Lemma snippy_run_framed self strain sample r1 r2 :
  framed R (Snippy.run_snippy E self strain sample r1 r2).
Proof.
  unfold Snippy.run_snippy. repeat framed_step.
  apply framed_try.
  - repeat framed_step.
  - intros e k Hk.
    destruct e as [[] msg|rc c out err|msg|cls msg]; try discriminate;
      injection Hk as <-; repeat framed_step.
Qed.

Lemma snippy_validate_framed self : framed R (Snippy.validate_inputs E self).
Proof.
  unfold Snippy.validate_inputs. repeat framed_step.
  apply framed_try.
  - repeat framed_step.
  - intros e k Hk. destruct (is_CalledProcessError e || is_FileNotFoundError e);
      [|discriminate]. injection Hk as <-. repeat framed_step.
Qed.

Lemma snippy_process_framed self s c : framed R (Snippy.process_sample E self s c).
Proof.
  unfold Snippy.process_sample. destruct s as [strain sample], c as [sc fc].
  apply framed_try.
  - apply framed_bind; [apply snippy_get_fastq_files_framed|intros [r1 r2]].
    apply framed_bind; [apply snippy_run_framed|intros ?].
    repeat framed_step.
  - intros e k Hk. injection Hk as <-. repeat framed_step.
Qed.

Lemma snippy_run_analysis_framed self : framed R (Snippy.run_analysis E self).
Proof.
  unfold Snippy.run_analysis.
  framed_step; [framed_step|].
  apply framed_bind; [apply snippy_validate_framed|intros valid].
  destruct valid; cbn [negb]; [|framed_step].
  apply framed_bind; [apply snippy_get_samples_framed|intros samples].
  destruct (negb (Py.nonempty samples)); [framed_step|].
  apply framed_bind.
  - apply framed_for_each. intros s c. apply snippy_process_framed.
  - intros [sc fc]. repeat framed_step.
Qed.

Lemma snippy_main_framed : framed R (Snippy.main E).
Proof.
  unfold Snippy.main. apply framed_try.
  - apply framed_bind; [apply snippy_get_user_inputs_framed|intros cfg].
    apply framed_bind.
    + unfold Snippy.init. repeat framed_step.
    + intros self. apply snippy_run_analysis_framed.
  - intros e k Hk. injection Hk as <-. apply framed_print.
Qed.

(** *** The SPAdes driver *)

Lemma spades_get_user_inputs_framed : framed R Spades.get_user_inputs.
Proof.
  unfold Spades.get_user_inputs.
  repeat first [ framed_step
               | apply framed_ask_until; intros v; unfold Spades.nonempty_and_exists ].
Qed.

Lemma spades_get_samples_framed self : framed R (Spades.get_samples self).
Proof.
  unfold Spades.get_samples. repeat framed_step.
  - apply framed_filter_m. intros d. apply framed_path_isdir.
  - apply framed_for_each. intros d acc. unfold Spades.scan_directory.
    repeat framed_step.
    apply framed_for_each. intros r1 acc'. unfold Spades.scan_r1.
    repeat framed_step.
Qed.

Lemma spades_decompress_one_framed read gz fastq :
  framed R (Spades.decompress_one E read gz fastq).
Proof.
  unfold Spades.decompress_one. repeat framed_step.
  apply framed_try.
  - repeat framed_step.
  - intros e k Hk. injection Hk as <-. repeat framed_step.
Qed.

Lemma spades_decompress_framed self sp : framed R (Spades.decompress_fastq E self sp).
Proof.
  unfold Spades.decompress_fastq.
  repeat first [ apply spades_decompress_one_framed | framed_step ].
Qed.

Lemma spades_run_framed self sp r1 r2 : framed R (Spades.run_spades E self sp r1 r2).
Proof.
  unfold Spades.run_spades. repeat framed_step.
  apply framed_try.
  - repeat framed_step.
  - intros e k Hk.
    destruct e as [[] msg|rc c out err|msg|cls msg]; try discriminate;
      injection Hk as <-; repeat framed_step.
Qed.

Lemma spades_validate_framed self : framed R (Spades.validate_inputs E self).
Proof.
  unfold Spades.validate_inputs. repeat framed_step.
  apply framed_try.
  - repeat framed_step.
  - intros e k Hk. destruct (is_CalledProcessError e || is_FileNotFoundError e);
      [|discriminate]. injection Hk as <-. repeat framed_step.
Qed.

Lemma spades_process_framed self sp c : framed R (Spades.process_sample E self sp c).
Proof.
  unfold Spades.process_sample. destruct c as [sc fc].
  apply framed_try.
  - framed_step; [framed_step|].
    apply framed_bind; [apply spades_decompress_framed|intros [r1 r2]].
    apply framed_bind; [apply spades_run_framed|intros ?].
    repeat framed_step.
  - intros e k Hk. injection Hk as <-. repeat framed_step.
Qed.

Lemma spades_run_assembly_framed self : framed R (Spades.run_assembly E self).
Proof.
  unfold Spades.run_assembly.
  framed_step; [framed_step|].
  apply framed_bind; [apply spades_validate_framed|intros valid].
  destruct valid; cbn [negb]; [|framed_step].
  apply framed_bind; [apply spades_get_samples_framed|intros samples].
  destruct (negb (Py.nonempty samples)); [framed_step|].
  apply framed_bind.
  - apply framed_for_each. intros s c. apply spades_process_framed.
  - intros [sc fc]. repeat framed_step.
Qed.

Lemma spades_main_framed : framed R (Spades.main E).
Proof.
  unfold Spades.main. apply framed_try.
  - apply framed_bind; [apply spades_get_user_inputs_framed|intros cfg].
    apply framed_bind.
    + unfold Spades.init. repeat framed_step.
    + intros self. apply spades_run_assembly_framed.
  - intros e k Hk. injection Hk as <-. apply framed_print.
Qed.

End Frame.

(** X19. The Snippy driver only adds to the tree.  Whatever the user
    types and whatever happens to the samples, if the tool itself
    removes and overwrites nothing, then after [main] every path that
    existed still exists, every directory is still a directory and every
    regular file reads as before: the driver creates directories and,
    its log file apart (log records are kept in the trace, not in the
    tree), writes no file. *)
Theorem snippy_only_adds (E : env) (st : state) :
  tool_framed extends E ->
  forall p,
    (Fs.exists_ (fs st) p = true -> Fs.exists_ (fs (snd (Snippy.main E st))) p = true)
    /\ (Fs.isdir (fs st) p = true -> Fs.isdir (fs (snd (Snippy.main E st))) p = true)
    /\ (forall d, Fs.read (fs st) p = inr d ->
                  Fs.read (fs (snd (Snippy.main E st))) p = inr d).
Proof.
  intros HE p.
  pose proof (snippy_main_framed extends extends_refl extends_trans makedirs_extends E HE st)
    as H.
  destruct H as (C & K & F). split; [|split].
  - apply FsMore.exists_keeps; assumption.
  - apply FsMore.isdir_keeps; assumption.
  - intros d. apply extends_read. split; [exact C|split; [exact K|exact F]].
Qed.

(** A full run on the demonstration tree. *)
Lemma snippy_only_adds_witness :
  Fs.read
    (fs (snd (Snippy.main Demo.succeeds
                (Demo.start Demo.snippy_fs ["data"; "out"; "ref.fa"; "4"]))))
    "data/Staphylococcusaureus/MCR_CVU_1/ILLUMINA_DATA/a_R1_trimmed.fastq"
  = inr [].
Proof.
  refine (proj2 (proj2 (snippy_only_adds Demo.succeeds
                          (Demo.start Demo.snippy_fs ["data"; "out"; "ref.fa"; "4"]) _ _))
                [] _).
  - intros n cmd f. destruct f as [r c]. apply extends_refl.
  - vm_compute. reflexivity.
Defined.

(** X20. The SPAdes driver removes nothing.  It writes files, the
    decompressed reads, but whatever the user types, whatever the decoder
    makes of the compressed files and whatever happens to the samples, if
    the tool itself removes nothing, then after [main] every path that
    existed still exists and every directory is still a directory: no
    input is deleted, and nothing decompressed is cleaned up after a
    failure. *)
Theorem spades_removes_nothing (E : env) (st : state) :
  tool_framed retains E ->
  forall p,
    (Fs.exists_ (fs st) p = true -> Fs.exists_ (fs (snd (Spades.main E st))) p = true)
    /\ (Fs.isdir (fs st) p = true -> Fs.isdir (fs (snd (Spades.main E st))) p = true).
Proof.
  intros HE p.
  pose proof (spades_main_framed retains retains_refl retains_trans makedirs_retains
                write_retains E HE st) as H.
  destruct H as (C & K). split.
  - apply FsMore.exists_keeps; assumption.
  - apply FsMore.isdir_keeps; assumption.
Qed.

(** A full run on the demonstration tree, in which the tool fails for
    want of its output directory: the compressed reads of [X] are still
    there. *)
Lemma spades_removes_nothing_witness :
  Fs.exists_
    (fs (snd (Spades.main Demo.wants_outdir (Demo.start Demo.spades_fs ["in"; "out"; "4"]))))
    "in/X/ILLUMINA_DATA/X_R1_trimmed.fastq.gz"
  = true.
Proof.
  refine (proj1 (spades_removes_nothing Demo.wants_outdir
                   (Demo.start Demo.spades_fs ["in"; "out"; "4"]) _ _) _).
  - intros n cmd f. destruct f as [r c]. cbn [tool Demo.wants_outdir snd].
    destruct cmd as [|a [|b [|c' cmd]]]; cbn [snd];
      try (destruct (Fs.isdir _ _)); apply retains_refl.
  - vm_compute. reflexivity.
Defined.
